(** * Smart-Kitchen-AI: inventory ledger and order fulfilment

    A shallow embedding of the back-end controllers and utilities
    (dailyInventory.controller.js, inventory.controller.js,
    order.controller.js, stockChecker.js, expiredItemsHandler.js) and of
    the order form of the front end (OrderManagement.jsx), together with
    the properties of the specification that are settled against them and
    further properties of the code.

    Conventions of the embedding:
    - a MongoDB collection addressed by [_id] is a [gmap] from ids to
      documents; the daily entries, whose natural order matters for sorted
      queries, are a list of documents carrying their [_id];
    - a JavaScript [Date] is its number of milliseconds since the epoch,
      and the clock reading [new Date()] of a request is the parameter
      [now]; local time is taken to be UTC;
    - JavaScript numbers (quantities, costs, prices) are integers: the
      embedding is the code on whole numbers (below 2^53), on which the
      arithmetic of JavaScript's binary64 numbers is exact; what the ledger
      computes on quantities with a fractional part is in module [Doubles];
    - [asyncHandler] (utils/asyncHandler.js, not among the sources at hand)
      hands the wrapped function's result and thrown error to the caller,
      as the specification has it for the ledger's [deduct];
    - the acting user ([addedBy], [lastUpdatedBy], [loggedBy], ...) is left
      out of the documents;
    - database writes themselves do not fail. *)

From Stdlib Require PrimFloat Uint63.
From stdpp Require Import gmap strings list fin_maps sorting.

#[local] Open Scope Z_scope.

Abbreviation ObjectId := Z (only parsing).
Abbreviation Date := Z (only parsing).

(** ** Documents *)

(** models/inventory/dailyInventoryEntry.model.js *)
Record DailyInventoryEntry := mkEntry {
  entry_id : ObjectId;
  entry_date : Date;
  entry_inventoryItem : ObjectId;
  entry_quantity : Z;
  entry_cost : option Z;
  entry_expiryDate : option Date;
  entry_remainingQuantity : Z;
  entry_createdAt : Date
}.

(** models/inventory/dayStatus.model.js; one document per [date]
    ([unique: true]), so the collection is keyed by the date. *)
Record DayStatus := mkDayStatus {
  day_isEnded : bool;
  day_endedAt : option Date
}.

(** The fields of an inventory item that the controllers read or write. *)
Record InventoryItem := mkItem {
  item_name : string;
  item_unit : string;
  item_quantity : Z;
  item_currentStock : Z;
  item_cost : option Z;
  item_minThreshold : option Z;
  item_expiryDate : option Date;
  item_status : string
}.

(** One line of a menu item's [ingredients] array. *)
Record Ingredient := mkIngredient {
  ing_ingredient : ObjectId;
  ing_quantity : Z;
  ing_unit : string
}.

Record MenuItem := mkMenuItem {
  menu_name : string;
  menu_ingredients : list Ingredient
}.

(** A validated order line, as stored in [Order.items]. *)
Record OrderLine := mkOrderLine {
  line_menuItem : ObjectId;
  line_quantity : Z;
  line_unitPrice : Z;
  line_totalPrice : Z
}.

Record Order := mkOrder {
  order_restaurant : string;
  order_customerName : string;
  order_orderType : string;
  order_items : list OrderLine;
  order_subtotal : Z;
  order_tax : option Z;
  order_discount : option Z;
  order_totalAmount : Z;
  order_notes : string;
  order_status : string;
  order_estimatedTime : option Date;
  order_actualDeliveryTime : option Date
}.

Record WasteLog := mkWasteLog {
  waste_id : ObjectId;
  waste_ingredient : ObjectId;
  waste_category : string;
  waste_quantity : Z;
  waste_unit : string;
  waste_loggedAt : Date
}.

Record Inventorylog := mkInventorylog {
  log_ingredient : ObjectId;
  log_change : Z;
  log_reason : string;
  log_date : Date
}.

Record Sale := mkSale {
  sale_product : ObjectId;
  sale_quantitySold : Z;
  sale_saleDate : Date
}.

(** ** Errors and results *)

(** One entry of [missingIngredients] built by the stock checker.
    [ingredient] is the reference that the checker was given for the
    ingredient, here the id the recipe stores; a caller that hands over
    populated ingredients hands over [null] for a reference whose item is
    gone. *)
Record MissingIngredient := mkMissing {
  miss_ingredient : ObjectId;
  miss_name : string;
  miss_required : Z;
  miss_available : Z;
  miss_unit : string;
  miss_reason : string
}.

(** The [apiError]s thrown by the controllers, one constructor per message
    template, and the [TypeError] raised on a property read of [null]. *)
Inductive apiError :=
  | DayHasBeenEnded
  | ItemIdAndQuantityRequired
  | QuantityMustBePositive
  | InventoryItemNotFound
  | CostMustBeNonNegative
  | InsufficientDailyStock (required available : Z)
  | DayAlreadyEnded
  | TodayAlreadyEnded
  | YesterdayNotEnded
  | AuthenticationRequired
  | RestaurantMissing
  | NameAndItemsRequired
  | MenuItemIdRequired
  | InvalidLineQuantity
  | InvalidUnitPrice
  | MenuItemNotFound (menuItem : ObjectId)
  | NoIngredientsConfigured (menuItem : ObjectId)
  | DishOutOfStock (menuItem : ObjectId) (missing : list MissingIngredient)
  | InsufficientStockFor (ingredient : ObjectId) (available required : Z)
  | StatusRequired
  | InvalidStatus
  | OrderNotFound
  | CannotEditClosedOrder
  | TypeError.

Definition statusCode (e : apiError) : Z :=
  match e with
  | AuthenticationRequired => 401
  | OrderNotFound => 404
  | InventoryItemNotFound => 404
  | TypeError => 500
  | _ => 400
  end.

Inductive result (A : Type) :=
  | Ok (a : A)
  | Err (e : apiError).
Arguments Ok {A} a.
Arguments Err {A} e.

(** What [console.error] receives. *)
Inductive LogEvent :=
  | LogMenuItemMissing (menuItem : option ObjectId)
  | LogInvalidIngredientRef (menuItem : ObjectId)
  | LogInventoryUpdateError (ingredient : ObjectId) (e : apiError)
  | LogOrderItemError (menuItem : ObjectId) (e : apiError).

(** ** The database *)

Record Db := mkDb {
  inventoryItems : gmap Z InventoryItem;
  dailyEntries : list DailyInventoryEntry;
  dayStatuses : gmap Z DayStatus;
  menuItems : gmap Z MenuItem;
  orders : gmap Z Order;
  wasteLogs : list WasteLog;
  inventoryLogs : list Inventorylog;
  sales : list Sale;
  console : list LogEvent
}.

Definition with_inventoryItems (f : gmap Z InventoryItem → gmap Z InventoryItem)
    (db : Db) : Db :=
  mkDb (f (inventoryItems db)) (dailyEntries db) (dayStatuses db) (menuItems db)
       (orders db) (wasteLogs db) (inventoryLogs db) (sales db) (console db).

Definition with_dailyEntries (f : list DailyInventoryEntry → list DailyInventoryEntry)
    (db : Db) : Db :=
  mkDb (inventoryItems db) (f (dailyEntries db)) (dayStatuses db) (menuItems db)
       (orders db) (wasteLogs db) (inventoryLogs db) (sales db) (console db).

Definition with_dayStatuses (f : gmap Z DayStatus → gmap Z DayStatus) (db : Db) : Db :=
  mkDb (inventoryItems db) (dailyEntries db) (f (dayStatuses db)) (menuItems db)
       (orders db) (wasteLogs db) (inventoryLogs db) (sales db) (console db).

Definition with_orders (f : gmap Z Order → gmap Z Order) (db : Db) : Db :=
  mkDb (inventoryItems db) (dailyEntries db) (dayStatuses db) (menuItems db)
       (f (orders db)) (wasteLogs db) (inventoryLogs db) (sales db) (console db).

Definition with_wasteLogs (f : list WasteLog → list WasteLog) (db : Db) : Db :=
  mkDb (inventoryItems db) (dailyEntries db) (dayStatuses db) (menuItems db)
       (orders db) (f (wasteLogs db)) (inventoryLogs db) (sales db) (console db).

Definition with_inventoryLogs (f : list Inventorylog → list Inventorylog) (db : Db) : Db :=
  mkDb (inventoryItems db) (dailyEntries db) (dayStatuses db) (menuItems db)
       (orders db) (wasteLogs db) (f (inventoryLogs db)) (sales db) (console db).

Definition with_sales (f : list Sale → list Sale) (db : Db) : Db :=
  mkDb (inventoryItems db) (dailyEntries db) (dayStatuses db) (menuItems db)
       (orders db) (wasteLogs db) (inventoryLogs db) (f (sales db)) (console db).

Definition console_error (ev : LogEvent) (db : Db) : Db :=
  mkDb (inventoryItems db) (dailyEntries db) (dayStatuses db) (menuItems db)
       (orders db) (wasteLogs db) (inventoryLogs db) (sales db) (console db ++ [ev]).

(** [$inc: { currentStock: d }] on an inventory item. *)
Definition incStock (d : Z) (it : InventoryItem) : InventoryItem :=
  mkItem (item_name it) (item_unit it) (item_quantity it) (item_currentStock it + d)
         (item_cost it) (item_minThreshold it) (item_expiryDate it) (item_status it).

(** [$inc: { currentStock: d, quantity: d }]. *)
Definition incStockAndQuantity (d : Z) (it : InventoryItem) : InventoryItem :=
  mkItem (item_name it) (item_unit it) (item_quantity it + d) (item_currentStock it + d)
         (item_cost it) (item_minThreshold it) (item_expiryDate it) (item_status it).

(** [InventoryItem.findByIdAndUpdate(id, update)]: nothing happens when no
    document has this id. *)
Definition findByIdAndUpdate (id : ObjectId) (update : InventoryItem → InventoryItem)
    (db : Db) : Db :=
  with_inventoryItems (alter update id) db.

(** The aggregate stock figure of an item, [0] for an unknown id. *)
Definition stockOf (db : Db) (id : ObjectId) : Z :=
  from_option item_currentStock 0 (inventoryItems db !! id).

(** ** Dates *)

Definition msPerDay : Z := 86400000.

(** [getTodayDate]: today at midnight. *)
Definition getTodayDate (now : Date) : Date := now - Z.modulo now msPerDay.

(** [expiryDate && new Date(expiryDate) < now] *)
Definition isExpiredAt (now : Date) (expiryDate : option Date) : bool :=
  match expiryDate with
  | Some d => d <? now
  | None => false
  end.

(** ** Daily ledger (dailyInventory.controller.js) *)

(** A fresh [_id] for a new daily entry. *)
Definition freshEntryId (entries : list DailyInventoryEntry) : ObjectId :=
  1 + foldr (λ e m, Z.max (entry_id e) m) 0 entries.

(** MongoDB's ascending order on an optional date: in its comparison order
    of BSON types, null (and a missing field, which sorts as null) comes
    before every date. *)
Definition expiry_leb (a b : option Date) : bool :=
  match a, b with
  | None, _ => true
  | Some _, None => false
  | Some x, Some y => x <=? y
  end.

Definition expiry_ltb (a b : option Date) : bool := negb (expiry_leb b a).

(** The order of [.sort({ expiryDate: 1, createdAt: 1 })]. *)
Definition sort_leb (a b : DailyInventoryEntry) : bool :=
  expiry_ltb (entry_expiryDate a) (entry_expiryDate b)
  || (expiry_leb (entry_expiryDate a) (entry_expiryDate b)
      && (entry_createdAt a <=? entry_createdAt b)).

Fixpoint sort_insert (e : DailyInventoryEntry) (l : list DailyInventoryEntry)
    : list DailyInventoryEntry :=
  match l with
  | [] => [e]
  | x :: rest => if sort_leb e x then e :: l else x :: sort_insert e rest
  end.

(** Stable sort of the query result (ties keep the natural order). *)
Definition sortByExpiryThenCreated (l : list DailyInventoryEntry)
    : list DailyInventoryEntry :=
  foldr sort_insert [] l.

Definition set_remainingQuantity (r : Z) (e : DailyInventoryEntry) : DailyInventoryEntry :=
  mkEntry (entry_id e) (entry_date e) (entry_inventoryItem e) (entry_quantity e)
          (entry_cost e) (entry_expiryDate e) r (entry_createdAt e).

(** [entry.save()]: the stored document with this [_id] is replaced. *)
Definition save (e : DailyInventoryEntry) (entries : list DailyInventoryEntry)
    : list DailyInventoryEntry :=
  (λ x, if decide (entry_id x = entry_id e) then e else x) <$> entries.

(** The query of [deductFromDailyInventory]:
    [{ date: today, inventoryItem: id, remainingQuantity: { $gt: 0 } }]. *)
Definition isCandidate (today : Date) (inventoryItemId : ObjectId)
    (e : DailyInventoryEntry) : bool :=
  (entry_date e =? today) && (entry_inventoryItem e =? inventoryItemId)
  && (0 <? entry_remainingQuantity e).

(** The [for (const entry of entries)] loop of [deductFromDailyInventory];
    returns the final [remainingToDeduct] and the stored entries. *)
Fixpoint deductLoop (now : Date) (entries : list DailyInventoryEntry)
    (remainingToDeduct : Z) (stored : list DailyInventoryEntry)
    : Z * list DailyInventoryEntry :=
  match entries with
  | [] => (remainingToDeduct, stored)
  | entry :: rest =>
      if remainingToDeduct <=? 0 then (remainingToDeduct, stored)
      else if isExpiredAt now (entry_expiryDate entry)
      then deductLoop now rest remainingToDeduct stored
      else
        let deductAmount := Z.min (entry_remainingQuantity entry) remainingToDeduct in
        let entry' :=
          set_remainingQuantity (entry_remainingQuantity entry - deductAmount) entry in
        deductLoop now rest (remainingToDeduct - deductAmount) (save entry' stored)
  end.

Definition deductFromDailyInventory (now : Date) (inventoryItemId : ObjectId)
    (quantity : Z) (db : Db) : result unit * Db :=
  let today := getTodayDate now in
  let entries :=
    sortByExpiryThenCreated (filter (λ e, isCandidate today inventoryItemId e = true)
                                    (dailyEntries db)) in
  let '(remainingToDeduct, stored) := deductLoop now entries quantity (dailyEntries db) in
  let db1 := with_dailyEntries (λ _, stored) db in
  if 0 <? remainingToDeduct
  then (Err (InsufficientDailyStock quantity (quantity - remainingToDeduct)), db1)
  else (Ok tt, findByIdAndUpdate inventoryItemId (incStock (- quantity)) db1).

(** The request body of [addItemToToday]. *)
Record AddItemReq := mkAddItemReq {
  add_inventoryItemId : option ObjectId;
  add_quantity : Z;
  add_cost : option Z;
  add_expiryDate : option Date
}.

Definition isDayEnded (db : Db) (date : Date) : bool :=
  from_option day_isEnded false (dayStatuses db !! date).

Definition addItemToToday (now : Date) (req : AddItemReq) (db : Db)
    : result DailyInventoryEntry * Db :=
  let today := getTodayDate now in
  if isDayEnded db today then (Err DayHasBeenEnded, db)
  else
    match add_inventoryItemId req with
    | None => (Err ItemIdAndQuantityRequired, db)
    | Some inventoryItemId =>
        if add_quantity req =? 0 then (Err ItemIdAndQuantityRequired, db)
        else if add_quantity req <=? 0 then (Err QuantityMustBePositive, db)
        else
          match inventoryItems db !! inventoryItemId with
          | None => (Err InventoryItemNotFound, db)
          | Some _ =>
              if from_option (λ c, c <? 0) false (add_cost req)
              then (Err CostMustBeNonNegative, db)
              else
                let entry :=
                  mkEntry (freshEntryId (dailyEntries db)) today inventoryItemId
                          (add_quantity req) (add_cost req) (add_expiryDate req)
                          (add_quantity req) now in
                (Ok entry,
                 findByIdAndUpdate inventoryItemId (incStockAndQuantity (add_quantity req))
                   (with_dailyEntries (λ l, l ++ [entry]) db))
          end
    end.

Definition endDay (now : Date) (db : Db) : result Date * Db :=
  let today := getTodayDate now in
  if isDayEnded db today then (Err DayAlreadyEnded, db)
  else (Ok today, with_dayStatuses <[today := mkDayStatus true (Some now)]> db).

(** One element of the [carriedForward] summary of [startNewDay]. *)
Record CarriedForward := mkCarried {
  cf_itemName : string;
  cf_quantity : Z;
  cf_unit : string
}.

Record NewDaySummary := mkNewDaySummary {
  nd_date : Date;
  nd_carriedForwardCount : nat;
  nd_carriedForward : list CarriedForward
}.

(** The query of [startNewDay]: [{ date: yesterday, remainingQuantity: { $gt: 0 } }]. *)
Definition isLeftover (yesterday : Date) (e : DailyInventoryEntry) : bool :=
  (entry_date e =? yesterday) && (0 <? entry_remainingQuantity e).

(** The entry created for today from one of yesterday's. *)
Definition carriedEntry (id : ObjectId) (today now : Date) (entry : DailyInventoryEntry)
    : DailyInventoryEntry :=
  mkEntry id today (entry_inventoryItem entry) (entry_remainingQuantity entry)
          (entry_cost entry) (entry_expiryDate entry) (entry_remainingQuantity entry) now.

(** The carry-forward loop of [startNewDay]. The entries were populated with
    their inventory item; reading [entry.inventoryItem._id] of an entry whose
    item no longer exists raises a [TypeError]. *)
Fixpoint carryForwardLoop (now today : Date) (yesterdayEntries : list DailyInventoryEntry)
    (carriedForward : list CarriedForward) (db : Db)
    : result (list CarriedForward) * Db :=
  match yesterdayEntries with
  | [] => (Ok carriedForward, db)
  | entry :: rest =>
      if isExpiredAt now (entry_expiryDate entry)
      then carryForwardLoop now today rest carriedForward db
      else
        match inventoryItems db !! entry_inventoryItem entry with
        | None => (Err TypeError, db)
        | Some item =>
            let newEntry := carriedEntry (freshEntryId (dailyEntries db)) today now entry in
            carryForwardLoop now today rest
              (carriedForward
                 ++ [mkCarried (item_name item) (entry_remainingQuantity entry) (item_unit item)])
              (with_dailyEntries (λ l, l ++ [newEntry]) db)
        end
  end.

Definition startNewDay (now : Date) (db : Db) : result NewDaySummary * Db :=
  let today := getTodayDate now in
  let yesterday := today - msPerDay in
  if isDayEnded db today then (Err TodayAlreadyEnded, db)
  else if negb (isDayEnded db yesterday) then (Err YesterdayNotEnded, db)
  else
    let yesterdayEntries :=
      filter (λ e, isLeftover yesterday e = true) (dailyEntries db) in
    match carryForwardLoop now today yesterdayEntries [] db with
    | (Err e, db') => (Err e, db')
    | (Ok carriedForward, db') =>
        (Ok (mkNewDaySummary today (length carriedForward) carriedForward), db')
    end.

(** ** Availability checker (utils/stockChecker.js) *)

Record StockCheck := mkStockCheck {
  isAvailable : bool;
  stockStatus : string;
  missingIngredients : list MissingIngredient
}.

(** The three variables the checker's loop updates. *)
Record CheckState := mkCheckState {
  cs_missingIngredients : list MissingIngredient;
  cs_hasLowStock : bool;
  cs_hasOutOfStock : bool
}.

(** [status === 'low_stock' || (minThreshold > 0 && available <= minThreshold)] *)
Definition lowStockFlag (inventoryItem : InventoryItem) : bool :=
  String.eqb (item_status inventoryItem) "low_stock"
  || from_option (λ t, (0 <? t) && (item_currentStock inventoryItem <=? t)) false
       (item_minThreshold inventoryItem).

(** The body of the checker's loop for one ingredient. *)
Definition checkIngredient (inventory : gmap Z InventoryItem) (now : Date) (quantity : Z)
    (st : CheckState) (ingredient : Ingredient) : CheckState :=
  match inventory !! ing_ingredient ingredient with
  | None =>
      mkCheckState
        (cs_missingIngredients st
           ++ [mkMissing (ing_ingredient ingredient) "Unknown Ingredient"
                 (ing_quantity ingredient * quantity) 0 (ing_unit ingredient)
                 "Ingredient not found in inventory"])
        (cs_hasLowStock st) true
  | Some inventoryItem =>
      if isExpiredAt now (item_expiryDate inventoryItem)
         || String.eqb (item_status inventoryItem) "expired"
      then
        mkCheckState
          (cs_missingIngredients st
             ++ [mkMissing (ing_ingredient ingredient) (item_name inventoryItem)
                   (ing_quantity ingredient * quantity) 0 (ing_unit ingredient)
                   "Ingredient expired"])
          (cs_hasLowStock st) true
      else
        let requiredQuantity := ing_quantity ingredient * quantity in
        let availableQuantity := item_currentStock inventoryItem in
        if availableQuantity <? requiredQuantity
        then
          mkCheckState
            (cs_missingIngredients st
               ++ [mkMissing (ing_ingredient ingredient) (item_name inventoryItem)
                     requiredQuantity availableQuantity (ing_unit ingredient)
                     (if availableQuantity =? 0 then "Out of stock"
                      else "Insufficient quantity")])
            (if availableQuantity =? 0 then cs_hasLowStock st else true)
            (if availableQuantity =? 0 then true else cs_hasOutOfStock st)
        else if lowStockFlag inventoryItem
        then mkCheckState (cs_missingIngredients st) true (cs_hasOutOfStock st)
        else st
  end.

Definition checkIngredientAvailability (inventory : gmap Z InventoryItem) (now : Date)
    (ingredients : list Ingredient) (quantity : Z) : StockCheck :=
  let st :=
    fold_left (checkIngredient inventory now quantity) ingredients
              (mkCheckState [] false false) in
  if cs_hasOutOfStock st || negb (Nat.eqb (length (cs_missingIngredients st)) 0)
  then mkStockCheck false "out_of_stock" (cs_missingIngredients st)
  else if cs_hasLowStock st
  then mkStockCheck true "low_stock" (cs_missingIngredients st)
  else mkStockCheck true "available" (cs_missingIngredients st).

(** ** Expiry reconciliation (utils/expiredItemsHandler.js) *)

Record ProcessedItem := mkProcessed {
  pi_itemId : ObjectId;
  pi_name : string;
  pi_quantity : Z;
  pi_unit : string;
  pi_wasteCost : Z;
  pi_wasteLogId : ObjectId
}.

Record ExpirySummary := mkExpirySummary {
  es_success : bool;
  es_processedCount : nat;
  es_totalWasteCost : Z;
  es_processedItems : list ProcessedItem
}.

(** The query of [processExpiredItems]: [expiryDate < now], [currentStock > 0],
    [status != 'discontinued']. *)
Definition isExpiredWithStock (now : Date) (item : InventoryItem) : bool :=
  isExpiredAt now (item_expiryDate item) && (0 <? item_currentStock item)
  && negb (String.eqb (item_status item) "discontinued").

(** [item.cost ? wasteQuantity * item.cost : 0] *)
Definition wasteCostOf (item : InventoryItem) : Z :=
  match item_cost item with
  | Some c => if c =? 0 then 0 else item_currentStock item * c
  | None => 0
  end.

(** [{ currentStock: 0, quantity: 0, status: 'expired' }] *)
Definition writeOff (item : InventoryItem) : InventoryItem :=
  mkItem (item_name item) (item_unit item) 0 0 (item_cost item) (item_minThreshold item)
         (item_expiryDate item) "expired".

Definition freshWasteId (logs : list WasteLog) : ObjectId :=
  1 + foldr (λ w m, Z.max (waste_id w) m) 0 logs.

(** The loop variables of [processExpiredItems] together with the database. *)
Record SweepState := mkSweepState {
  sw_processedItems : list ProcessedItem;
  sw_totalWasteCost : Z;
  sw_db : Db
}.

(** The body of the sweep's loop for one expired item. *)
Definition processExpiredItem (now : Date) (st : SweepState)
    (found : ObjectId * InventoryItem) : SweepState :=
  let '(id, item) := found in
  let wasteQuantity := item_currentStock item in
  let wasteCost := wasteCostOf item in
  let wasteUnit := item_unit item in
  let wasteLog :=
    mkWasteLog (freshWasteId (wasteLogs (sw_db st))) id "expired" wasteQuantity
               wasteUnit now in
  let db1 := with_wasteLogs (λ l, l ++ [wasteLog]) (sw_db st) in
  let db2 :=
    with_inventoryLogs
      (λ l, l ++ [mkInventorylog id (- wasteQuantity) "Item expired - moved to waste" now])
      db1 in
  let db3 := findByIdAndUpdate id writeOff db2 in
  mkSweepState
    (sw_processedItems st
       ++ [mkProcessed id (item_name item) wasteQuantity wasteUnit wasteCost
             (waste_id wasteLog)])
    (sw_totalWasteCost st + wasteCost)
    db3.

(** The result of the query of [processExpiredItems], in the order of the
    ids (the database returns it in its natural order). *)
Definition expiredItemsOf (now : Date) (db : Db) : list (ObjectId * InventoryItem) :=
  map_to_list (filter (λ kv, isExpiredWithStock now kv.2 = true) (inventoryItems db)).

Definition processExpiredItems (now : Date) (db : Db) : ExpirySummary * Db :=
  let st :=
    fold_left (processExpiredItem now) (expiredItemsOf now db) (mkSweepState [] 0 db) in
  (mkExpirySummary true (length (sw_processedItems st)) (sw_totalWasteCost st)
     (sw_processedItems st),
   sw_db st).

Definition set_status (s : string) (item : InventoryItem) : InventoryItem :=
  mkItem (item_name item) (item_unit item) (item_quantity item) (item_currentStock item)
         (item_cost item) (item_minThreshold item) (item_expiryDate item) s.

(** The filter of [checkExpiredItems]. The object literal
    [{ $ne: 'expired', $ne: 'discontinued' }] repeats its key, so the filter
    that reaches the database is [status != 'discontinued']. *)
Definition isExpiredNotDiscontinued (now : Date) (item : InventoryItem) : bool :=
  isExpiredAt now (item_expiryDate item)
  && negb (String.eqb (item_status item) "discontinued").

Definition checkExpiredItems (now : Date) (db : Db) : Db :=
  with_inventoryItems
    (fmap (λ item, if isExpiredNotDiscontinued now item then set_status "expired" item
                   else item))
    db.

(** ** Order lifecycle (order.controller.js) *)

Record User := mkUser {
  user_id : ObjectId;
  user_restaurant : string
}.

(** One element of the [items] array of a request body. *)
Record OrderItemReq := mkOrderItemReq {
  oi_menuItem : option ObjectId;
  oi_quantity : Z;
  oi_unitPrice : Z
}.

Record CreateOrderReq := mkCreateOrderReq {
  co_user : option User;
  co_customerName : string;
  co_orderType : string;
  co_items : list OrderItemReq;
  co_notes : string
}.

(** Modelled from the spec: the default [status] of the Order schema
    (models/order/order.model.js is not among the sources); the spec has a
    new order persisted in [pending]. *)
Definition defaultOrderStatus : string := "pending".

Definition isEmptyString (s : string) : bool := String.eqb s "".

(** [a || b] on strings. *)
Definition orElse (a b : string) : string := if isEmptyString a then b else a.

(** The first loop of [createOrder]: validation and availability of every
    line; it reads the database and writes nothing. *)
Fixpoint validateItems (db : Db) (now : Date) (items : list OrderItemReq)
    (validatedItems : list OrderLine) (subtotal : Z) : result (list OrderLine * Z) :=
  match items with
  | [] => Ok (validatedItems, subtotal)
  | orderItem :: rest =>
      match oi_menuItem orderItem with
      | None => Err MenuItemIdRequired
      | Some menuItemId =>
          if oi_quantity orderItem <? 1 then Err InvalidLineQuantity
          else if oi_unitPrice orderItem <=? 0 then Err InvalidUnitPrice
          else
            match menuItems db !! menuItemId with
            | None => Err (MenuItemNotFound menuItemId)
            | Some menuItem =>
                if Nat.eqb (length (menu_ingredients menuItem)) 0
                then Err (NoIngredientsConfigured menuItemId)
                else
                  let stockCheck :=
                    checkIngredientAvailability (inventoryItems db) now
                      (menu_ingredients menuItem) (oi_quantity orderItem) in
                  if negb (isAvailable stockCheck)
                  then Err (DishOutOfStock menuItemId (missingIngredients stockCheck))
                  else
                    let totalPrice := oi_quantity orderItem * oi_unitPrice orderItem in
                    validateItems db now rest
                      (validatedItems
                         ++ [mkOrderLine menuItemId (oi_quantity orderItem)
                               (oi_unitPrice orderItem) totalPrice])
                      (subtotal + totalPrice)
            end
      end
  end.

(** The ingredient loop of the second phase of [createOrder], for one order
    line. An [apiError] thrown for an ingredient is logged by the inner
    [catch] and thrown again, which leaves the loop. The reason of the
    inventory log is the code's without the name of the dish that follows
    it. *)
Fixpoint deductIngredients (now : Date) (menuItemId : ObjectId)
    (ingredients : list Ingredient) (lineQuantity : Z) (db : Db) : result unit * Db :=
  match ingredients with
  | [] => (Ok tt, db)
  | ingredient :: rest =>
      let ingredientId := ing_ingredient ingredient in
      match inventoryItems db !! ingredientId with
      | None =>
          deductIngredients now menuItemId rest lineQuantity
            (console_error (LogInvalidIngredientRef menuItemId) db)
      | Some inventoryItem =>
          let requiredQuantity := ing_quantity ingredient * lineQuantity in
          if item_currentStock inventoryItem <? requiredQuantity
          then
            let e := InsufficientStockFor ingredientId (item_currentStock inventoryItem)
                       requiredQuantity in
            (Err e, console_error (LogInventoryUpdateError ingredientId e) db)
          else
            match deductFromDailyInventory now ingredientId requiredQuantity db with
            | (Err e, db1) =>
                (Err e, console_error (LogInventoryUpdateError ingredientId e) db1)
            | (Ok _, db1) =>
                deductIngredients now menuItemId rest lineQuantity
                  (with_inventoryLogs
                     (λ l, l ++ [mkInventorylog ingredientId (- requiredQuantity)
                                   "Used in order" now])
                     db1)
            end
      end
  end.

(** The body of the second loop of [createOrder] for one order line: the
    outer [catch] logs whatever the line threw and the loop goes on. *)
Definition processOrderItem (now : Date) (db : Db) (orderItem : OrderItemReq) : Db :=
  match oi_menuItem orderItem with
  | None => console_error (LogMenuItemMissing None) db
  | Some menuItemId =>
      match menuItems db !! menuItemId with
      | None => console_error (LogMenuItemMissing (Some menuItemId)) db
      | Some menuItem =>
          match deductIngredients now menuItemId (menu_ingredients menuItem)
                  (oi_quantity orderItem) db with
          | (Err e, db1) => console_error (LogOrderItemError menuItemId e) db1
          | (Ok _, db1) =>
              with_sales (λ l, l ++ [mkSale menuItemId (oi_quantity orderItem) now]) db1
          end
      end
  end.

Definition freshOrderId (os : gmap Z Order) : ObjectId :=
  1 + map_fold (λ k _ m, Z.max k m) 0 os.

Definition createOrder (now : Date) (req : CreateOrderReq) (db : Db)
    : result (ObjectId * Order) * Db :=
  match co_user req with
  | None => (Err AuthenticationRequired, db)
  | Some user =>
      if isEmptyString (user_restaurant user) then (Err RestaurantMissing, db)
      else if isEmptyString (co_customerName req)
              || Nat.eqb (length (co_items req)) 0
      then (Err NameAndItemsRequired, db)
      else
        match validateItems db now (co_items req) [] 0 with
        | Err e => (Err e, db)
        | Ok (validatedItems, subtotal) =>
            let order :=
              mkOrder (user_restaurant user) (co_customerName req)
                      (orElse (co_orderType req) "dine-in") validatedItems subtotal
                      None None subtotal (co_notes req) defaultOrderStatus None None in
            let id := freshOrderId (orders db) in
            let db1 := with_orders <[id := order]> db in
            let db2 := fold_left (processOrderItem now) (co_items req) db1 in
            (Ok (id, order), db2)
        end
  end.

Record StatusReq := mkStatusReq {
  sr_status : string;
  sr_estimatedTime : option Date;
  sr_notes : string
}.

Definition validStatuses : list string :=
  ["pending"; "confirmed"; "preparing"; "ready"; "delivered"; "cancelled"].

Definition includes (l : list string) (s : string) : bool :=
  existsb (String.eqb s) l.

(** The ingredient loop of the cancellation branch of [updateOrderStatus].
    The reason of the inventory log is the code's without the order number
    that follows it. *)
Definition restoreIngredient (now : Date) (lineQuantity : Z) (db : Db)
    (ingredient : Ingredient) : Db :=
  match inventoryItems db !! ing_ingredient ingredient with
  | None => db
  | Some _ =>
      let restoredQuantity := ing_quantity ingredient * lineQuantity in
      if restoredQuantity <=? 0 then db
      else
        with_inventoryLogs
          (λ l, l ++ [mkInventorylog (ing_ingredient ingredient) restoredQuantity
                        "Restored due to order cancellation" now])
          (findByIdAndUpdate (ing_ingredient ingredient) (incStock restoredQuantity) db)
  end.

Definition restoreOrderItem (now : Date) (db : Db) (orderItem : OrderLine) : Db :=
  match menuItems db !! line_menuItem orderItem with
  | None => db
  | Some menuItem =>
      fold_left (restoreIngredient now (line_quantity orderItem))
                (menu_ingredients menuItem) db
  end.

(** The fields written by [Order.findByIdAndUpdate(id, updateData)] in
    [updateOrderStatus]. *)
Definition applyStatusUpdate (now : Date) (req : StatusReq) (o : Order) : Order :=
  mkOrder (order_restaurant o) (order_customerName o) (order_orderType o)
          (order_items o) (order_subtotal o) (order_tax o) (order_discount o)
          (order_totalAmount o)
          (if isEmptyString (sr_notes req) then order_notes o else sr_notes req)
          (sr_status req)
          (match sr_estimatedTime req with
           | Some t => Some t
           | None => order_estimatedTime o
           end)
          (if String.eqb (sr_status req) "delivered" then Some now
           else order_actualDeliveryTime o).

Definition updateOrderStatus (now : Date) (id : ObjectId) (req : StatusReq) (db : Db)
    : result Order * Db :=
  if isEmptyString (sr_status req) then (Err StatusRequired, db)
  else if negb (includes validStatuses (sr_status req)) then (Err InvalidStatus, db)
  else
    match orders db !! id with
    | None => (Err OrderNotFound, db)
    | Some existingOrder =>
        let db1 :=
          if String.eqb (sr_status req) "cancelled"
             && negb (String.eqb (order_status existingOrder) "cancelled")
          then fold_left (restoreOrderItem now) (order_items existingOrder) db
          else db in
        let updatedOrder := applyStatusUpdate now req existingOrder in
        (Ok updatedOrder, with_orders <[id := updatedOrder]> db1)
    end.

Record UpdateOrderReq := mkUpdateOrderReq {
  uo_user : User;
  uo_customerName : string;
  uo_orderType : string;
  uo_items : list OrderItemReq;
  uo_notes : option string;
  uo_tax : option Z;
  uo_discount : option Z
}.

(** The restoration loop of [updateOrder]: it reads
    [ingredient.ingredient._id] without a guard, a [TypeError] when the
    populated reference is [null]. *)
Fixpoint restoreIngredientsUnguarded (ingredients : list Ingredient) (lineQuantity : Z)
    (db : Db) : result unit * Db :=
  match ingredients with
  | [] => (Ok tt, db)
  | ingredient :: rest =>
      match inventoryItems db !! ing_ingredient ingredient with
      | None => (Err TypeError, db)
      | Some _ =>
          restoreIngredientsUnguarded rest lineQuantity
            (findByIdAndUpdate (ing_ingredient ingredient)
               (incStock (ing_quantity ingredient * lineQuantity)) db)
      end
  end.

Fixpoint restoreLinesUnguarded (lines : list OrderLine) (db : Db) : result unit * Db :=
  match lines with
  | [] => (Ok tt, db)
  | orderItem :: rest =>
      match menuItems db !! line_menuItem orderItem with
      | None => restoreLinesUnguarded rest db
      | Some menuItem =>
          match restoreIngredientsUnguarded (menu_ingredients menuItem)
                  (line_quantity orderItem) db with
          | (Err e, db1) => (Err e, db1)
          | (Ok _, db1) => restoreLinesUnguarded rest db1
          end
      end
  end.

(** The deduction loop of [updateOrder] for one new line: every [apiError]
    of the ledger is thrown again. *)
Fixpoint deductIngredientsStrict (now : Date) (ingredients : list Ingredient)
    (lineQuantity : Z) (db : Db) : result unit * Db :=
  match ingredients with
  | [] => (Ok tt, db)
  | ingredient :: rest =>
      match inventoryItems db !! ing_ingredient ingredient with
      | None => (Err TypeError, db)
      | Some _ =>
          match deductFromDailyInventory now (ing_ingredient ingredient)
                  (ing_quantity ingredient * lineQuantity) db with
          | (Err e, db1) =>
              (Err e,
               console_error (LogInventoryUpdateError (ing_ingredient ingredient) e) db1)
          | (Ok _, db1) => deductIngredientsStrict now rest lineQuantity db1
          end
      end
  end.

(** The loop of [updateOrder] over the new lines: availability check and
    deduction line by line. *)
Fixpoint replaceItems (now : Date) (items : list OrderItemReq)
    (validatedItems : list OrderLine) (subtotal : Z) (db : Db)
    : result (list OrderLine * Z) * Db :=
  match items with
  | [] => (Ok (validatedItems, subtotal), db)
  | orderItem :: rest =>
      match oi_menuItem orderItem ≫= (λ m, pair m <$> menuItems db !! m) with
      | None => (Err (MenuItemNotFound (default 0 (oi_menuItem orderItem))), db)
      | Some (menuItemId, menuItem) =>
          let stockCheck :=
            checkIngredientAvailability (inventoryItems db) now
              (menu_ingredients menuItem) (oi_quantity orderItem) in
          if negb (isAvailable stockCheck)
          then (Err (DishOutOfStock menuItemId (missingIngredients stockCheck)), db)
          else
            let totalPrice := oi_quantity orderItem * oi_unitPrice orderItem in
            match deductIngredientsStrict now (menu_ingredients menuItem)
                    (oi_quantity orderItem) db with
            | (Err e, db1) => (Err e, db1)
            | (Ok _, db1) =>
                replaceItems now rest
                  (validatedItems
                     ++ [mkOrderLine menuItemId (oi_quantity orderItem)
                           (oi_unitPrice orderItem) totalPrice])
                  (subtotal + totalPrice) db1
            end
      end
  end.

(** [x !== undefined ? x : old] *)
Definition orKeep {A} (x : option A) (old : A) : A := default old x.

Definition updateOrder (now : Date) (id : ObjectId) (req : UpdateOrderReq) (db : Db)
    : result Order * Db :=
  match orders db !! id with
  | None => (Err OrderNotFound, db)
  | Some existingOrder =>
      if negb (String.eqb (order_restaurant existingOrder) (user_restaurant (uo_user req)))
      then (Err OrderNotFound, db)
      else if String.eqb (order_status existingOrder) "delivered"
              || String.eqb (order_status existingOrder) "cancelled"
      then (Err CannotEditClosedOrder, db)
      else if negb (Nat.eqb (length (uo_items req)) 0)
      then
        match restoreLinesUnguarded (order_items existingOrder) db with
        | (Err e, db1) => (Err e, db1)
        | (Ok _, db1) =>
            match replaceItems now (uo_items req) [] 0 db1 with
            | (Err e, db2) => (Err e, db2)
            | (Ok (validatedItems, subtotal), db2) =>
                let updatedOrder :=
                  mkOrder (order_restaurant existingOrder)
                    (orElse (uo_customerName req) (order_customerName existingOrder))
                    (orElse (uo_orderType req) (order_orderType existingOrder))
                    validatedItems subtotal
                    (match uo_tax req with Some t => Some t | None => order_tax existingOrder end)
                    (match uo_discount req with
                     | Some d => Some d
                     | None => order_discount existingOrder
                     end)
                    (subtotal - default 0 (uo_discount req) + default 0 (uo_tax req))
                    (orKeep (uo_notes req) (order_notes existingOrder))
                    (order_status existingOrder) (order_estimatedTime existingOrder)
                    (order_actualDeliveryTime existingOrder) in
                (Ok updatedOrder, with_orders <[id := updatedOrder]> db2)
            end
        end
      else
        (* [x || y || 0] on optional numbers: a zero counts as absent. *)
        let firstNonZero (a b : option Z) : Z :=
          match a with
          | Some x => if x =? 0 then (match b with Some y => y | None => 0 end) else x
          | None => match b with Some y => y | None => 0 end
          end in
        let total0 := order_totalAmount existingOrder in
        let total1 :=
          match uo_tax req with
          | Some tax =>
              order_subtotal existingOrder
              - firstNonZero (uo_discount req) (order_discount existingOrder) + tax
          | None => total0
          end in
        let total2 :=
          match uo_discount req with
          | Some discount =>
              order_subtotal existingOrder - discount
              + firstNonZero (uo_tax req) (order_tax existingOrder)
          | None => total1
          end in
        let updatedOrder :=
          mkOrder (order_restaurant existingOrder)
            (orElse (uo_customerName req) (order_customerName existingOrder))
            (orElse (uo_orderType req) (order_orderType existingOrder))
            (order_items existingOrder) (order_subtotal existingOrder)
            (match uo_tax req with Some t => Some t | None => order_tax existingOrder end)
            (match uo_discount req with
             | Some d => Some d
             | None => order_discount existingOrder
             end)
            total2
            (orKeep (uo_notes req) (order_notes existingOrder))
            (order_status existingOrder) (order_estimatedTime existingOrder)
            (order_actualDeliveryTime existingOrder) in
        (Ok updatedOrder, with_orders <[id := updatedOrder]> db)
  end.

(** ** Deleting an order and the order statistics (order.controller.js) *)

(** [deleteOrder]: the order is looked up by id alone and removed; nothing
    else is written. *)
Definition deleteOrder (id : ObjectId) (db : Db) : result unit * Db :=
  match orders db !! id with
  | None => (Err OrderNotFound, db)
  | Some _ => (Ok tt, with_orders (delete id) db)
  end.

Record OrderStats := mkOrderStats {
  totalOrders : Z;
  pendingOrders : Z;
  preparingOrders : Z;
  completedOrders : Z;
  cancelledOrders : Z;
  totalRevenue : Z
}.

(** The sum of [w] over a collection of orders. *)
Definition sumOrders (w : Order → Z) (os : gmap Z Order) : Z :=
  map_fold (λ _ o n, w o + n) 0 os.

(** [Order.countDocuments(filter)]. *)
Definition countDocuments (P : Order → bool) (os : gmap Z Order) : Z :=
  sumOrders (λ o, Z.b2z (P o)) os.

Definition hasStatus (s : string) (o : Order) : bool := String.eqb (order_status o) s.

(** [$match: { status: 'delivered' }] then [$sum: '$totalAmount']; [0] when
    the aggregation returns no group. *)
Definition revenueOf (o : Order) : Z :=
  if hasStatus "delivered" o then order_totalAmount o else 0.

Definition getOrderStats (db : Db) : OrderStats :=
  mkOrderStats (countDocuments (λ _, true) (orders db))
               (countDocuments (hasStatus "pending") (orders db))
               (countDocuments (hasStatus "preparing") (orders db))
               (countDocuments (hasStatus "delivered") (orders db))
               (countDocuments (hasStatus "cancelled") (orders db))
               (sumOrders revenueOf (orders db)).

(** ** Bulk intake and deletion of an item (inventory.controller.js) *)

(** One element of [entries] in the body of [applyDailyIntake]; a field that
    is absent or [null] is [None]. *)
Record IntakeEntry := mkIntakeEntry {
  intake_inventoryItemId : option ObjectId;
  intake_quantity : option Z;
  intake_reason : string
}.

Record IntakeResult := mkIntakeResult {
  ir_id : ObjectId;
  ir_name : string;
  ir_newStock : Z
}.

(** The body of the loop of [applyDailyIntake]: an entry without id or
    quantity, with a quantity that is not positive, or for an unknown item
    is skipped. *)
Definition applyIntakeEntry (now : Date) (st : list IntakeResult * Db)
    (entry : IntakeEntry) : list IntakeResult * Db :=
  match intake_inventoryItemId entry, intake_quantity entry with
  | Some inventoryItemId, Some addQty =>
      if addQty <=? 0 then st
      else
        match inventoryItems st.2 !! inventoryItemId with
        | None => st
        | Some item =>
            let updated := incStockAndQuantity addQty item in
            (st.1 ++ [mkIntakeResult inventoryItemId (item_name updated)
                        (item_currentStock updated)],
             with_inventoryLogs
               (λ l, l ++ [mkInventorylog inventoryItemId addQty
                             (orElse (intake_reason entry) "Daily intake") now])
               (findByIdAndUpdate inventoryItemId (incStockAndQuantity addQty) st.2))
        end
  | _, _ => st
  end.

(** [applyDailyIntake]: [None] is the 400 error for an empty [entries];
    otherwise [updatedCount] and [results]. *)
Definition applyDailyIntake (now : Date) (entries : list IntakeEntry) (db : Db)
    : option (Z * list IntakeResult) * Db :=
  if Nat.eqb (length entries) 0 then (None, db)
  else
    let st := fold_left (applyIntakeEntry now) entries ([], db) in
    (Some (Z.of_nat (length st.1), st.1), st.2).

Definition deleteInventoryItem (id : ObjectId) (db : Db) : result unit * Db :=
  match inventoryItems db !! id with
  | None => (Err InventoryItemNotFound, db)
  | Some _ => (Ok tt, with_inventoryItems (delete id) db)
  end.

(** ** Inventory statistics (inventory.controller.js) *)

(** The counts of [getInventoryStats]; the two group-by aggregations, on the
    category and on the storage condition, are on fields that this model of
    an item does not carry. *)
Record InventoryStats := mkInventoryStats {
  totalItems : Z;
  lowStockCount : Z;
  expiredCount : Z;
  outOfStockCount : Z
}.

(** [InventoryItem.countDocuments(filter)]. *)
Definition countItems (P : InventoryItem → bool) (inv : gmap Z InventoryItem) : Z :=
  map_fold (λ _ item n, Z.b2z (P item) + n) 0 inv.

(** [$gt: [minThreshold, 0]] and [$lte: [quantity, minThreshold]]; an absent
    threshold compares below every number. *)
Definition isLowOnQuantity (item : InventoryItem) : bool :=
  from_option (λ t, (0 <? t) && (item_quantity item <=? t)) false (item_minThreshold item).

Definition getInventoryStats (now : Date) (db : Db) : InventoryStats :=
  mkInventoryStats
    (countItems (λ _, true) (inventoryItems db))
    (countItems isLowOnQuantity (inventoryItems db))
    (countItems (λ item, isExpiredAt now (item_expiryDate item)) (inventoryItems db))
    (countItems (λ item, item_quantity item =? 0) (inventoryItems db)).

(** ** Pagination of the listings (getAllOrders, getAllInventoryItems,
       getAllWasteLogs) *)

Record Paginated (A : Type) := mkPaginated {
  docs : list A;
  totalDocs : Z;
  pg_limit : Z;
  pg_page : Z;
  totalPages : Z;
  hasNextPage : bool;
  hasPrevPage : bool;
  nextPage : option Z;
  prevPage : option Z
}.
Arguments mkPaginated {A}.
Arguments docs {A}.
Arguments totalDocs {A}.
Arguments pg_limit {A}.
Arguments pg_page {A}.
Arguments totalPages {A}.
Arguments hasNextPage {A}.
Arguments hasPrevPage {A}.
Arguments nextPage {A}.
Arguments prevPage {A}.

(** [Math.ceil(a / b)] on integers, [b] not zero. *)
Definition ceilDiv (a b : Z) : Z := - ((- a) / b).

(** The page of a listing: [found] is the result of [find(filter).sort(...)],
    of which [skip(skip).limit(limitNum)] keeps a slice, and [total] is
    [countDocuments(filter)]. The slice is the database's for a page number
    and a limit of at least 1 (a limit of zero means no limit there, and a
    negative skip is refused). *)
Definition paginatedResponse {A} (found : list A) (pageNum limitNum : Z) : Paginated A :=
  let skip := (pageNum - 1) * limitNum in
  let total := Z.of_nat (length found) in
  mkPaginated (take (Z.to_nat limitNum) (drop (Z.to_nat skip) found))
              total limitNum pageNum
              (ceilDiv total limitNum)
              (pageNum <? ceilDiv total limitNum)
              (1 <? pageNum)
              (if pageNum <? ceilDiv total limitNum then Some (pageNum + 1) else None)
              (if 1 <? pageNum then Some (pageNum - 1) else None).

(** ** The order form (frontend/src/pages/OrderManagement.jsx) *)

(** The fields of a menu item that the form reads. *)
Record MenuCard := mkMenuCard {
  card_id : ObjectId;
  card_suggestedPrice : Z
}.

(** An element of [orderData.items]. *)
Record CartItem := mkCartItem {
  cart_menuItem : MenuCard;
  cart_quantity : Z;
  cart_unitPrice : Z;
  cart_totalPrice : Z
}.

Definition addItemToOrder (menuItem : MenuCard) (items : list CartItem) : list CartItem :=
  match List.find (λ item, card_id (cart_menuItem item) =? card_id menuItem) items with
  | Some _ =>
      (λ item, if card_id (cart_menuItem item) =? card_id menuItem
               then mkCartItem (cart_menuItem item) (cart_quantity item + 1)
                      (cart_unitPrice item)
                      ((cart_quantity item + 1) * cart_unitPrice item)
               else item) <$> items
  | None =>
      items ++ [mkCartItem menuItem 1 (card_suggestedPrice menuItem)
                  (card_suggestedPrice menuItem)]
  end.

Definition removeItemFromOrder (menuItemId : ObjectId) (items : list CartItem)
    : list CartItem :=
  filter (λ item, card_id (cart_menuItem item) ≠ menuItemId) items.

Definition updateOrderItemQuantity (menuItemId : ObjectId) (quantity : Z)
    (items : list CartItem) : list CartItem :=
  if quantity <=? 0 then removeItemFromOrder menuItemId items
  else
    (λ item, if card_id (cart_menuItem item) =? menuItemId
             then mkCartItem (cart_menuItem item) quantity (cart_unitPrice item)
                    (quantity * cart_unitPrice item)
             else item) <$> items.

Definition calculateOrderTotal (items : list CartItem) : Z :=
  fold_left (λ total item, total + cart_totalPrice item) items 0.

(** The [items] of the payload of [handleCreateOrder], as [createOrder]
    reads them: it takes [menuItem], [quantity] and [unitPrice] of a line. *)
Definition orderPayloadItems (items : list CartItem) : list OrderItemReq :=
  (λ item, mkOrderItemReq (Some (card_id (cart_menuItem item))) (cart_quantity item)
             (cart_unitPrice item)) <$> items.

(** [canPrepareItem]: the stock information sent by the server when there is
    one, otherwise a check of the populated ingredients. *)
Definition canPrepareItem (inventory : gmap Z InventoryItem) (now : Date)
    (stockInfo : option StockCheck) (ingredients : list Ingredient) : bool :=
  match stockInfo with
  | Some info => isAvailable info
  | None =>
      if Nat.eqb (length ingredients) 0 then true
      else
        forallb (λ ingredient,
                   match inventory !! ing_ingredient ingredient with
                   | None => false
                   | Some ingItem =>
                       if isExpiredAt now (item_expiryDate ingItem) then false
                       else if String.eqb (item_status ingItem) "expired" then false
                       else ing_quantity ingredient <=? item_currentStock ingItem
                   end) ingredients
  end.

(** ** The ledger arithmetic on binary64 numbers *)

(** The embedding above has the quantities as integers. That is what the
    code computes when the quantities are whole numbers (below 2^53): on
    those the additions, subtractions and comparisons of JavaScript numbers
    are exact. JavaScript numbers are binary64 floating-point numbers, and
    the forms take quantities in steps of 0.1 and 0.01; this module has the
    walk of [deductFromDailyInventory] and the [$inc] on [currentStock]
    over [float], for quantities with a fractional part. Numbers are never
    [NaN] here. *)
Module Doubles.

(** The double nearest to [n / 10]: the value of the decimal numeral with
    one decimal. *)
Definition tenths (n : Z) : PrimFloat.float :=
  PrimFloat.div (PrimFloat.of_uint63 (Uint63.of_Z n)) (PrimFloat.of_uint63 (Uint63.of_Z 10)).

Definition zero : PrimFloat.float := PrimFloat.of_uint63 (Uint63.of_Z 0).

Record DailyInventoryEntry := mkEntry {
  entry_id : ObjectId;
  entry_date : Date;
  entry_inventoryItem : ObjectId;
  entry_quantity : PrimFloat.float;
  entry_cost : option PrimFloat.float;
  entry_expiryDate : option Date;
  entry_remainingQuantity : PrimFloat.float;
  entry_createdAt : Date
}.

(** The two collections a deduction writes; of an inventory item, the
    field [currentStock]. *)
Record Db := mkDb {
  currentStock : gmap Z PrimFloat.float;
  dailyEntries : list DailyInventoryEntry
}.

(** [InventoryItem.findByIdAndUpdate(id, { $inc: { currentStock: d } })] *)
Definition incStock (id : ObjectId) (d : PrimFloat.float) (db : Db) : Db :=
  mkDb (alter (λ stock, PrimFloat.add stock d) id (currentStock db)) (dailyEntries db).

Definition sort_leb (a b : DailyInventoryEntry) : bool :=
  expiry_ltb (entry_expiryDate a) (entry_expiryDate b)
  || (expiry_leb (entry_expiryDate a) (entry_expiryDate b)
      && (entry_createdAt a <=? entry_createdAt b)).

Fixpoint sort_insert (e : DailyInventoryEntry) (l : list DailyInventoryEntry)
    : list DailyInventoryEntry :=
  match l with
  | [] => [e]
  | x :: rest => if sort_leb e x then e :: l else x :: sort_insert e rest
  end.

Definition sortByExpiryThenCreated (l : list DailyInventoryEntry)
    : list DailyInventoryEntry :=
  foldr sort_insert [] l.

Definition set_remainingQuantity (r : PrimFloat.float) (e : DailyInventoryEntry)
    : DailyInventoryEntry :=
  mkEntry (entry_id e) (entry_date e) (entry_inventoryItem e) (entry_quantity e)
          (entry_cost e) (entry_expiryDate e) r (entry_createdAt e).

Definition save (e : DailyInventoryEntry) (entries : list DailyInventoryEntry)
    : list DailyInventoryEntry :=
  (λ x, if decide (entry_id x = entry_id e) then e else x) <$> entries.

Definition isCandidate (today : Date) (inventoryItemId : ObjectId)
    (e : DailyInventoryEntry) : bool :=
  (entry_date e =? today) && (entry_inventoryItem e =? inventoryItemId)
  && PrimFloat.ltb zero (entry_remainingQuantity e).

(** [Math.min(a, b)] *)
Definition Math_min (a b : PrimFloat.float) : PrimFloat.float :=
  if PrimFloat.ltb a b then a else b.

Fixpoint deductLoop (now : Date) (entries : list DailyInventoryEntry)
    (remainingToDeduct : PrimFloat.float) (stored : list DailyInventoryEntry)
    : PrimFloat.float * list DailyInventoryEntry :=
  match entries with
  | [] => (remainingToDeduct, stored)
  | entry :: rest =>
      if PrimFloat.leb remainingToDeduct zero then (remainingToDeduct, stored)
      else if isExpiredAt now (entry_expiryDate entry)
      then deductLoop now rest remainingToDeduct stored
      else
        let deductAmount := Math_min (entry_remainingQuantity entry) remainingToDeduct in
        let entry' :=
          set_remainingQuantity (PrimFloat.sub (entry_remainingQuantity entry) deductAmount)
            entry in
        deductLoop now rest (PrimFloat.sub remainingToDeduct deductAmount)
          (save entry' stored)
  end.

(** The two ways [deductFromDailyInventory] ends: it returns, or it throws
    the error whose message carries [Required] and [Available]. *)
Inductive outcome :=
  | Deducted
  | InsufficientStock (required available : PrimFloat.float).

Definition deductFromDailyInventory (now : Date) (inventoryItemId : ObjectId)
    (quantity : PrimFloat.float) (db : Db) : outcome * Db :=
  let today := getTodayDate now in
  let entries :=
    sortByExpiryThenCreated (filter (λ e, isCandidate today inventoryItemId e = true)
                                    (dailyEntries db)) in
  let '(remainingToDeduct, stored) := deductLoop now entries quantity (dailyEntries db) in
  let db1 := mkDb (currentStock db) stored in
  if PrimFloat.ltb zero remainingToDeduct
  then (InsufficientStock quantity (PrimFloat.sub quantity remainingToDeduct), db1)
  else (Deducted, incStock inventoryItemId (PrimFloat.opp quantity) db1).

(** The write of the cancellation branch of [updateOrderStatus] for one
    ingredient: [perUnitQuantity * lineQuantity] is added when above zero. *)
Definition restoreIngredient (ingredientId : ObjectId)
    (perUnitQuantity lineQuantity : PrimFloat.float) (db : Db) : Db :=
  let restoredQuantity := PrimFloat.mul perUnitQuantity lineQuantity in
  if PrimFloat.leb restoredQuantity zero then db
  else incStock ingredientId restoredQuantity db.

(** The sum of the remaining quantities of a list of entries, added up
    from the first to the last. *)
Definition totalRemaining (entries : list DailyInventoryEntry) : PrimFloat.float :=
  fold_left (λ s e, PrimFloat.add s (entry_remainingQuantity e)) entries zero.

(** A batch of item 1 received on day 20, without expiry date. *)
Definition batch (id : ObjectId) (remaining : PrimFloat.float) : DailyInventoryEntry :=
  mkEntry id (20 * msPerDay) 1 remaining None None remaining (20 * msPerDay + id).

End Doubles.

(** A database of whole numbers as a database of binary64 numbers. *)
Definition wholeNumber (z : Z) : PrimFloat.float := PrimFloat.of_uint63 (Uint63.of_Z z).

Definition wholeEntry (e : DailyInventoryEntry) : Doubles.DailyInventoryEntry :=
  Doubles.mkEntry (entry_id e) (entry_date e) (entry_inventoryItem e)
    (wholeNumber (entry_quantity e)) (wholeNumber <$> entry_cost e) (entry_expiryDate e)
    (wholeNumber (entry_remainingQuantity e)) (entry_createdAt e).

Definition wholeDb (db : Db) : Doubles.Db :=
  Doubles.mkDb ((λ item, wholeNumber (item_currentStock item)) <$> inventoryItems db)
               (wholeEntry <$> dailyEntries db).

(** ** Notions used to state the properties *)

(** An ingredient that the checker reports in [missingIngredients]: unknown
    to the inventory, expired (by date or by status), or short. *)
Definition isMissing (inventory : gmap Z InventoryItem) (now : Date) (quantity : Z)
    (ingredient : Ingredient) : bool :=
  match inventory !! ing_ingredient ingredient with
  | None => true
  | Some inventoryItem =>
      isExpiredAt now (item_expiryDate inventoryItem)
      || String.eqb (item_status inventoryItem) "expired"
      || (item_currentStock inventoryItem <? ing_quantity ingredient * quantity)
  end.

(** An ingredient that is not missing and raises the low-stock flag. *)
Definition triggersLowStock (inventory : gmap Z InventoryItem) (now : Date) (quantity : Z)
    (ingredient : Ingredient) : bool :=
  negb (isMissing inventory now quantity ingredient)
  && from_option lowStockFlag false (inventory !! ing_ingredient ingredient).

(** What the sweep records for one expired item: a waste log and an element
    of the returned [processedItems]. *)
Definition recordsWaste (found : ObjectId * InventoryItem) (w : WasteLog)
    (p : ProcessedItem) : Prop :=
  waste_ingredient w = found.1
  ∧ waste_category w = "expired"
  ∧ waste_quantity w = item_currentStock found.2
  ∧ waste_unit w = item_unit found.2
  ∧ pi_itemId p = found.1
  ∧ pi_quantity p = item_currentStock found.2
  ∧ pi_wasteCost p = wasteCostOf found.2
  ∧ pi_wasteLogId p = waste_id w.

Definition sumWasteCost (found : list (ObjectId * InventoryItem)) : Z :=
  foldr (λ kv s, wasteCostOf kv.2 + s) 0 found.

(** The scenario of the specification: one item with [currentStock = 4],
    [cost = 2] and an expiry date one day before the sweep. *)
Definition scenarioNow : Date := 20 * msPerDay.

Definition scenarioItem : InventoryItem :=
  mkItem "tomato" "kg" 4 4 (Some 2) None (Some (scenarioNow - msPerDay)) "active".

Definition scenarioDb : Db :=
  mkDb {[ 7 := scenarioItem ]} [] ∅ ∅ ∅ [] [] [] [].

(** The operations of the system that write to the database. *)
Inductive Operation :=
  | OpAddItemToToday (req : AddItemReq)
  | OpDeduct (inventoryItemId : ObjectId) (quantity : Z)
  | OpEndDay
  | OpStartNewDay
  | OpCreateOrder (req : CreateOrderReq)
  | OpUpdateOrderStatus (id : ObjectId) (req : StatusReq)
  | OpUpdateOrder (id : ObjectId) (req : UpdateOrderReq)
  | OpProcessExpiredItems
  | OpCheckExpiredItems.

(** The database after an operation issued at time [now]. *)
Definition run (now : Date) (op : Operation) (db : Db) : Db :=
  match op with
  | OpAddItemToToday req => (addItemToToday now req db).2
  | OpDeduct inventoryItemId quantity =>
      (deductFromDailyInventory now inventoryItemId quantity db).2
  | OpEndDay => (endDay now db).2
  | OpStartNewDay => (startNewDay now db).2
  | OpCreateOrder req => (createOrder now req db).2
  | OpUpdateOrderStatus id req => (updateOrderStatus now id req db).2
  | OpUpdateOrder id req => (updateOrder now id req db).2
  | OpProcessExpiredItems => (processExpiredItems now db).2
  | OpCheckExpiredItems => checkExpiredItems now db
  end.

(** The databases reachable from [db0] by operations. *)
Inductive reachable (db0 : Db) : Db → Prop :=
  | reachable_start : reachable db0 db0
  | reachable_step db now op :
      reachable db0 db → reachable db0 (run now op db).

(** [status = expired] implies [currentStock = 0], for every item. *)
Definition expiredHasNoStock (db : Db) : Prop :=
  ∀ k item, inventoryItems db !! k = Some item →
            item_status item = "expired" → item_currentStock item = 0.

(** An entry of yesterday that [startNewDay] carries forward: remaining
    quantity above zero and an expiry date that is absent or not in the past. *)
Definition isCarriedForward (now yesterday : Date) (e : DailyInventoryEntry) : bool :=
  isLeftover yesterday e && negb (isExpiredAt now (entry_expiryDate e)).

(** [new] is the entry created for [today] from [old]. *)
Definition carriesForward (today : Date) (old new : DailyInventoryEntry) : Prop :=
  entry_date new = today
  ∧ entry_inventoryItem new = entry_inventoryItem old
  ∧ entry_quantity new = entry_remainingQuantity old
  ∧ entry_remainingQuantity new = entry_remainingQuantity old
  ∧ entry_expiryDate new = entry_expiryDate old
  ∧ entry_cost new = entry_cost old.

(** The quantity received on [date] for an item, over a list of entries. *)
Definition quantityOn (date : Date) (inventoryItemId : ObjectId)
    (entries : list DailyInventoryEntry) : Z :=
  foldr (λ e s, (if (entry_date e =? date) && (entry_inventoryItem e =? inventoryItemId)
                 then entry_quantity e else 0) + s) 0 entries.

(** A day boundary: yesterday (day 19) is ended, today (day 20) is open, and
    yesterday's ledger holds a usable batch, an empty one, an expired one and
    one without expiry date. *)
Definition boundaryNow : Date := 20 * msPerDay + 1000.

Definition boundaryDb : Db :=
  mkDb {[ 1 := mkItem "tomato" "kg" 11 11 (Some 2) None None "active" ]}
       [ mkEntry 1 (19 * msPerDay) 1 10 (Some 2) (Some (25 * msPerDay)) 6 (19 * msPerDay + 5);
         mkEntry 2 (19 * msPerDay) 1 4 None None 0 (19 * msPerDay + 6);
         mkEntry 3 (19 * msPerDay) 1 3 None (Some (20 * msPerDay)) 3 (19 * msPerDay + 7);
         mkEntry 4 (19 * msPerDay) 1 2 None None 2 (19 * msPerDay + 8) ]
       {[ 19 * msPerDay := mkDayStatus true (Some (19 * msPerDay + 9)) ]}
       ∅ ∅ [] [] [] [].

(** The remaining quantity of an item over a list of entries. *)
Definition remainingOf (inventoryItemId : ObjectId) (entries : list DailyInventoryEntry)
    : Z :=
  foldr (λ e s, (if entry_inventoryItem e =? inventoryItemId
                 then entry_remainingQuantity e else 0) + s) 0 entries.

(** The remaining quantity of the entries of a list that are not expired. *)
Definition usableSum (now : Date) (entries : list DailyInventoryEntry) : Z :=
  foldr (λ e s, (if isExpiredAt now (entry_expiryDate e) then 0
                 else entry_remainingQuantity e) + s) 0 entries.

(** A candidate entry of a deduction that is not expired. *)
Definition isUsable (now today : Date) (inventoryItemId : ObjectId)
    (e : DailyInventoryEntry) : bool :=
  isCandidate today inventoryItemId e && negb (isExpiredAt now (entry_expiryDate e)).

(** The total remaining quantity of the non-expired entries of an item for
    today. *)
Definition usableTotal (now today : Date) (inventoryItemId : ObjectId)
    (entries : list DailyInventoryEntry) : Z :=
  usableSum now (filter (λ e, isCandidate today inventoryItemId e = true) entries).


(** A ledger for day 20 with two batches of item 1, 5 and 3 units, and a
    third batch that expired the day before. *)
Definition ledgerNow : Date := 20 * msPerDay + 1000.

Definition ledgerDb : Db :=
  mkDb {[ 1 := mkItem "tomato" "kg" 12 12 (Some 2) None None "active" ]}
       [ mkEntry 1 (20 * msPerDay) 1 5 None (Some (21 * msPerDay)) 5 (20 * msPerDay + 1);
         mkEntry 2 (20 * msPerDay) 1 4 None (Some (19 * msPerDay)) 4 (20 * msPerDay + 2);
         mkEntry 3 (20 * msPerDay) 1 3 None None 3 (20 * msPerDay + 3) ]
       ∅ ∅ ∅ [] [] [] [].

(** An order line that fails the availability check of [createOrder]. *)
Definition lineUnavailable (db : Db) (now : Date) (orderItem : OrderItemReq) : Prop :=
  ∃ menuItemId menuItem,
    oi_menuItem orderItem = Some menuItemId
    ∧ menuItems db !! menuItemId = Some menuItem
    ∧ isAvailable (checkIngredientAvailability (inventoryItems db) now
                     (menu_ingredients menuItem) (oi_quantity orderItem)) = false.

(** A kitchen on day 20: 5 kg of tomato in stock, received today in one
    batch, and a salad that takes 3 kg (a soup takes 2 kg). Order 100 was
    delivered. *)
Definition kitchenNow : Date := 20 * msPerDay + 1000.

Definition kitchenDb : Db :=
  mkDb {[ 1 := mkItem "tomato" "kg" 5 5 (Some 2) None None "active" ]}
       [ mkEntry 1 (20 * msPerDay) 1 5 None None 5 (20 * msPerDay + 1) ]
       ∅
       {[ 10 := mkMenuItem "salad" [mkIngredient 1 3 "kg"];
          11 := mkMenuItem "soup" [mkIngredient 1 2 "kg"] ]}
       {[ 100 := mkOrder "r1" "Ann" "dine-in" [mkOrderLine 10 1 50 50] 50 None None 50 ""
                   "delivered" None (Some (20 * msPerDay + 500)) ]}
       [] [] [] [].

Definition kitchenUser : User := mkUser 1 "r1".

(** One salad. *)
Definition oneSalad : CreateOrderReq :=
  mkCreateOrderReq (Some kitchenUser) "Bob" "" [mkOrderItemReq (Some 10) 1 50] "".

(** Two lines of one salad each: each line passes the availability check
    against the 5 kg in stock, together they need 6 kg. *)
Definition twoSalads : CreateOrderReq :=
  mkCreateOrderReq (Some kitchenUser) "Bob" ""
    [mkOrderItemReq (Some 10) 1 50; mkOrderItemReq (Some 10) 1 50] "".

(** Three soups on one line: 6 kg required, 5 kg available. *)
Definition threeSoups : CreateOrderReq :=
  mkCreateOrderReq (Some kitchenUser) "Bob" "" [mkOrderItemReq (Some 11) 3 40] "".

(** The stock figure of an item, if the item exists. *)
Definition stockAt (db : Db) (k : ObjectId) : option Z :=
  item_currentStock <$> inventoryItems db !! k.

(** What one ingredient line of a recipe takes from item [k] for
    [lineQuantity] dishes: [perUnitQuantity * lineQuantity]. *)
Definition requiredAmount (k : ObjectId) (lineQuantity : Z) (ingredient : Ingredient) : Z :=
  if ing_ingredient ingredient =? k then ing_quantity ingredient * lineQuantity else 0.

Definition requiredBy (k : ObjectId) (lineQuantity : Z) (ingredients : list Ingredient) : Z :=
  foldr (λ i s, requiredAmount k lineQuantity i + s) 0 ingredients.

(** What the lines of an order request take from item [k]. *)
Definition requiredByOrder (menu : gmap Z MenuItem) (k : ObjectId)
    (items : list OrderItemReq) : Z :=
  foldr (λ oi s,
           from_option (λ m, requiredBy k (oi_quantity oi) (menu_ingredients m)) 0
             (oi_menuItem oi ≫= (λ id, menu !! id)) + s) 0 items.

(** What a cancellation gives back to item [k] for one ingredient line:
    [perUnitQuantity * lineQuantity], when that is above zero. *)
Definition restoredAmount (k : ObjectId) (lineQuantity : Z) (ingredient : Ingredient) : Z :=
  if (ing_ingredient ingredient =? k)
     && negb (ing_quantity ingredient * lineQuantity <=? 0)
  then ing_quantity ingredient * lineQuantity else 0.

Definition restoredBy (k : ObjectId) (lineQuantity : Z) (ingredients : list Ingredient) : Z :=
  foldr (λ i s, restoredAmount k lineQuantity i + s) 0 ingredients.

(** What a cancellation gives back to item [k] over the lines of an order. *)
Definition restoredByOrder (menu : gmap Z MenuItem) (k : ObjectId)
    (lines : list OrderLine) : Z :=
  foldr (λ line s,
           from_option (λ m, restoredBy k (line_quantity line) (menu_ingredients m)) 0
             (menu !! line_menuItem line) + s) 0 lines.

(** The request that cancels an order. *)
Definition cancelReq : StatusReq := mkStatusReq "cancelled" None "".

(** An order request line and the order line stored for it. *)
Definition storedFor (orderItem : OrderItemReq) (line : OrderLine) : Prop :=
  oi_menuItem orderItem = Some (line_menuItem line)
  ∧ line_quantity line = oi_quantity orderItem
  ∧ 1 ≤ oi_quantity orderItem.

(** No recipe has a negative ingredient quantity. *)
Definition menuQuantitiesNonNegative (menu : gmap Z MenuItem) : Prop :=
  ∀ id menuItem, menu !! id = Some menuItem →
                 Forall (λ i, 0 ≤ ing_quantity i) (menu_ingredients menuItem).

(** The soft low-stock flag as the specification words it: the stock of
    the item is at or below its threshold, the threshold being above zero. *)
Definition atOrBelowThreshold (item : InventoryItem) : Prop :=
  ∃ t, item_minThreshold item = Some t ∧ 0 < t ∧ item_currentStock item ≤ t.

(** The low-stock condition of an item: it carries the status [low_stock],
    or its stock is at or below a threshold above zero. *)
Definition flaggedLowStock (item : InventoryItem) : Prop :=
  item_status item = "low_stock" ∨ atOrBelowThreshold item.

(** A kitchen that is low on tomato, 5 kg against a threshold of 10, with
    the status [low_stock], and the intake of 45 kg that follows. *)
Definition lowTomatoDb : Db :=
  mkDb {[ 1 := mkItem "tomato" "kg" 5 5 (Some 2) (Some 10) None "low_stock" ]}
       [] ∅ ∅ ∅ [] [] [] [].

Definition tomatoDelivery : AddItemReq := mkAddItemReq (Some 1) 45 (Some 2) None.

(** A pantry with 5 kg of an item whose threshold is 5 and 40 kg of one
    without threshold. *)
Definition pantry : gmap Z InventoryItem :=
  {[ 1 := mkItem "tomato" "kg" 5 5 (Some 2) (Some 5) None "active";
     2 := mkItem "rice" "kg" 40 40 (Some 1) None None "active" ]}.

(** A day boundary at which a batch of yesterday expires half a minute
    after the day has started: yesterday (day 19) is ended, today (day 20)
    is open; yesterday's ledger holds 6 kg that expire at 00:00:30 today and
    2 kg without expiry date. *)
Definition expiringDb : Db :=
  mkDb {[ 1 := mkItem "tomato" "kg" 8 8 (Some 2) None None "active" ]}
       [ mkEntry 1 (19 * msPerDay) 1 10 (Some 2) (Some (20 * msPerDay + 30000)) 6
           (19 * msPerDay + 5);
         mkEntry 2 (19 * msPerDay) 1 2 None None 2 (19 * msPerDay + 8) ]
       {[ 19 * msPerDay := mkDayStatus true (Some (19 * msPerDay + 9)) ]}
       ∅ ∅ [] [] [] [].

(** ** Notions used to state the further properties *)

(** [x'] is the stored entry [x] after a deduction: unchanged, or a usable
    candidate whose remaining quantity was lowered to some [r >= 0]. *)
Definition loweredFrom (now today : Date) (inventoryItemId : ObjectId)
    (x x' : DailyInventoryEntry) : Prop :=
  x' = x
  ∨ (isUsable now today inventoryItemId x = true
     ∧ ∃ r, 0 ≤ r < entry_remainingQuantity x ∧ x' = set_remainingQuantity r x).

(** The entries of the ledger have distinct ids, and each holds between
    nothing and what was received. *)
Definition ledgerWellFormed (entries : list DailyInventoryEntry) : Prop :=
  NoDup (entry_id <$> entries)
  ∧ Forall (λ e, 0 ≤ entry_remainingQuantity e ≤ entry_quantity e) entries.

(** An intake of 6 kg of tomato into the kitchen's open day. *)
Definition tomatoIntake : AddItemReq := mkAddItemReq (Some 1) 6 (Some 2) None.

(** What [checkExpiredItems] does to one inventory item. *)
Definition markExpired (now : Date) (item : InventoryItem) : InventoryItem :=
  if isExpiredNotDiscontinued now item then set_status "expired" item else item.

(** No inventory item has a negative [currentStock]. *)
Definition stockNonNegative (db : Db) : Prop :=
  ∀ k item, inventoryItems db !! k = Some item → 0 ≤ item_currentStock item.

(** The operations other than the bare ledger deduction, which never reads
    [currentStock], and the edit of an order, whose restoration and
    deduction loops do not compare each amount with [currentStock]. *)
Definition guardsStock (op : Operation) : bool :=
  match op with
  | OpDeduct _ _ | OpUpdateOrder _ _ => false
  | _ => true
  end.

(** The sum of [quantity * unitPrice] over the lines of a request. *)
Definition requestTotal (items : list OrderItemReq) : Z :=
  foldr (λ oi s, oi_quantity oi * oi_unitPrice oi + s) 0 items.

(** The request that sets an order back to [pending]. *)
Definition reopenReq : StatusReq := mkStatusReq "pending" None "".

(** What a bulk intake adds to item [k]: the sum of the positive quantities
    of the entries that name it. *)
Definition intakeOf (k : ObjectId) (entry : IntakeEntry) : Z :=
  match intake_inventoryItemId entry, intake_quantity entry with
  | Some id, Some q => if (id =? k) && negb (q <=? 0) then q else 0
  | _, _ => 0
  end.

Definition intakeFor (k : ObjectId) (entries : list IntakeEntry) : Z :=
  foldr (λ e s, intakeOf k e + s) 0 entries.

(** An entry of a bulk intake that is applied with inventory [inv]. *)
Definition isApplied (inv : gmap Z InventoryItem) (entry : IntakeEntry) : bool :=
  match intake_inventoryItemId entry, intake_quantity entry with
  | Some id, Some q => negb (q <=? 0) && bool_decide (is_Some (inv !! id))
  | _, _ => false
  end.

(** An item without its [currentStock]. *)
Definition forgetStock (item : InventoryItem) : InventoryItem :=
  mkItem (item_name item) (item_unit item) (item_quantity item) 0 (item_cost item)
         (item_minThreshold item) (item_expiryDate item) (item_status item).

(** The operations that sell or give back stock: the ledger deduction and
    the three writes on orders. *)
Definition isOrderOperation (op : Operation) : bool :=
  match op with
  | OpDeduct _ _ | OpCreateOrder _ | OpUpdateOrderStatus _ _ | OpUpdateOrder _ _ => true
  | _ => false
  end.

(** What the user does to the order form. *)
Inductive CartAction :=
  | CartAdd (menuItem : MenuCard)
  | CartRemove (menuItemId : ObjectId)
  | CartSetQuantity (menuItemId : ObjectId) (quantity : Z).

Definition cartStep (items : list CartItem) (a : CartAction) : list CartItem :=
  match a with
  | CartAdd menuItem => addItemToOrder menuItem items
  | CartRemove menuItemId => removeItemFromOrder menuItemId items
  | CartSetQuantity menuItemId quantity => updateOrderItemQuantity menuItemId quantity items
  end.

(** The lines of the form name distinct dishes, each with a quantity of at
    least 1, the price suggested for the dish and [quantity * unitPrice] as
    its total. *)
Definition cartWellFormed (items : list CartItem) : Prop :=
  NoDup ((λ item, card_id (cart_menuItem item)) <$> items)
  ∧ Forall (λ item, 1 ≤ cart_quantity item
                    ∧ cart_unitPrice item = card_suggestedPrice (cart_menuItem item)
                    ∧ cart_totalPrice item = cart_quantity item * cart_unitPrice item)
      items.

(** * Properties *)

Lemma forallb_false_elem {A} (p : A → bool) (l : list A) :
forallb p l = false → ∃ x, x ∈ l ∧ p x = false.
Proof.
induction l as [|a l IH]; simpl; [done|].
destruct (p a) eqn:Hp; simpl.
- intros (x & Hx & Hpx)%IH. exists x. split; [by right | done].
- intros _. exists a. split; [by left | done].
Qed.

Section StockChecker.
Variables (inventory : gmap Z InventoryItem) (now : Date) (quantity : Z).

Lemma checkIngredient_missing st ingredient :
  isMissing inventory now quantity ingredient = true →
  ∃ m, checkIngredient inventory now quantity st ingredient
       = mkCheckState (cs_missingIngredients st ++ [m])
           (cs_hasLowStock (checkIngredient inventory now quantity st ingredient))
           (cs_hasOutOfStock (checkIngredient inventory now quantity st ingredient)).
Proof.
  unfold isMissing, checkIngredient.
  destruct (inventory !! ing_ingredient ingredient) as [it|]; [|by eexists].
  destruct (isExpiredAt now (item_expiryDate it) || String.eqb (item_status it) "expired");
    simpl; [by eexists|].
  intros ->. by eexists.
Qed.

Lemma checkIngredient_present st ingredient :
  isMissing inventory now quantity ingredient = false →
  checkIngredient inventory now quantity st ingredient
  = mkCheckState (cs_missingIngredients st)
      (cs_hasLowStock st || triggersLowStock inventory now quantity ingredient)
      (cs_hasOutOfStock st).
Proof.
  unfold triggersLowStock. intros Hm. rewrite Hm. revert Hm.
  unfold isMissing, checkIngredient.
  destruct (inventory !! ing_ingredient ingredient) as [it|]; [|done].
  intros [[-> ->]%orb_false_iff ->]%orb_false_iff. simpl.
  destruct (lowStockFlag it), st as [ms [] oos]; simpl; reflexivity.
Qed.

(** The loop of the checker, from any intermediate state: the list of
    missing ingredients stays empty exactly when no ingredient is missing,
    and then the two flags are the disjunction of the low-stock triggers. *)
Lemma checkLoop_spec ingredients : ∀ st,
  let st' := fold_left (checkIngredient inventory now quantity) ingredients st in
  (cs_missingIngredients st' = []
   ↔ cs_missingIngredients st = []
     ∧ forallb (λ i, negb (isMissing inventory now quantity i)) ingredients = true)
  ∧ (cs_missingIngredients st' = [] →
     cs_hasOutOfStock st' = cs_hasOutOfStock st
     ∧ cs_hasLowStock st'
       = cs_hasLowStock st || existsb (triggersLowStock inventory now quantity) ingredients).
Proof.
  induction ingredients as [|i rest IH]; intros st; simpl.
  { split; [tauto|]. intros _. by rewrite orb_false_r. }
  destruct (isMissing inventory now quantity i) eqn:Hm; simpl.
  - destruct (checkIngredient_missing st i Hm) as [m Heq].
    destruct (IH (checkIngredient inventory now quantity st i)) as [IH1 IH2].
    assert (cs_missingIngredients (checkIngredient inventory now quantity st i) ≠ []) as Hne.
    { rewrite Heq. simpl. by destruct (cs_missingIngredients st). }
    split.
    + split; [intros H; apply IH1 in H as [H _]; contradiction | intros [_ [=]]].
    + intros H. apply IH1 in H as [H _]. contradiction.
  - rewrite (checkIngredient_present st i Hm).
    specialize (IH (mkCheckState (cs_missingIngredients st)
       (cs_hasLowStock st || triggersLowStock inventory now quantity i)
       (cs_hasOutOfStock st))).
    simpl in IH. destruct IH as [IH1 IH2]. split; [exact IH1|].
    intros H. destruct (IH2 H) as [-> ->]. by rewrite orb_assoc.
Qed.

(** An out-of-stock flag is only ever raised together with an entry of
    [missingIngredients]. *)
Lemma checkLoop_outOfStock ingredients : ∀ st,
  let st' := fold_left (checkIngredient inventory now quantity) ingredients st in
  (cs_hasOutOfStock st = true → cs_missingIngredients st ≠ []) →
  cs_hasOutOfStock st' = true → cs_missingIngredients st' ≠ [].
Proof.
  induction ingredients as [|i rest IH]; intros st; simpl; [done|].
  intros Hst. apply IH.
  destruct (isMissing inventory now quantity i) eqn:Hm.
  - destruct (checkIngredient_missing st i Hm) as [m Heq].
    intros _. rewrite Heq. simpl. by destruct (cs_missingIngredients st).
  - rewrite (checkIngredient_present st i Hm). exact Hst.
Qed.

(** The aggregate result in terms of the loop's flag. *)
Lemma checkIngredientAvailability_flags (ingredients : list Ingredient) :
  let r := checkIngredientAvailability inventory now ingredients quantity in
  (missingIngredients r ≠ []
   ↔ ∃ i, i ∈ ingredients ∧ isMissing inventory now quantity i = true)
  ∧ (missingIngredients r ≠ [] →
     stockStatus r = "out_of_stock" ∧ isAvailable r = false)
  ∧ (missingIngredients r = [] →
     (∃ i, i ∈ ingredients ∧ triggersLowStock inventory now quantity i = true) →
     stockStatus r = "low_stock" ∧ isAvailable r = true)
  ∧ (missingIngredients r = [] →
     (∀ i, i ∈ ingredients → triggersLowStock inventory now quantity i = false) →
     stockStatus r = "available" ∧ isAvailable r = true).
Proof.
  pose proof (checkLoop_spec ingredients (mkCheckState [] false false)) as [Hmiss Hflags].
  pose proof (checkLoop_outOfStock ingredients (mkCheckState [] false false)) as Hoos.
  simpl in Hmiss, Hflags, Hoos.
  set (st := fold_left (checkIngredient inventory now quantity) ingredients
               (mkCheckState [] false false)) in *.
  assert (missingIngredients
            (checkIngredientAvailability inventory now ingredients quantity)
          = cs_missingIngredients st) as Hm.
  { unfold checkIngredientAvailability. fold st.
    destruct (cs_hasOutOfStock st || _); [done|]. by destruct (cs_hasLowStock st). }
  simpl. rewrite Hm. repeat split.
  - intros Hne. destruct (forallb _ ingredients) eqn:Hall; [tauto|].
    apply forallb_false_elem in Hall as (i & Hi & Hf).
    exists i. split; [done|]. by destruct (isMissing _ _ _ i).
  - intros (i & Hi & Hmi) Hnil. apply Hmiss in Hnil as [_ Hall].
    rewrite forallb_forall in Hall. apply list_elem_of_In, Hall in Hi.
    by rewrite Hmi in Hi.
  - unfold checkIngredientAvailability. fold st.
    destruct (cs_missingIngredients st); [done|]. simpl.
    by rewrite orb_true_r.
  - unfold checkIngredientAvailability. fold st.
    destruct (cs_missingIngredients st); [done|]. simpl.
    by rewrite orb_true_r.
  - destruct (Hflags H) as [Ho Hl]. simpl in Ho, Hl.
    destruct H0 as (i & Hi & Ht).
    unfold checkIngredientAvailability. fold st. rewrite Ho, H, Hl. simpl.
    replace (existsb _ ingredients) with true; [done|].
    symmetry. apply existsb_exists. exists i. by rewrite <- list_elem_of_In.
  - destruct (Hflags H) as [Ho Hl]. simpl in Ho, Hl.
    destruct H0 as (i & Hi & Ht).
    unfold checkIngredientAvailability. fold st. rewrite Ho, H, Hl. simpl.
    replace (existsb _ ingredients) with true; [done|].
    symmetry. apply existsb_exists. exists i. by rewrite <- list_elem_of_In.
  - destruct (Hflags H) as [Ho Hl]. simpl in Ho, Hl.
    unfold checkIngredientAvailability. fold st. rewrite Ho, H, Hl. simpl.
    replace (existsb _ ingredients) with false; [done|].
    symmetry. apply not_true_is_false. intros (i & Hi & Ht)%existsb_exists.
    apply list_elem_of_In, H0 in Hi. congruence.
  - destruct (Hflags H) as [Ho Hl]. simpl in Ho, Hl.
    unfold checkIngredientAvailability. fold st. rewrite Ho, H, Hl. simpl.
    replace (existsb _ ingredients) with false; [done|].
    symmetry. apply not_true_is_false. intros (i & Hi & Ht)%existsb_exists.
    apply list_elem_of_In, H0 in Hi. congruence.
Qed.
Lemma lowStockFlag_flagged item : lowStockFlag item = true ↔ flaggedLowStock item.
Proof.
  unfold lowStockFlag, flaggedLowStock, atOrBelowThreshold.
  rewrite orb_true_iff, String.eqb_eq.
  destruct (item_minThreshold item) as [t|]; simpl.
  - rewrite andb_true_iff, Z.ltb_lt, Z.leb_le. split.
    + intros [Hs|[Ht Hl]]; [by left | right; by exists t].
    + intros [Hs|(t' & [= <-] & Ht & Hl)]; [by left | by right].
  - split; [intros [Hs|[=]]; by left | intros [Hs|(t' & [=] & _)]; by left].
Qed.

Lemma triggersLowStock_flagged (ingredients : list Ingredient) :
  (∀ i, i ∈ ingredients → isMissing inventory now quantity i = false) →
  (∃ i, i ∈ ingredients ∧ triggersLowStock inventory now quantity i = true)
  ↔ ∃ i item, i ∈ ingredients ∧ inventory !! ing_ingredient i = Some item
              ∧ flaggedLowStock item.
Proof.
  intros Hall. split.
  - intros (i & Hi & Ht). unfold triggersLowStock in Ht.
    apply andb_true_iff in Ht as [_ Ht].
    destruct (inventory !! ing_ingredient i) as [item|] eqn:Hitem; [|done].
    exists i, item. split; [done|]. split; [done|]. by apply lowStockFlag_flagged.
  - intros (i & item & Hi & Hitem & Hf). exists i. split; [done|].
    unfold triggersLowStock. rewrite (Hall i Hi), Hitem. simpl.
    by apply lowStockFlag_flagged.
Qed.

(** C9, as the code has it. The aggregate result of the availability
    checker: a non-empty [missingIngredients] (some ingredient unknown,
    expired or short) gives [out_of_stock] and [isAvailable = false];
    otherwise, when some ingredient's item carries the status [low_stock] or
    has its stock at or below a threshold above zero, the result is
    [low_stock] with [isAvailable = true]; otherwise the result is
    [available] with [isAvailable = true]. *)
Theorem checkIngredientAvailability_status (ingredients : list Ingredient) :
  let r := checkIngredientAvailability inventory now ingredients quantity in
  let someFlagged :=
    ∃ i item, i ∈ ingredients ∧ inventory !! ing_ingredient i = Some item
              ∧ (item_status item = "low_stock"
                 ∨ ∃ t, item_minThreshold item = Some t ∧ 0 < t
                        ∧ item_currentStock item ≤ t) in
  (missingIngredients r ≠ []
   ↔ ∃ i, i ∈ ingredients ∧ isMissing inventory now quantity i = true)
  ∧ (missingIngredients r ≠ [] →
     stockStatus r = "out_of_stock" ∧ isAvailable r = false)
  ∧ (missingIngredients r = [] → someFlagged →
     stockStatus r = "low_stock" ∧ isAvailable r = true)
  ∧ (missingIngredients r = [] → ¬ someFlagged →
     stockStatus r = "available" ∧ isAvailable r = true).
Proof.
  cbn zeta.
  destruct (checkIngredientAvailability_flags ingredients) as (Hmiss & Hout & Hlow & Hav).
  cbn zeta in *.
  assert (missingIngredients
            (checkIngredientAvailability inventory now ingredients quantity) = [] →
          ∀ i, i ∈ ingredients → isMissing inventory now quantity i = false) as Hnone.
  { intros Hnil i Hi. destruct (isMissing inventory now quantity i) eqn:Hm; [|done].
    exfalso. apply (proj2 Hmiss); [by exists i | done]. }
  split; [exact Hmiss|]. split; [exact Hout|]. split.
  - intros Hnil Hsome. apply (Hlow Hnil).
    by apply (triggersLowStock_flagged ingredients (Hnone Hnil)).
  - intros Hnil Hno. apply (Hav Hnil). intros i Hi.
    destruct (triggersLowStock inventory now quantity i) eqn:Ht; [|done].
    exfalso. apply Hno.
    apply (triggersLowStock_flagged ingredients (Hnone Hnil)). by exists i.
Qed.
End StockChecker.

(** C9 as stated fails. After an intake that takes the stock of an item
    from 5 to 50, above its threshold of 10, the item still carries the
    status [low_stock]; the soft flag as the specification words it fires
    for no ingredient of the recipe, nothing is missing, and the result is
    [low_stock], not [available]. *)
Lemma low_stock_status_above_threshold :
  let now := 20 * msPerDay + 1000 in
  let db1 := (addItemToToday now tomatoDelivery lowTomatoDb).2 in
  let recipe := [mkIngredient 1 2 "kg"] in
  let r := checkIngredientAvailability (inventoryItems db1) (now + 1) recipe 1 in
  inventoryItems db1
  = {[ 1 := mkItem "tomato" "kg" 50 50 (Some 2) (Some 10) None "low_stock" ]}
  ∧ missingIngredients r = []
  ∧ (∀ i item, i ∈ recipe → inventoryItems db1 !! ing_ingredient i = Some item →
               ¬ atOrBelowThreshold item)
  ∧ stockStatus r = "low_stock"
  ∧ stockStatus r ≠ "available".
Proof.
  cbn zeta.
  assert (inventoryItems (addItemToToday (20 * msPerDay + 1000) tomatoDelivery lowTomatoDb).2
          = {[ 1 := mkItem "tomato" "kg" 50 50 (Some 2) (Some 10) None "low_stock" ]})
    as Hinv by (by vm_compute).
  split; [exact Hinv|]. rewrite Hinv.
  split; [reflexivity|]. split; [|split; [reflexivity | by vm_compute]].
  intros i item Hi Hitem. apply elem_of_cons in Hi as [->|Hi]; [|by apply elem_of_nil in Hi].
  simpl in Hitem. apply lookup_singleton_Some in Hitem as [_ <-].
  intros (t & [= <-] & _ & Hle). simpl in Hle. lia.
Qed.

Lemma checkIngredientAvailability_status_witness :
  (let r := checkIngredientAvailability pantry 1000
              [mkIngredient 1 3 "kg"; mkIngredient 2 1 "kg"] 1 in
   stockStatus r = "low_stock" ∧ isAvailable r = true)
  ∧ (let r := checkIngredientAvailability pantry 1000 [mkIngredient 2 1 "kg"] 1 in
     stockStatus r = "available" ∧ isAvailable r = true)
  ∧ (let r := checkIngredientAvailability pantry 1000
                [mkIngredient 1 3 "kg"; mkIngredient 2 1 "kg"] 2 in
     stockStatus r = "out_of_stock" ∧ isAvailable r = false).
Proof.
  cbn zeta. split; [|split].
  - apply (checkIngredientAvailability_status pantry 1000 1
             [mkIngredient 1 3 "kg"; mkIngredient 2 1 "kg"]); [reflexivity|].
    exists (mkIngredient 1 3 "kg"), (mkItem "tomato" "kg" 5 5 (Some 2) (Some 5) None "active").
    split; [apply elem_of_cons; by left|]. split; [reflexivity|].
    right. exists 5. simpl. split; [done | lia].
  - apply (checkIngredientAvailability_status pantry 1000 1 [mkIngredient 2 1 "kg"]);
      [reflexivity|].
    intros (i & item & Hi & Hitem & Hf).
    apply elem_of_cons in Hi as [->|Hi]; [|by apply elem_of_nil in Hi].
    assert (item = mkItem "rice" "kg" 40 40 (Some 1) None None "active") as ->.
    { by vm_compute in Hitem; injection Hitem as <-. }
    by destruct Hf as [[=]|(t & [=] & _)].
  - apply (checkIngredientAvailability_status pantry 1000 2
             [mkIngredient 1 3 "kg"; mkIngredient 2 1 "kg"]).
    by vm_compute.
Defined.

Section ExpirySweep.
Variable now : Date.


Lemma writeOff_idemp (o : option InventoryItem) :
  writeOff <$> (writeOff <$> o) = writeOff <$> o.
Proof. by destruct o. Qed.

(** The loop of the sweep over any list of found items, from any
    intermediate state. *)
Lemma sweepLoop_spec found : ∀ st,
  let st' := fold_left (processExpiredItem now) found st in
  ∃ newLogs newItems,
    wasteLogs (sw_db st') = wasteLogs (sw_db st) ++ newLogs
    ∧ sw_processedItems st' = sw_processedItems st ++ newItems
    ∧ Forall3 recordsWaste found newLogs newItems
    ∧ sw_totalWasteCost st' = sw_totalWasteCost st + sumWasteCost found
    ∧ (∀ k, inventoryItems (sw_db st') !! k
            = if decide (k ∈ found.*1) then writeOff <$> inventoryItems (sw_db st) !! k
              else inventoryItems (sw_db st) !! k)
    ∧ dailyEntries (sw_db st') = dailyEntries (sw_db st)
    ∧ orders (sw_db st') = orders (sw_db st).
Proof.
  induction found as [|[id item] rest IH]; intros st; simpl.
  { exists [], []. rewrite !app_nil_r. repeat split; [constructor | lia]. }
  destruct (IH (processExpiredItem now st (id, item)))
    as (logs & items & Hl & Hp & HF & Ht & Hinv & Hd & Ho).
  simpl in *.
  eexists (_ :: logs), (_ :: items).
  rewrite Hl, Hp, Ht, Hd, Ho. simpl. rewrite <- !app_assoc. simpl.
  repeat split; [|lia|].
  - constructor; [|exact HF]. by repeat split.
  - intros k. rewrite Hinv. simpl. rewrite lookup_alter.
    repeat case_decide; subst; rewrite ?writeOff_idemp; try done;
      match goal with
      | H : ¬ _ ∈ _ :: _ |- _ => apply not_elem_of_cons in H; intuition congruence
      | H : _ ∈ _ :: _ |- _ => apply elem_of_cons in H; intuition congruence
      end.
Qed.

Lemma elem_of_expiredItemsOf db k item :
  (k, item) ∈ expiredItemsOf now db
  ↔ inventoryItems db !! k = Some item ∧ isExpiredWithStock now item = true.
Proof.
  unfold expiredItemsOf. by rewrite elem_of_map_to_list, map_lookup_filter_Some.
Qed.

(** The inventory after the sweep, item by item. *)
Lemma processExpiredItems_inventory db k :
  inventoryItems (processExpiredItems now db).2 !! k
  = (λ item, if isExpiredWithStock now item then writeOff item else item)
      <$> inventoryItems db !! k.
Proof.
  unfold processExpiredItems. simpl.
  destruct (sweepLoop_spec (expiredItemsOf now db) (mkSweepState [] 0 db))
    as (_ & _ & _ & _ & _ & _ & Hinv & _).
  simpl in Hinv. rewrite Hinv. clear Hinv.
  destruct (decide (k ∈ (expiredItemsOf now db).*1)) as [Hin|Hnin].
  - apply list_elem_of_fmap in Hin as ([k' item] & -> & Hin). simpl.
    apply elem_of_expiredItemsOf in Hin as [-> Hsel]. simpl. by rewrite Hsel.
  - destruct (inventoryItems db !! k) as [item|] eqn:Hk; [|done]. simpl.
    destruct (isExpiredWithStock now item) eqn:Hsel; [|done].
    exfalso. apply Hnin. apply list_elem_of_fmap. exists (k, item).
    split; [done|]. by apply elem_of_expiredItemsOf.
Qed.

End ExpirySweep.

Section ExpiredStatus.

Lemma checkExpiredItems_inventory now db k :
  inventoryItems (checkExpiredItems now db) !! k
  = (λ item, if isExpiredNotDiscontinued now item then set_status "expired" item
             else item) <$> inventoryItems db !! k.
Proof. unfold checkExpiredItems. simpl. apply lookup_fmap. Qed.

(** C3, as the code has it. An item with [expiryDate < now] and a status
    other than [discontinued] is written off by the expiry sweep when it
    holds stock ([status = expired] and [currentStock = 0] afterwards),
    whereas [checkExpiredItems] sets its status to [expired] and keeps its
    [currentStock]. *)
Theorem expired_status_and_stock now db k item :
  inventoryItems db !! k = Some item →
  isExpiredAt now (item_expiryDate item) = true →
  item_status item ≠ "discontinued" →
  (0 < item_currentStock item →
   ∃ item', inventoryItems (processExpiredItems now db).2 !! k = Some item'
            ∧ item_status item' = "expired" ∧ item_currentStock item' = 0)
  ∧ (∃ item', inventoryItems (checkExpiredItems now db) !! k = Some item'
              ∧ item_status item' = "expired"
              ∧ item_currentStock item' = item_currentStock item).
Proof.
  intros Hk Hexp Hst. apply String.eqb_neq in Hst. split.
  - intros Hpos. exists (writeOff item).
    rewrite processExpiredItems_inventory, Hk. simpl.
    unfold isExpiredWithStock. rewrite Hexp, Hst.
    by rewrite (proj2 (Z.ltb_lt _ _) Hpos).
  - exists (set_status "expired" item).
    rewrite checkExpiredItems_inventory, Hk. simpl.
    unfold isExpiredNotDiscontinued. by rewrite Hexp, Hst.
Qed.

Lemma expired_status_and_stock_witness :
  (∃ item', inventoryItems (processExpiredItems scenarioNow scenarioDb).2 !! 7
            = Some item'
            ∧ item_status item' = "expired" ∧ item_currentStock item' = 0)
  ∧ (∃ item', inventoryItems (checkExpiredItems scenarioNow scenarioDb) !! 7
              = Some item'
              ∧ item_status item' = "expired"
              ∧ item_currentStock item' = item_currentStock scenarioItem).
Proof.
  destruct (expired_status_and_stock scenarioNow scenarioDb 7 scenarioItem)
    as [Hsweep Hmark]; [reflexivity | reflexivity | discriminate |].
  split; [apply Hsweep; reflexivity | exact Hmark].
Defined.

(** C3 as stated fails: from a database in which every expired item is
    empty, [checkExpiredItems] reaches one with an expired item that still
    holds its stock of 4. *)
Lemma expired_item_with_stock_reachable :
  expiredHasNoStock scenarioDb
  ∧ reachable scenarioDb (checkExpiredItems scenarioNow scenarioDb)
  ∧ ¬ expiredHasNoStock (checkExpiredItems scenarioNow scenarioDb).
Proof.
  split; [|split].
  - intros k item Hk. simpl in Hk.
    apply lookup_singleton_Some in Hk as [_ <-]. discriminate.
  - apply (reachable_step scenarioDb scenarioDb scenarioNow OpCheckExpiredItems).
    constructor.
  - intros H. specialize (H 7 (set_status "expired" scenarioItem)).
    discriminate H; reflexivity.
Qed.
End ExpiredStatus.

Section DayBoundary.

Lemma filter_carried now yesterday (l : list DailyInventoryEntry) :
  filter (λ e, isExpiredAt now (entry_expiryDate e) = false)
         (filter (λ e, isLeftover yesterday e = true) l)
  = filter (λ e, isCarriedForward now yesterday e = true) l.
Proof.
  rewrite list_filter_filter. apply list_filter_iff. intros e.
  unfold isCarriedForward. rewrite andb_true_iff, negb_true_iff. tauto.
Qed.

(** The carry-forward loop over any list of entries: when it ends
    normally, one entry was appended per entry that is not expired, in
    order, and every such entry had its inventory item; it ends with a
    [TypeError] exactly when some such entry has lost its item. Nothing
    but the daily entries is written. *)
Lemma carryForwardLoop_spec now today l : ∀ carried db,
  let usable := filter (λ e, isExpiredAt now (entry_expiryDate e) = false) l in
  match carryForwardLoop now today l carried db with
  | (Ok carried', db') =>
      ∃ added, dailyEntries db' = dailyEntries db ++ added
               ∧ Forall2 (carriesForward today) usable added
               ∧ length carried' = (length carried + length added)%nat
               ∧ Forall (λ e, is_Some (inventoryItems db !! entry_inventoryItem e)) usable
               ∧ db' = with_dailyEntries (λ _, dailyEntries db') db
  | (Err e, _) =>
      e = TypeError
      ∧ ∃ entry, entry ∈ usable
                 ∧ inventoryItems db !! entry_inventoryItem entry = None
  end.
Proof.
  induction l as [|entry rest IH]; intros carried db; simpl.
  { exists []. rewrite app_nil_r. repeat split; try constructor; [simpl; lia|].
    by destruct db. }
  destruct (isExpiredAt now (entry_expiryDate entry)) eqn:Hexp.
  { rewrite filter_cons_False by (by rewrite Hexp). apply IH. }
  rewrite filter_cons_True by done.
  destruct (inventoryItems db !! entry_inventoryItem entry) as [item|] eqn:Hitem.
  2:{ split; [done|]. exists entry. split; [by left | done]. }
  match goal with |- context [carryForwardLoop now today rest ?c ?d] =>
    specialize (IH c d); destruct (carryForwardLoop now today rest c d) as [[cf|e] db']
  end; simpl in IH.
  - destruct IH as (added & Hd & HF & Hlen & Hall & Hdb).
    eexists (_ :: added).
    split; [by rewrite Hd, <- app_assoc|].
    split; [constructor; [by repeat split | exact HF]|].
    split; [rewrite Hlen, length_app; simpl; lia|].
    split; [constructor; [by rewrite Hitem | exact Hall]|].
    exact Hdb.
  - destruct IH as (-> & entry' & Hin & Hnone). split; [done|].
    exists entry'. split; [by right | done].
Qed.

Lemma startNewDay_Ok_inv now db summary db' :
  startNewDay now db = (Ok summary, db') →
  isDayEnded db (getTodayDate now) = false
  ∧ isDayEnded db (getTodayDate now - msPerDay) = true.
Proof.
  unfold startNewDay.
  destruct (isDayEnded db (getTodayDate now)); [done|].
  destruct (isDayEnded db (getTodayDate now - msPerDay)); [done|]. done.
Qed.

(** What a call of [startNewDay] that returns a summary has done. *)
Lemma startNewDay_Ok now db summary db' :
  startNewDay now db = (Ok summary, db') →
  let today := getTodayDate now in
  let carried :=
    filter (λ e, isCarriedForward now (today - msPerDay) e = true) (dailyEntries db) in
  ∃ added,
    dailyEntries db' = dailyEntries db ++ added
    ∧ Forall2 (carriesForward today) carried added
    ∧ nd_carriedForwardCount summary = length carried
    ∧ Forall (λ e, is_Some (inventoryItems db !! entry_inventoryItem e)) carried
    ∧ db' = with_dailyEntries (λ _, dailyEntries db') db.
Proof.
  intros Hrun. simpl. destruct (startNewDay_Ok_inv _ _ _ _ Hrun) as [Ht Hy].
  unfold startNewDay in Hrun. rewrite Ht, Hy in Hrun. simpl in Hrun.
  pose proof (carryForwardLoop_spec now (getTodayDate now)
    (filter (λ e, isLeftover (getTodayDate now - msPerDay) e = true) (dailyEntries db))
    [] db) as Hloop.
  simpl in Hloop. rewrite filter_carried in Hloop.
  destruct (carryForwardLoop _ _ _ _ _) as [[cf|e] db1]; [|done].
  injection Hrun as <- <-. simpl.
  destruct Hloop as (added & Hd & HF & Hlen & Hall & Hdb).
  exists added. repeat split; try done.
  rewrite Hlen. simpl. symmetry. by eapply Forall2_length.
Qed.

(** [startNewDay] returns a summary whenever the two day checks pass and
    every carried entry still has its inventory item. *)
Lemma startNewDay_succeeds now db :
  let today := getTodayDate now in
  isDayEnded db today = false →
  isDayEnded db (today - msPerDay) = true →
  Forall (λ e, is_Some (inventoryItems db !! entry_inventoryItem e))
    (filter (λ e, isCarriedForward now (today - msPerDay) e = true) (dailyEntries db)) →
  ∃ summary db', startNewDay now db = (Ok summary, db').
Proof.
  simpl. intros Ht Hy Hall. unfold startNewDay. rewrite Ht, Hy. simpl.
  pose proof (carryForwardLoop_spec now (getTodayDate now)
    (filter (λ e, isLeftover (getTodayDate now - msPerDay) e = true) (dailyEntries db))
    [] db) as Hloop.
  simpl in Hloop. rewrite filter_carried in Hloop.
  destruct (carryForwardLoop _ _ _ _ _) as [[cf|e] db1]; [by eauto|].
  destruct Hloop as (_ & entry & Hin & Hnone).
  rewrite Forall_forall in Hall. apply Hall in Hin. rewrite Hnone in Hin.
  by destruct Hin.
Qed.


End DayBoundary.

Section CarryForwardTwice.

Lemma filter_ext_elem {A} (P Q : A → Prop) `{!∀ x, Decision (P x), !∀ x, Decision (Q x)}
    (l : list A) :
  (∀ x, x ∈ l → (P x ↔ Q x)) → filter P l = filter Q l.
Proof.
  induction l as [|a l IH]; intros Hext; [done|].
  rewrite !filter_cons.
  destruct (decide (P a)) as [Hp|Hp], (decide (Q a)) as [Hq|Hq].
  - f_equal. apply IH. intros x Hx. apply Hext. by right.
  - exfalso. apply Hq, (Hext a); [by left | done].
  - exfalso. apply Hp, (Hext a); [by left | done].
  - apply IH. intros x Hx. apply Hext. by right.
Qed.

Lemma quantityOn_app date id l1 l2 :
  quantityOn date id (l1 ++ l2) = quantityOn date id l1 + quantityOn date id l2.
Proof. induction l1 as [|e l1 IH]; simpl; [done|]. rewrite IH. lia. Qed.

(** The copies made for today add up to the remaining quantity of the
    entries they were made from. *)
Lemma quantityOn_carried today id olds news :
  Forall2 (carriesForward today) olds news →
  quantityOn today id news = remainingOf id olds.
Proof.
  induction 1 as [|old new olds news (Hd & Hi & Hq & _) _ IH]; simpl; [done|].
  rewrite IH, Hd, Hi, Hq, Z.eqb_refl. done.
Qed.

(** Entries made for today are not among yesterday's leftovers. *)
Lemma carried_not_leftover now today olds news :
  Forall2 (carriesForward today) olds news →
  filter (λ e, isCarriedForward now (today - msPerDay) e = true) news = [].
Proof.
  induction 1 as [|old new olds news (Hd & _) _ IH]; [done|].
  rewrite filter_cons_False; [done|].
  unfold isCarriedForward, isLeftover. rewrite Hd.
  replace (today =? today - msPerDay) with false; [done|].
  symmetry. apply Z.eqb_neq. unfold msPerDay. lia.
Qed.

(** C10, as the code has it. [startNewDay] does not look at whether
    today's carry-forward was already made: after a call that returned a
    summary, a second call on the same day, with no leftover entry of
    yesterday expiring between the two calls, returns a summary again and
    appends a second copy of every carried entry, so for every item the
    quantity it added to today's ledger is doubled. *)
Theorem startNewDay_not_idempotent now1 now2 db summary1 db1 :
  let today := getTodayDate now1 in
  let carried :=
    filter (λ e, isCarriedForward now1 (today - msPerDay) e = true) (dailyEntries db) in
  getTodayDate now2 = today →
  (∀ e, e ∈ dailyEntries db → isLeftover (today - msPerDay) e = true →
        isExpiredAt now2 (entry_expiryDate e) = isExpiredAt now1 (entry_expiryDate e)) →
  startNewDay now1 db = (Ok summary1, db1) →
  ∃ summary2 db2 added1 added2,
    startNewDay now2 db1 = (Ok summary2, db2)
    ∧ dailyEntries db1 = dailyEntries db ++ added1
    ∧ dailyEntries db2 = dailyEntries db ++ added1 ++ added2
    ∧ Forall2 (carriesForward today) carried added1
    ∧ Forall2 (carriesForward today) carried added2
    ∧ nd_carriedForwardCount summary2 = nd_carriedForwardCount summary1
    ∧ ∀ id, quantityOn today id (dailyEntries db2) - quantityOn today id (dailyEntries db)
            = 2 * (quantityOn today id (dailyEntries db1)
                   - quantityOn today id (dailyEntries db)).
Proof.
  simpl. intros Hday Hsame Hrun1.
  destruct (startNewDay_Ok_inv _ _ _ _ Hrun1) as [Ht Hy].
  destruct (startNewDay_Ok _ _ _ _ Hrun1) as (added1 & Hd1 & HF1 & Hc1 & Hall & Hdb1).
  simpl in *.
  assert (filter (λ e, isCarriedForward now2 (getTodayDate now2 - msPerDay) e = true)
            (dailyEntries db1)
          = filter (λ e, isCarriedForward now1 (getTodayDate now1 - msPerDay) e = true)
              (dailyEntries db)) as Hcarried.
  { rewrite Hday, Hd1, filter_app, (carried_not_leftover _ _ _ _ HF1), app_nil_r.
    apply filter_ext_elem. intros e He. unfold isCarriedForward.
    destruct (isLeftover (getTodayDate now1 - msPerDay) e) eqn:Hl; [|done].
    by rewrite (Hsame e He Hl). }
  destruct (startNewDay_succeeds now2 db1) as (summary2 & db2 & Hrun2).
  { rewrite Hday, Hdb1. exact Ht. }
  { rewrite Hday, Hdb1. exact Hy. }
  { rewrite Hcarried. by rewrite Hdb1. }
  destruct (startNewDay_Ok _ _ _ _ Hrun2) as (added2 & Hd2 & HF2 & Hc2 & _ & _).
  simpl in *. rewrite Hcarried, Hday in *.
  exists summary2, db2, added1, added2.
  split; [exact Hrun2|]. split; [exact Hd1|].
  split; [by rewrite Hd2, Hd1, <- app_assoc|].
  split; [exact HF1|]. split; [exact HF2|]. split; [congruence|].
  intros id. rewrite Hd2, Hd1, !quantityOn_app.
  rewrite (quantityOn_carried _ id _ _ HF1), (quantityOn_carried _ id _ _ HF2). lia.
Qed.

Lemma startNewDay_not_idempotent_witness :
  ∃ summary1 db1 summary2 db2 added,
    startNewDay boundaryNow boundaryDb = (Ok summary1, db1)
    ∧ startNewDay (boundaryNow + 60000) db1 = (Ok summary2, db2)
    ∧ dailyEntries db1 = dailyEntries boundaryDb ++ added
    ∧ length (dailyEntries db2) = (length (dailyEntries boundaryDb) + 2 * length added)%nat
    ∧ quantityOn (20 * msPerDay) 1 (dailyEntries db1) = 8
    ∧ quantityOn (20 * msPerDay) 1 (dailyEntries db2) = 16.
Proof.
  destruct (startNewDay boundaryNow boundaryDb) as [[summary1|e] db1] eqn:Hrun1;
    [|by vm_compute in Hrun1].
  destruct (startNewDay_not_idempotent boundaryNow (boundaryNow + 60000) boundaryDb
              summary1 db1)
    as (summary2 & db2 & added1 & added2 & Hrun2 & Hd1 & Hd2 & HF1 & HF2 & _ & Hq).
  - reflexivity.
  - intros e He _. vm_compute in He.
    repeat (apply elem_of_cons in He as [->|He]; [reflexivity|]).
    by apply elem_of_nil in He.
  - exact Hrun1.
  - exists summary1, db1, summary2, db2, added1.
    split; [done|]. split; [exact Hrun2|]. split; [exact Hd1|].
    assert (length added2 = length added1) as Hlen.
    { apply Forall2_length in HF1, HF2. congruence. }
    split; [rewrite Hd2, !length_app; lia|].
    assert (quantityOn (20 * msPerDay) 1 (dailyEntries db1) = 8) as Hq1.
    { vm_compute in Hrun1. injection Hrun1 as _ <-. reflexivity. }
    split; [exact Hq1|].
    specialize (Hq 1). change (getTodayDate boundaryNow) with (20 * msPerDay) in Hq.
    rewrite Hq1 in Hq. change (quantityOn (20 * msPerDay) 1 (dailyEntries boundaryDb))
      with 0 in Hq. lia.
Defined.
(** C10 as stated fails. A batch that expires between the two calls is
    copied by the first call and not by the second: both calls succeed, the
    first carries two entries and 8 kg, the second one entry and 2 kg, and
    today's ledger holds 10 kg, not 16. *)
Lemma startNewDay_second_call_skips_expired :
  let now1 := 20 * msPerDay + 1000 in
  let now2 := 20 * msPerDay + 60000 in
  let today := 20 * msPerDay in
  getTodayDate now1 = today ∧ getTodayDate now2 = today
  ∧ isDayEnded expiringDb (today - msPerDay) = true
  ∧ isDayEnded expiringDb today = false
  ∧ ∃ summary1 db1 summary2 db2,
      startNewDay now1 expiringDb = (Ok summary1, db1)
      ∧ startNewDay now2 db1 = (Ok summary2, db2)
      ∧ nd_carriedForwardCount summary1 = 2%nat
      ∧ nd_carriedForwardCount summary2 = 1%nat
      ∧ quantityOn today 1 (dailyEntries expiringDb) = 0
      ∧ quantityOn today 1 (dailyEntries db1) = 8
      ∧ quantityOn today 1 (dailyEntries db2) = 10
      ∧ quantityOn today 1 (dailyEntries db2) ≠ 2 * quantityOn today 1 (dailyEntries db1).
Proof.
  cbn zeta. do 4 (split; [reflexivity|]).
  destruct (startNewDay (20 * msPerDay + 1000) expiringDb) as [[summary1|e] db1] eqn:Hrun1;
    [|by vm_compute in Hrun1].
  destruct (startNewDay (20 * msPerDay + 60000) db1) as [[summary2|e] db2] eqn:Hrun2.
  2:{ vm_compute in Hrun1. injection Hrun1 as _ <-. by vm_compute in Hrun2. }
  exists summary1, db1, summary2, db2. split; [done|]. split; [done|].
  vm_compute in Hrun1. injection Hrun1 as <- <-.
  vm_compute in Hrun2. injection Hrun2 as <- <-.
  by vm_compute.
Qed.
End CarryForwardTwice.

Section Ledger.
Variable now : Date.

Lemma sort_insert_perm e l : sort_insert e l ≡ₚ e :: l.
Proof.
  induction l as [|x l IH]; simpl; [done|].
  destruct (sort_leb e x); [done|]. rewrite IH. apply Permutation_swap.
Qed.

(** The sorted query result has the entries of the query, each once. *)
Lemma sortByExpiryThenCreated_perm l : sortByExpiryThenCreated l ≡ₚ l.
Proof.
  induction l as [|x l IH]; simpl; [done|].
  by rewrite sort_insert_perm, IH.
Qed.

Lemma sort_leb_total a b : sort_leb a b = false → sort_leb b a = true.
Proof.
  unfold sort_leb, expiry_ltb, expiry_leb.
  destruct (entry_expiryDate a) as [x|], (entry_expiryDate b) as [y|]; simpl;
    rewrite ?orb_false_iff, ?andb_false_iff, ?orb_true_iff, ?andb_true_iff,
      ?negb_false_iff, ?negb_true_iff; lia.
Qed.

Lemma sort_insert_sorted e l :
  Sorted (λ a b, sort_leb a b = true) l →
  Sorted (λ a b, sort_leb a b = true) (sort_insert e l).
Proof.
  induction l as [|x l IH]; simpl; intros Hs; [apply Sorted_cons; constructor|].
  destruct (sort_leb e x) eqn:Hex; [apply Sorted_cons; [done | by constructor]|].
  apply Sorted_inv in Hs as [Hs Hhd]. constructor; [by apply IH|].
  destruct l as [|y l]; simpl.
  - constructor. by apply sort_leb_total.
  - destruct (sort_leb e y); constructor; [by apply sort_leb_total|].
    by apply HdRel_inv in Hhd.
Qed.

(** The walk goes through the query result in the order of the sort key:
    expiry date ascending with null first, then creation time ascending. *)
Lemma sortByExpiryThenCreated_sorted l :
  Sorted (λ a b, sort_leb a b = true) (sortByExpiryThenCreated l).
Proof.
  induction l as [|x l IH]; simpl; [constructor|]. by apply sort_insert_sorted.
Qed.

Lemma usableSum_perm l1 l2 : l1 ≡ₚ l2 → usableSum now l1 = usableSum now l2.
Proof. induction 1; simpl; lia. Qed.

Lemma usableSum_nonneg l :
  Forall (λ e, 0 < entry_remainingQuantity e) l → 0 ≤ usableSum now l.
Proof.
  induction 1 as [|e l He _ IH]; simpl; [done|].
  destruct (isExpiredAt now (entry_expiryDate e)); lia.
Qed.


Lemma NoDup_fmap_eq {A B} (f : A → B) (l : list A) x y :
  NoDup (f <$> l) → x ∈ l → y ∈ l → f x = f y → x = y.
Proof.
  induction l as [|a l IH]; intros Hnd Hx Hy Hf; [by apply elem_of_nil in Hx|].
  rewrite fmap_cons in Hnd. apply NoDup_cons in Hnd as [Ha Hnd].
  apply elem_of_cons in Hx as [->|Hx]; apply elem_of_cons in Hy as [->|Hy].
  - done.
  - exfalso. apply Ha. rewrite Hf. by apply list_elem_of_fmap_2.
  - exfalso. apply Ha. rewrite <- Hf. by apply list_elem_of_fmap_2.
  - by apply IH.
Qed.


End Ledger.

Section LedgerOrder.

Lemma ledgerDb_ids : NoDup (entry_id <$> dailyEntries ledgerDb).
Proof. refine (bool_decide_unpack _ _). by vm_compute. Qed.


(** In the order of the sorted query an entry without expiry date comes
    before every entry with one. *)
Lemma sort_leb_null_first a b :
  entry_expiryDate a = None → entry_expiryDate b ≠ None →
  sort_leb a b = true ∧ sort_leb b a = false.
Proof.
  unfold sort_leb, expiry_ltb, expiry_leb. intros -> Hb.
  destruct (entry_expiryDate b); done.
Qed.

(** C1, on the code. The ledger holds a batch of 5 that expires tomorrow
    and a younger batch of 3 without expiry date (and an expired batch of
    4). Deducting 2 leaves the dated batch at 5 and takes the 2 from the
    batch without expiry date: entries with a null expiry date are walked
    first, not last. *)
Theorem deduct_walks_null_expiry_first :
  ∃ db', deductFromDailyInventory ledgerNow 1 2 ledgerDb = (Ok tt, db')
         ∧ (entry_expiryDate <$> dailyEntries ledgerDb)
           = [Some (21 * msPerDay); Some (19 * msPerDay); None]
         ∧ entry_remainingQuantity <$> dailyEntries ledgerDb = [5; 4; 3]
         ∧ entry_remainingQuantity <$> dailyEntries db' = [5; 4; 1]
         ∧ stockOf db' 1 = 10.
Proof. eexists. vm_compute. repeat split. Qed.
End LedgerOrder.

Section OrderCreation.

Lemma validateItems_unavailable db now items : ∀ validatedItems subtotal,
  (∃ orderItem, orderItem ∈ items ∧ lineUnavailable db now orderItem) →
  ∃ e, validateItems db now items validatedItems subtotal = Err e.
Proof.
  induction items as [|oi rest IH]; intros validated subtotal (x & Hx & Hbad).
  { by apply elem_of_nil in Hx. }
  simpl.
  destruct (oi_menuItem oi) as [m|] eqn:Hm; [|by eauto].
  destruct (oi_quantity oi <? 1); [by eauto|].
  destruct (oi_unitPrice oi <=? 0); [by eauto|].
  destruct (menuItems db !! m) as [menuItem|] eqn:Hmenu; [|by eauto].
  destruct (Nat.eqb (length (menu_ingredients menuItem)) 0); [by eauto|].
  destruct (isAvailable _) eqn:Havail; simpl; [|by eauto].
  apply elem_of_cons in Hx as [->|Hx].
  - destruct Hbad as (m' & menuItem' & Hm' & Hmenu' & Hno).
    rewrite Hm in Hm'. injection Hm' as <-. rewrite Hmenu in Hmenu'.
    injection Hmenu' as <-. congruence.
  - apply IH. by exists x.
Qed.

(** C5. When at least one line of an order request fails the availability
    check, [createOrder] ends with an error and the database is the one it
    started from: no order is stored and no daily entry or inventory item
    is changed. *)
Theorem createOrder_unavailable_aborts now req db :
  (∃ orderItem, orderItem ∈ co_items req ∧ lineUnavailable db now orderItem) →
  ∃ e, createOrder now req db = (Err e, db).
Proof.
  intros Hbad. unfold createOrder.
  destruct (co_user req) as [user|]; [|by eauto].
  destruct (isEmptyString (user_restaurant user)); [by eauto|].
  destruct (isEmptyString (co_customerName req) || _); [by eauto|].
  destruct (validateItems_unavailable db now (co_items req) [] 0 Hbad) as [e ->].
  by eauto.
Qed.

Lemma createOrder_unavailable_aborts_witness :
  ∃ missing, createOrder kitchenNow threeSoups kitchenDb
             = (Err (DishOutOfStock 11 missing), kitchenDb)
             ∧ (miss_required <$> missing) = [6]
             ∧ (miss_available <$> missing) = [5].
Proof.
  destruct (createOrder_unavailable_aborts kitchenNow threeSoups kitchenDb) as [e He].
  - exists (mkOrderItemReq (Some 11) 3 40). split; [by left|].
    exists 11, (mkMenuItem "soup" [mkIngredient 1 2 "kg"]). by vm_compute.
  - assert (createOrder kitchenNow threeSoups kitchenDb
            = (Err (DishOutOfStock 11
                      [mkMissing 1 "tomato" 6 5 "kg" "Insufficient quantity"]),
               kitchenDb)) as Hrun by (by vm_compute).
    rewrite He in Hrun. injection Hrun as ->.
    eexists. split; [exact He | done].
Defined.
End OrderCreation.

Section OrderStatus.

(** [updateOrderStatus] looks at the target status only: any order that
    exists takes any of the six statuses. *)
Lemma updateOrderStatus_accepts now id req db existingOrder :
  includes validStatuses (sr_status req) = true →
  orders db !! id = Some existingOrder →
  ∃ db', updateOrderStatus now id req db
         = (Ok (applyStatusUpdate now req existingOrder), db')
         ∧ orders db' !! id = Some (applyStatusUpdate now req existingOrder)
         ∧ order_status (applyStatusUpdate now req existingOrder) = sr_status req.
Proof.
  intros Hvalid Hid. unfold updateOrderStatus. rewrite Hvalid, Hid.
  assert (isEmptyString (sr_status req) = false) as ->.
  { unfold isEmptyString. destruct (String.eqb_spec (sr_status req) "") as [Heq|]; [|done].
    by rewrite Heq in Hvalid. }
  simpl. eexists. split; [reflexivity|]. split; [|done].
  simpl. apply lookup_insert_eq.
Qed.

(** The editing path does refuse an order that is delivered or cancelled,
    and writes nothing. *)
Lemma updateOrder_rejects_closed now id req db existingOrder :
  orders db !! id = Some existingOrder →
  order_restaurant existingOrder = user_restaurant (uo_user req) →
  order_status existingOrder = "delivered" ∨ order_status existingOrder = "cancelled" →
  updateOrder now id req db = (Err CannotEditClosedOrder, db).
Proof.
  intros Hid Hr Hst. unfold updateOrder. rewrite Hid, Hr, String.eqb_refl. simpl.
  by destruct Hst as [-> | ->].
Qed.

(** C2, on the code. Order 100 is delivered; a status update to [pending]
    is accepted and stores the order as [pending], and a status update to
    [cancelled] is accepted too and adds the order's 3 kg to the stock,
    while an edit of the same order is refused. *)
Theorem updateOrderStatus_leaves_delivered :
  order_status <$> orders kitchenDb !! 100 = Some "delivered"
  ∧ (∃ o db', updateOrderStatus kitchenNow 100 (mkStatusReq "pending" None "") kitchenDb
              = (Ok o, db')
              ∧ order_status <$> orders db' !! 100 = Some "pending")
  ∧ (∃ o db', updateOrderStatus kitchenNow 100 (mkStatusReq "cancelled" None "") kitchenDb
              = (Ok o, db')
              ∧ order_status <$> orders db' !! 100 = Some "cancelled"
              ∧ stockOf kitchenDb 1 = 5 ∧ stockOf db' 1 = 8)
  ∧ updateOrder kitchenNow 100
      (mkUpdateOrderReq kitchenUser "" "" [mkOrderItemReq (Some 11) 1 40] None None None)
      kitchenDb
    = (Err CannotEditClosedOrder, kitchenDb).
Proof.
  split; [reflexivity|]. split; [|split].
  - do 2 eexists. vm_compute. split; reflexivity.
  - do 2 eexists. vm_compute. repeat split.
  - reflexivity.
Qed.
End OrderStatus.

Section Cancellation.

Lemma stockOf_stockAt db k : stockOf db k = default 0 (stockAt db k).
Proof. unfold stockOf, stockAt. by destruct (inventoryItems db !! k). Qed.

Lemma stockAt_incStock db d id k :
  stockAt (findByIdAndUpdate id (incStock d) db) k
  = if decide (id = k) then Z.add d <$> stockAt db k else stockAt db k.
Proof.
  unfold stockAt, findByIdAndUpdate. simpl. rewrite lookup_alter.
  case_decide; [subst|done].
  destruct (inventoryItems db !! k); simpl; [|done]. f_equal. lia.
Qed.

Lemma add_add_fmap (a b : Z) (o : option Z) :
  Z.add a <$> (Z.add b <$> o) = Z.add (b + a) <$> o.
Proof. destruct o; simpl; [|done]. f_equal. lia. Qed.

Lemma add_zero_fmap (o : option Z) : Z.add 0 <$> o = o.
Proof. by destruct o. Qed.

(** *** Restoration *)

Lemma restoreIngredient_effect now q db ingredient :
  let db' := restoreIngredient now q db ingredient in
  menuItems db' = menuItems db ∧ orders db' = orders db
  ∧ ∀ k, stockAt db' k = Z.add (restoredAmount k q ingredient) <$> stockAt db k.
Proof.
  unfold restoreIngredient, restoredAmount.
  destruct (inventoryItems db !! ing_ingredient ingredient) as [item|] eqn:Hitem.
  - destruct (ing_quantity ingredient * q <=? 0); simpl.
    + repeat split. intros k. by rewrite andb_false_r, add_zero_fmap.
    + repeat split. intros k. rewrite andb_true_r.
      change (stockAt (with_inventoryLogs ?f ?d) k) with (stockAt d k).
      rewrite stockAt_incStock.
      destruct (Z.eqb_spec (ing_ingredient ingredient) k);
        [by rewrite decide_True | by rewrite decide_False, add_zero_fmap].
  - repeat split. intros k.
    destruct (Z.eqb_spec (ing_ingredient ingredient) k) as [<-|]; simpl.
    + unfold stockAt. by rewrite Hitem.
    + by rewrite add_zero_fmap.
Qed.

Lemma restoreIngredients_effect now q ingredients : ∀ db,
  let db' := fold_left (restoreIngredient now q) ingredients db in
  menuItems db' = menuItems db ∧ orders db' = orders db
  ∧ ∀ k, stockAt db' k = Z.add (restoredBy k q ingredients) <$> stockAt db k.
Proof.
  induction ingredients as [|i rest IH]; intros db; simpl.
  { repeat split. intros k. by rewrite add_zero_fmap. }
  destruct (IH (restoreIngredient now q db i)) as (Hm & Ho & Hs).
  destruct (restoreIngredient_effect now q db i) as (Hm1 & Ho1 & Hs1).
  simpl in *. rewrite Hm, Ho, Hm1, Ho1. repeat split.
  intros k. by rewrite Hs, Hs1, add_add_fmap.
Qed.

Lemma restoreOrderItems_effect now lines : ∀ db,
  let db' := fold_left (restoreOrderItem now) lines db in
  menuItems db' = menuItems db ∧ orders db' = orders db
  ∧ ∀ k, stockAt db' k = Z.add (restoredByOrder (menuItems db) k lines) <$> stockAt db k.
Proof.
  induction lines as [|line rest IH]; intros db; simpl.
  { repeat split. intros k. by rewrite add_zero_fmap. }
  destruct (IH (restoreOrderItem now db line)) as (Hm & Ho & Hs).
  simpl in *. rewrite Hm, Ho. clear Hm Ho. unfold restoreOrderItem in *.
  destruct (menuItems db !! line_menuItem line) as [menuItem|]; simpl.
  - destruct (restoreIngredients_effect now (line_quantity line)
                (menu_ingredients menuItem) db) as (Hm1 & Ho1 & Hs1).
    simpl in *. rewrite Hm1 in Hs. rewrite Hm1, Ho1. repeat split.
    intros k. by rewrite Hs, Hs1, add_add_fmap.
  - repeat split. intros k. by rewrite Hs.
Qed.

(** Cancelling an order that is not yet cancelled gives each item the
    restored amounts of the order's lines. *)
Lemma cancel_effect now id db existingOrder :
  orders db !! id = Some existingOrder →
  order_status existingOrder ≠ "cancelled" →
  ∃ db', updateOrderStatus now id cancelReq db
         = (Ok (applyStatusUpdate now cancelReq existingOrder), db')
         ∧ ∀ k, stockAt db' k
                = Z.add (restoredByOrder (menuItems db) k (order_items existingOrder))
                    <$> stockAt db k.
Proof.
  intros Hid Hst. unfold updateOrderStatus. simpl. rewrite Hid.
  apply String.eqb_neq in Hst. rewrite Hst. simpl.
  eexists. split; [reflexivity|]. intros k.
  destruct (restoreOrderItems_effect now (order_items existingOrder) db) as (_ & _ & Hs).
  by rewrite <- Hs.
Qed.

(** *** Deduction at creation *)

Lemma deduct_effect now id q db :
  let r := deductFromDailyInventory now id q db in
  console r.2 = console db ∧ menuItems r.2 = menuItems db ∧ orders r.2 = orders db
  ∧ ∀ k, stockAt r.2 k
         = match r.1 with
           | Ok _ => if decide (id = k) then Z.add (- q) <$> stockAt db k
                     else stockAt db k
           | Err _ => stockAt db k
           end.
Proof.
  unfold deductFromDailyInventory.
  destruct (deductLoop now _ q (dailyEntries db)) as [remaining stored].
  destruct (0 <? remaining); simpl; repeat split.
  intros k. apply (stockAt_incStock (with_dailyEntries (λ _, stored) db)).
Qed.

(** The ingredient loop of a line logs nothing only if every deduction
    went through, and then each item has lost what the line requires. *)
Lemma deductIngredients_quiet now m q ingredients : ∀ db,
  let r := deductIngredients now m ingredients q db in
  (length (console db) ≤ length (console r.2))%nat
  ∧ menuItems r.2 = menuItems db ∧ orders r.2 = orders db
  ∧ (length (console r.2) = length (console db) →
     r.1 = Ok tt
     ∧ ∀ k, stockAt r.2 k = Z.add (- requiredBy k q ingredients) <$> stockAt db k).
Proof.
  induction ingredients as [|i rest IH]; intros db; simpl.
  { repeat split; [lia|]. intros k. by rewrite add_zero_fmap. }
  destruct (inventoryItems db !! ing_ingredient i) as [item|] eqn:Hitem.
  2:{ destruct (IH (console_error (LogInvalidIngredientRef m) db)) as (Hl & Hm & Ho & _).
      simpl in *. rewrite length_app in Hl. simpl in Hl.
      repeat split; [lia | done | done | lia | lia]. }
  destruct (item_currentStock item <? ing_quantity i * q).
  { simpl. rewrite length_app. simpl. repeat split; lia. }
  destruct (deduct_effect now (ing_ingredient i) (ing_quantity i * q) db)
    as (Hc1 & Hm1 & Ho1 & Hs1). simpl in *.
  destruct (deductFromDailyInventory now (ing_ingredient i) (ing_quantity i * q) db)
    as [[[]|e] db1]; simpl in *.
  - match goal with |- context [deductIngredients now m rest q ?d] =>
      destruct (IH d) as (Hl & Hm & Ho & Hq) end.
    simpl in *. rewrite Hc1 in *. rewrite Hm, Ho, Hm1, Ho1.
    repeat split; [done | by apply Hq |]. intros k.
    destruct (Hq H) as [_ Hs]. rewrite Hs.
    change (stockAt (with_inventoryLogs ?f ?d) k) with (stockAt d k).
    rewrite Hs1. unfold requiredAmount.
    destruct (Z.eqb_spec (ing_ingredient i) k).
    + rewrite decide_True by done. rewrite add_add_fmap. f_equal. f_equal. lia.
    + rewrite decide_False by done. done.
  - rewrite length_app, Hc1. simpl. repeat split; (done || lia).
Qed.

(** What one line of an order request takes from item [k]. *)
Lemma processOrderItem_quiet now db orderItem :
  let db' := processOrderItem now db orderItem in
  (length (console db) ≤ length (console db'))%nat
  ∧ menuItems db' = menuItems db ∧ orders db' = orders db
  ∧ (length (console db') = length (console db) →
     ∀ k, stockAt db' k
          = Z.add (- requiredByOrder (menuItems db) k [orderItem]) <$> stockAt db k).
Proof.
  unfold processOrderItem. simpl.
  destruct (oi_menuItem orderItem) as [m|]; simpl.
  2:{ rewrite length_app. simpl. repeat split; lia. }
  destruct (menuItems db !! m) as [menuItem|]; simpl.
  2:{ rewrite length_app. simpl. repeat split; lia. }
  destruct (deductIngredients_quiet now m (oi_quantity orderItem)
              (menu_ingredients menuItem) db) as (Hl & Hm & Ho & Hq).
  simpl in *.
  destruct (deductIngredients now m (menu_ingredients menuItem) (oi_quantity orderItem) db)
    as [[[]|e] db1]; simpl in *.
  - repeat split; [done..|]. intros Hlen k. destruct (Hq Hlen) as [_ Hs].
    change (stockAt (with_sales ?f ?d) k) with (stockAt d k).
    rewrite Hs. do 2 f_equal. lia.
  - rewrite length_app. simpl. repeat split; [lia | done | done |].
    intros Hlen. assert (length (console db1) = length (console db)) as Hlen1 by lia.
    lia.
Qed.

Lemma processOrderItems_quiet now items : ∀ db,
  let db' := fold_left (processOrderItem now) items db in
  (length (console db) ≤ length (console db'))%nat
  ∧ menuItems db' = menuItems db ∧ orders db' = orders db
  ∧ (length (console db') = length (console db) →
     ∀ k, stockAt db' k
          = Z.add (- requiredByOrder (menuItems db) k items) <$> stockAt db k).
Proof.
  induction items as [|oi rest IH]; intros db; simpl.
  { repeat split; [lia|]. intros _ k. by rewrite add_zero_fmap. }
  destruct (IH (processOrderItem now db oi)) as (Hl & Hm & Ho & Hq).
  destruct (processOrderItem_quiet now db oi) as (Hl1 & Hm1 & Ho1 & Hq1).
  simpl in *. rewrite Hm, Ho, Hm1, Ho1. repeat split; [lia|].
  intros Hlen k. rewrite Hq, Hq1 by lia. rewrite Hm1, add_add_fmap.
  do 2 f_equal. lia.
Qed.
End Cancellation.

Section CreateThenCancel.

Lemma validateItems_lines db now items : ∀ validatedItems subtotal validated total,
  validateItems db now items validatedItems subtotal = Ok (validated, total) →
  ∃ lines, validated = validatedItems ++ lines ∧ Forall2 storedFor items lines.
Proof.
  induction items as [|oi rest IH]; intros acc sub validated total; simpl.
  { intros [= <- <-]. exists []. by rewrite app_nil_r. }
  destruct (oi_menuItem oi) as [m|] eqn:Hm; [|done].
  destruct (Z.ltb_spec (oi_quantity oi) 1); [done|].
  destruct (oi_unitPrice oi <=? 0); [done|].
  destruct (menuItems db !! m) as [menuItem|]; [|done].
  destruct (Nat.eqb _ 0); [done|].
  destruct (negb _); [done|].
  intros (lines & -> & HF)%IH. eexists (_ :: lines).
  rewrite <- app_assoc. split; [reflexivity|].
  constructor; [|exact HF]. by repeat split.
Qed.

Lemma restoredBy_requiredBy k q ingredients :
  0 ≤ q → Forall (λ i, 0 ≤ ing_quantity i) ingredients →
  restoredBy k q ingredients = requiredBy k q ingredients.
Proof.
  intros Hq. induction 1 as [|i rest Hi _ IH]; simpl; [done|].
  rewrite IH. f_equal. unfold restoredAmount, requiredAmount.
  destruct (ing_ingredient i =? k); simpl; [|done].
  destruct (Z.leb_spec (ing_quantity i * q) 0); simpl; nia.
Qed.

Lemma restoredByOrder_requiredByOrder menu k items lines :
  menuQuantitiesNonNegative menu →
  Forall2 storedFor items lines →
  restoredByOrder menu k lines = requiredByOrder menu k items.
Proof.
  intros Hmenu. induction 1 as [|oi line items lines (Hm & Hq & Hpos) _ IH]; simpl;
    [done|].
  rewrite IH, Hm. simpl. f_equal.
  destruct (menu !! line_menuItem line) as [menuItem|] eqn:Hitem; simpl; [|done].
  rewrite Hq. apply restoredBy_requiredBy; [lia|]. by eapply Hmenu.
Qed.

Lemma createOrder_Ok_inv now req db id order db1 :
  createOrder now req db = (Ok (id, order), db1) →
  ∃ total,
    validateItems db now (co_items req) [] 0 = Ok (order_items order, total)
    ∧ order_status order = defaultOrderStatus
    ∧ db1 = fold_left (processOrderItem now) (co_items req)
              (with_orders <[id := order]> db).
Proof.
  unfold createOrder.
  destruct (co_user req) as [user|]; [|done].
  destruct (isEmptyString (user_restaurant user)); [done|].
  destruct (isEmptyString (co_customerName req) || _); [done|].
  destruct (validateItems db now (co_items req) [] 0) as [[validated total]|]; [|done].
  intros [= <- <- <-]. by exists total.
Qed.

(** C6, as the code has it, for whole-number quantities. Cancelling a
    pending order right after its creation gives back to every item, for
    each ingredient of each line, [perUnitQuantity * lineQuantity] (the
    restored amounts of the lines); when the creation logged no error, that
    is when every deduction of its second phase went through, the stock of
    every item after the cancellation is its stock before the creation. *)
Theorem cancel_restores_created_order now now' req db id order db1 :
  menuQuantitiesNonNegative (menuItems db) →
  createOrder now req db = (Ok (id, order), db1) →
  order_status order = "pending"
  ∧ ∃ order' db2,
      updateOrderStatus now' id cancelReq db1 = (Ok order', db2)
      ∧ order_status order' = "cancelled"
      ∧ (∀ k, stockAt db2 k
              = Z.add (restoredByOrder (menuItems db) k (order_items order))
                  <$> stockAt db1 k)
      ∧ (∀ k, restoredByOrder (menuItems db) k (order_items order)
              = requiredByOrder (menuItems db) k (co_items req))
      ∧ (console db1 = console db → ∀ k, stockOf db2 k = stockOf db k).
Proof.
  intros Hmenu Hcreate.
  destruct (createOrder_Ok_inv _ _ _ _ _ _ Hcreate) as (total & Hval & Hst & ->).
  split; [exact Hst|].
  destruct (validateItems_lines _ _ _ _ _ _ _ Hval) as (lines & Hlines & HF).
  simpl in Hlines. subst lines.
  destruct (processOrderItems_quiet now (co_items req) (with_orders <[id := order]> db))
    as (_ & Hm & Ho & Hquiet). simpl in *.
  set (db1 := fold_left (processOrderItem now) (co_items req)
                (with_orders <[id := order]> db)) in *.
  destruct (cancel_effect now' id db1 order) as (db2 & Hcancel & Hs).
  { rewrite Ho. apply lookup_insert_eq. }
  { by rewrite Hst. }
  rewrite Hm in Hs.
  exists (applyStatusUpdate now' cancelReq order), db2.
  split; [exact Hcancel|]. split; [done|]. split; [exact Hs|].
  split; [intros k; by apply restoredByOrder_requiredByOrder|].
  intros Hconsole k. rewrite !stockOf_stockAt, Hs.
  rewrite (Hquiet (f_equal length Hconsole) k).
  change (stockAt (with_orders ?f ?d) k) with (stockAt d k).
  rewrite add_add_fmap, (restoredByOrder_requiredByOrder _ k _ _ Hmenu HF).
  replace (- requiredByOrder (menuItems db) k (co_items req)
           + requiredByOrder (menuItems db) k (co_items req)) with 0 by lia.
  by rewrite add_zero_fmap.
Qed.

Lemma kitchen_menu_nonneg : menuQuantitiesNonNegative (menuItems kitchenDb).
Proof.
  intros id menuItem Hid. simpl in Hid.
  apply lookup_insert_Some in Hid as [[_ <-]|[_ Hid]]; [by repeat constructor|].
  apply lookup_singleton_Some in Hid as [_ <-]. by repeat constructor.
Qed.

Lemma cancel_restores_created_order_witness :
  ∃ id order db1 order' db2,
    createOrder kitchenNow oneSalad kitchenDb = (Ok (id, order), db1)
    ∧ updateOrderStatus (kitchenNow + 1) id cancelReq db1 = (Ok order', db2)
    ∧ stockOf kitchenDb 1 = 5 ∧ stockOf db1 1 = 2 ∧ stockOf db2 1 = 5.
Proof.
  destruct (createOrder kitchenNow oneSalad kitchenDb) as [[[id order]|e] db1] eqn:Hcreate;
    [|by vm_compute in Hcreate].
  destruct (cancel_restores_created_order kitchenNow (kitchenNow + 1) oneSalad kitchenDb
              id order db1 kitchen_menu_nonneg Hcreate)
    as (_ & order' & db2 & Hcancel & _ & _ & _ & Hstock).
  exists id, order, db1, order', db2.
  split; [reflexivity|]. split; [exact Hcancel|]. split; [reflexivity|].
  assert (console db1 = console kitchenDb ∧ stockOf db1 1 = 2) as [Hquiet Hdb1].
  { vm_compute in Hcreate. injection Hcreate as _ _ <-. by vm_compute. }
  split; [exact Hdb1|]. by rewrite (Hstock Hquiet 1).
Defined.

(** C6 as stated fails. Both lines of [twoSalads] pass the availability
    check against the 5 kg in stock; the deduction for the second line
    fails (2 kg are left, 3 are required) and is logged, the order stays.
    Cancelling the pending order then restores 3 kg for each line: the
    stock goes from 5 before the creation to 8 after the cancellation. *)
Lemma cancel_after_failed_deduction :
  ∃ id order db1 order' db2,
    createOrder kitchenNow twoSalads kitchenDb = (Ok (id, order), db1)
    ∧ order_status order = "pending"
    ∧ updateOrderStatus (kitchenNow + 1) id cancelReq db1 = (Ok order', db2)
    ∧ stockOf kitchenDb 1 = 5 ∧ stockOf db1 1 = 2 ∧ stockOf db2 1 = 8
    ∧ stockOf db2 1 ≠ stockOf kitchenDb 1.
Proof. do 5 eexists. vm_compute. repeat split. discriminate. Qed.
End CreateThenCancel.

Section FractionalQuantities.


(** A demand that the ledger holds can be refused as well: batches of 0.1,
    0.1 and 0.2 add up to the demand of 0.4, and the walk ends with a
    positive rest. *)
Lemma deduct_fractional_enough_refused :
  let now := 20 * msPerDay + 1000 in
  let db := Doubles.mkDb {[ 1 := Doubles.tenths 9 ]}
              [Doubles.batch 1 (Doubles.tenths 1); Doubles.batch 2 (Doubles.tenths 1);
               Doubles.batch 3 (Doubles.tenths 2)] in
  let r := Doubles.deductFromDailyInventory now 1 (Doubles.tenths 4) db in
  Doubles.totalRemaining (Doubles.dailyEntries db) = Doubles.tenths 4
  ∧ (∃ available, r.1 = Doubles.InsufficientStock (Doubles.tenths 4) available)
  ∧ Doubles.currentStock r.2 !! 1 = Some (Doubles.tenths 9).
Proof. cbn zeta. split; [by vm_compute|]. split; [eexists|]; by vm_compute. Qed.

(** Giving back what was taken does not bring a fractional stock back: 0.9
    less 0.2 for one dish, plus 0.2 at the cancellation, is below 0.9. *)
Lemma restore_after_deduct_fractional :
  let now := 20 * msPerDay + 1000 in
  let db := Doubles.mkDb {[ 1 := Doubles.tenths 9 ]}
              [Doubles.batch 1 (Doubles.tenths 9)] in
  let one := PrimFloat.of_uint63 (Uint63.of_Z 1) in
  let r := Doubles.deductFromDailyInventory now 1
             (PrimFloat.mul (Doubles.tenths 2) one) db in
  let db2 := Doubles.restoreIngredient 1 (Doubles.tenths 2) one r.2 in
  r.1 = Doubles.Deducted
  ∧ Doubles.currentStock r.2 !! 1 = Some (Doubles.tenths 7)
  ∧ ∃ stock, Doubles.currentStock db2 !! 1 = Some stock
             ∧ PrimFloat.ltb stock (Doubles.tenths 9) = true.
Proof. cbn zeta. split; [by vm_compute|]. split; [by vm_compute|]. eexists. split; by vm_compute. Qed.

(** On the whole numbers of [ledgerDb] the walk on binary64 numbers is the
    walk on integers: a demand of 7 is deducted, a demand of 9 is refused
    with the 8 that were available, and the databases correspond. *)
Lemma deduct_whole_numbers :
  let onDoubles q := Doubles.deductFromDailyInventory ledgerNow 1 (wholeNumber q)
                       (wholeDb ledgerDb) in
  let onIntegers q := deductFromDailyInventory ledgerNow 1 q ledgerDb in
  (onIntegers 7).1 = Ok tt ∧ (onDoubles 7).1 = Doubles.Deducted
  ∧ (onDoubles 7).2 = wholeDb (onIntegers 7).2
  ∧ (onIntegers 9).1 = Err (InsufficientDailyStock 9 8)
  ∧ (onDoubles 9).1 = Doubles.InsufficientStock (wholeNumber 9) (wholeNumber 8)
  ∧ (onDoubles 9).2 = wholeDb (onIntegers 9).2.
Proof. cbn zeta. repeat split; by vm_compute. Qed.
End FractionalQuantities.

(** * Further properties of the ledger *)

Section LedgerEffects.
Variables (now today : Date) (inventoryItemId : ObjectId).

#[local] Abbreviation total := (usableTotal now today inventoryItemId).
#[local] Abbreviation lowered := (loweredFrom now today inventoryItemId).

(** What an entry adds to the usable total. *)
Lemma usableTotal_cons e l :
  total (e :: l)
  = (if isUsable now today inventoryItemId e then entry_remainingQuantity e else 0)
    + total l.
Proof.
  unfold usableTotal, isUsable. rewrite filter_cons.
  destruct (decide (isCandidate today inventoryItemId e = true)) as [->|Hc]; simpl.
  - by destruct (isExpiredAt now (entry_expiryDate e)).
  - apply not_true_is_false in Hc. by rewrite Hc.
Qed.

Lemma usableTotal_app l1 l2 : total (l1 ++ l2) = total l1 + total l2.
Proof.
  induction l1 as [|e l1 IH]; simpl; [done|]. rewrite !usableTotal_cons, IH. lia.
Qed.

Lemma usableTotal_nonneg l : 0 ≤ total l.
Proof.
  induction l as [|e l IH]; [done|]. rewrite usableTotal_cons.
  destruct (isUsable now today inventoryItemId e) eqn:Hu; [|lia].
  unfold isUsable, isCandidate in Hu. lia.
Qed.

Lemma isUsable_lowered e r :
  isUsable now today inventoryItemId e = true → 0 ≤ r →
  (if isUsable now today inventoryItemId (set_remainingQuantity r e) then r else 0) = r.
Proof.
  unfold isUsable, isCandidate. simpl.
  intros [[[-> ->]%andb_true_iff _]%andb_true_iff ->]%andb_true_iff Hr. simpl.
  destruct (Z.ltb_spec 0 r); simpl; lia.
Qed.

Lemma save_cons e' x l :
  save e' (x :: l) = (if decide (entry_id x = entry_id e') then e' else x) :: save e' l.
Proof. reflexivity. Qed.

Lemma save_absent e' l :
  entry_id e' ∉ entry_id <$> l → save e' l = l.
Proof.
  induction l as [|x l IH]; [done|]. rewrite fmap_cons.
  intros [Hx Hl]%not_elem_of_cons. rewrite save_cons, decide_False by done.
  f_equal. by apply IH.
Qed.

Lemma save_ids e' l : entry_id <$> save e' l = entry_id <$> l.
Proof.
  unfold save. rewrite <- list_fmap_compose. apply list_fmap_ext. intros i x _. simpl.
  by destruct (decide (entry_id x = entry_id e')).
Qed.

(** Saving a lowered version of a stored usable entry takes the difference
    off the usable total. *)
Lemma save_total e r stored :
  NoDup (entry_id <$> stored) → e ∈ stored →
  isUsable now today inventoryItemId e = true → 0 ≤ r →
  total (save (set_remainingQuantity r e) stored)
  = total stored - (entry_remainingQuantity e - r).
Proof.
  intros Hnd Hin Hu Hr. induction stored as [|x stored IH]; [by apply elem_of_nil in Hin|].
  rewrite fmap_cons in Hnd. apply NoDup_cons in Hnd as [Hx Hnd].
  apply elem_of_cons in Hin as [<-|Hin].
  - rewrite save_cons. simpl. rewrite decide_True by done.
    rewrite save_absent by done.
    rewrite !usableTotal_cons, Hu, isUsable_lowered by done. simpl. lia.
  - rewrite save_cons. simpl. rewrite decide_False.
    + rewrite !usableTotal_cons, IH by done. lia.
    + intros Heq. apply Hx. rewrite Heq. by apply list_elem_of_fmap_2.
Qed.

Lemma save_lowered e r stored :
  NoDup (entry_id <$> stored) → e ∈ stored →
  isUsable now today inventoryItemId e = true → 0 ≤ r < entry_remainingQuantity e →
  Forall2 lowered stored (save (set_remainingQuantity r e) stored).
Proof.
  intros Hnd Hin Hu Hr. unfold save. apply Forall2_fmap_r, Forall_Forall2_diag.
  apply Forall_forall. intros x Hx. simpl.
  destruct (decide (entry_id x = entry_id e)) as [Heq|]; [|by left].
  assert (x = e) as -> by (by apply (NoDup_fmap_eq entry_id stored)).
  right. split; [done|]. by exists r.
Qed.

Lemma lowered_trans x y z : lowered x y → lowered y z → lowered x z.
Proof.
  intros [->|(Hx & r & Hr & ->)] [->|(Hy & r' & Hr' & ->)].
  - by left.
  - right. split; [done|]. by exists r'.
  - right. split; [done|]. by exists r.
  - right. split; [done|]. exists r'. simpl in Hr'. split; [lia|done].
Qed.

(** The loop of a deduction, for any demand: the stored entries are only
    lowered, the usable total falls by what was taken, and what remains to
    deduct is the demand beyond the usable quantity of the walked entries. *)
Lemma deductLoop_effect entries : ∀ remainingToDeduct stored,
  NoDup (entry_id <$> stored) → NoDup (entry_id <$> entries) →
  (∀ e, e ∈ entries → e ∈ stored ∧ isCandidate today inventoryItemId e = true) →
  let r := deductLoop now entries remainingToDeduct stored in
  Forall2 lowered stored r.2
  ∧ entry_id <$> r.2 = entry_id <$> stored
  ∧ total r.2 = total stored - (remainingToDeduct - r.1)
  ∧ r.1 = (if remainingToDeduct <=? 0 then remainingToDeduct
           else Z.max 0 (remainingToDeduct - usableSum now entries)).
Proof.
  induction entries as [|e rest IH]; intros need stored Hnd Hnde Hin; simpl.
  { repeat split; [by apply Forall_Forall2_diag, Forall_forall; left | lia |].
    destruct (Z.leb_spec need 0); lia. }
  destruct (Z.leb_spec need 0) as [Hle|Hgt]; simpl.
  { repeat split; [by apply Forall_Forall2_diag, Forall_forall; left | lia]. }
  rewrite fmap_cons in Hnde. apply NoDup_cons in Hnde as [He Hnde].
  destruct (Hin e) as [Hes Hc]; [by left|].
  assert (Forall (λ x, 0 < entry_remainingQuantity x) rest) as Hpos.
  { apply Forall_forall. intros x Hx. destruct (Hin x) as [_ Hcx]; [by right|].
    unfold isCandidate in Hcx. lia. }
  pose proof (usableSum_nonneg now rest Hpos) as Hnn.
  destruct (isExpiredAt now (entry_expiryDate e)) eqn:Hexp.
  - destruct (IH need stored) as (HF & Hids & Ht & Hr); [done..| |].
    { intros x Hx. apply Hin. by right. }
    simpl in *. repeat split; [done..|]. rewrite Hr.
    destruct (Z.leb_spec need 0); lia.
  - assert (isUsable now today inventoryItemId e = true) as Hu.
    { unfold isUsable. by rewrite Hc, Hexp. }
    assert (0 < entry_remainingQuantity e) as Hrem.
    { unfold isCandidate in Hc. lia. }
    set (d := Z.min (entry_remainingQuantity e) need).
    set (e' := set_remainingQuantity (entry_remainingQuantity e - d) e).
    destruct (IH (need - d) (save e' stored)) as (HF & Hids & Ht & Hr).
    { by rewrite save_ids. }
    { done. }
    { intros x Hx. destruct (Hin x) as [Hxs Hcx]; [by right|]. split; [|done].
      unfold save. apply list_elem_of_fmap. exists x. split; [|done].
      rewrite decide_False; [done|]. simpl. intros Heq. apply He. rewrite <- Heq.
      by apply list_elem_of_fmap_2. }
    simpl in *. split; [|split; [|split]].
    + eapply Forall2_trans; [apply lowered_trans | | exact HF].
      apply save_lowered; [done..|]. unfold d. lia.
    + by rewrite Hids, save_ids.
    + rewrite Ht. unfold e'. rewrite save_total by (done || unfold d; lia). lia.
    + rewrite Hr. unfold d. destruct (Z.leb_spec (need - Z.min (entry_remainingQuantity e) need) 0);
        lia.
Qed.

(** The entries that [deductFromDailyInventory] walks. *)
Lemma deduct_candidates (entries : list DailyInventoryEntry) :
  NoDup (entry_id <$> entries) →
  let walked :=
    sortByExpiryThenCreated
      (filter (λ e, isCandidate today inventoryItemId e = true) entries) in
  NoDup (entry_id <$> walked)
  ∧ (∀ e, e ∈ walked → e ∈ entries ∧ isCandidate today inventoryItemId e = true)
  ∧ usableSum now walked = total entries.
Proof.
  intros Hnd. simpl.
  pose proof (sortByExpiryThenCreated_perm
                (filter (λ e, isCandidate today inventoryItemId e = true) entries)) as Hperm.
  split; [|split].
  - rewrite Hperm. eapply sublist_NoDup; [exact Hnd|]. apply fmap_sublist, sublist_filter.
  - intros e. rewrite Hperm, list_elem_of_filter. tauto.
  - by apply usableSum_perm.
Qed.
End LedgerEffects.

Section Deduction.

(** The outcome of a deduction on a ledger with distinct ids, in one
    statement: what remains to deduct decides the result. *)
Lemma deduct_outcome now id quantity db :
  let today := getTodayDate now in
  let available := usableTotal now today id (dailyEntries db) in
  NoDup (entry_id <$> dailyEntries db) →
  ∃ stored,
    Forall2 (loweredFrom now today id) (dailyEntries db) stored
    ∧ entry_id <$> stored = entry_id <$> dailyEntries db
    ∧ usableTotal now today id stored = available - Z.min (Z.max 0 quantity) available
    ∧ deductFromDailyInventory now id quantity db
      = if decide (quantity ≤ available)
        then (Ok tt, findByIdAndUpdate id (incStock (- quantity))
                       (with_dailyEntries (λ _, stored) db))
        else (Err (InsufficientDailyStock quantity available),
              with_dailyEntries (λ _, stored) db).
Proof.
  simpl. intros Hnd. unfold deductFromDailyInventory.
  set (today := getTodayDate now).
  destruct (deduct_candidates now today id (dailyEntries db) Hnd) as (Hndw & Hw & Hsum).
  simpl in *.
  pose proof (deductLoop_effect now today id _ quantity (dailyEntries db) Hnd Hndw Hw)
    as (HF & Hids & Ht & Hr).
  pose proof (usableTotal_nonneg now today id (dailyEntries db)) as Hnn.
  destruct (deductLoop now _ quantity (dailyEntries db)) as [need stored]. simpl in *.
  rewrite Hsum in Hr. exists stored. split; [done|]. split; [done|].
  split; [destruct (Z.leb_spec quantity 0); lia|].
  destruct (decide (quantity ≤ usableTotal now today id (dailyEntries db))).
  - destruct (Z.ltb_spec 0 need); [|done]. destruct (Z.leb_spec quantity 0); lia.
  - destruct (Z.ltb_spec 0 need); [|destruct (Z.leb_spec quantity 0); lia].
    do 3 f_equal. destruct (Z.leb_spec quantity 0); lia.
Qed.

(** X1. On a ledger with distinct ids a deduction only lowers the
    remaining quantity of usable entries of the item (today's, not expired,
    not empty), never below zero; every other entry stays as it is, and the
    entries keep their ids and their order. *)
Theorem deduct_ledger_effect now id quantity db :
  let today := getTodayDate now in
  let db' := (deductFromDailyInventory now id quantity db).2 in
  NoDup (entry_id <$> dailyEntries db) →
  Forall2 (loweredFrom now today id) (dailyEntries db) (dailyEntries db')
  ∧ entry_id <$> dailyEntries db' = entry_id <$> dailyEntries db.
Proof.
  simpl. intros Hnd.
  destruct (deduct_outcome now id quantity db Hnd) as (stored & HF & Hids & _ & ->).
  by destruct (decide _).
Qed.

Lemma deduct_ledger_effect_witness :
  entry_id <$> dailyEntries (deductFromDailyInventory ledgerNow 1 7 ledgerDb).2 = [1; 2; 3]
  ∧ Forall2 (loweredFrom ledgerNow (getTodayDate ledgerNow) 1) (dailyEntries ledgerDb)
      (dailyEntries (deductFromDailyInventory ledgerNow 1 7 ledgerDb).2).
Proof.
  destruct (deduct_ledger_effect ledgerNow 1 7 ledgerDb ledgerDb_ids) as (HF & ->).
  by split.
Defined.

Lemma usableTotal_elem now today id (l : list DailyInventoryEntry) e :
  e ∈ l → isUsable now today id e = true →
  entry_remainingQuantity e ≤ usableTotal now today id l.
Proof.
  induction l as [|x l IH]; intros Hin Hu; [by apply elem_of_nil in Hin|].
  rewrite usableTotal_cons. pose proof (usableTotal_nonneg now today id l) as Hnn.
  apply elem_of_cons in Hin as [<-|Hin].
  - rewrite Hu. lia.
  - specialize (IH Hin Hu).
    destruct (isUsable now today id x) eqn:Hx; [|lia].
    unfold isUsable, isCandidate in Hx. lia.
Qed.

(** X2. On a ledger with distinct ids, a demand that one usable batch of
    the item covers by itself is always deducted: the call succeeds, the
    item's [currentStock] falls by the demand, and no other item changes. *)
Theorem deduct_covered_by_batch now id quantity db e :
  let r := deductFromDailyInventory now id quantity db in
  NoDup (entry_id <$> dailyEntries db) →
  e ∈ dailyEntries db →
  isUsable now (getTodayDate now) id e = true →
  quantity ≤ entry_remainingQuantity e →
  r.1 = Ok tt
  ∧ (∀ k, stockAt r.2 k
          = if decide (id = k) then Z.add (- quantity) <$> stockAt db k
            else stockAt db k).
Proof.
  simpl. intros Hnd Hin Hu Hq.
  pose proof (usableTotal_elem now (getTodayDate now) id (dailyEntries db) e Hin Hu) as Hle.
  destruct (deduct_outcome now id quantity db Hnd) as (stored & _ & _ & _ & ->).
  rewrite decide_True by lia. split; [done|]. intros k. cbn [snd].
  apply (stockAt_incStock (with_dailyEntries (λ _, stored) db)).
Qed.

Lemma deduct_covered_by_batch_witness :
  (deductFromDailyInventory ledgerNow 1 4 ledgerDb).1 = Ok tt
  ∧ stockAt (deductFromDailyInventory ledgerNow 1 4 ledgerDb).2 1 = Some 8.
Proof.
  destruct (deduct_covered_by_batch ledgerNow 1 4 ledgerDb
              (mkEntry 1 (20 * msPerDay) 1 5 None (Some (21 * msPerDay)) 5
                 (20 * msPerDay + 1)) ledgerDb_ids) as [Hok Hstock].
  - apply elem_of_cons. by left.
  - reflexivity.
  - simpl. lia.
  - split; [exact Hok|]. by rewrite Hstock.
Defined.

(** X3. A deduction of zero or less walks no entry: the ledger is left as
    it is, the call succeeds, and the item's [currentStock] is incremented
    by the negated quantity (a negative "deduction" adds stock). *)
Theorem deduct_nonpositive now id quantity db :
  quantity ≤ 0 →
  deductFromDailyInventory now id quantity db
  = (Ok tt, findByIdAndUpdate id (incStock (- quantity)) db).
Proof.
  intros Hq. unfold deductFromDailyInventory.
  assert (∀ entries stored, deductLoop now entries quantity stored = (quantity, stored))
    as ->.
  { intros [|e entries] stored; simpl; [done|]. by destruct (Z.leb_spec quantity 0); [|lia]. }
  destruct (Z.ltb_spec 0 quantity); [lia|]. by destruct db.
Qed.

Lemma deduct_nonpositive_witness :
  dailyEntries (deductFromDailyInventory ledgerNow 1 (-3) ledgerDb).2 = dailyEntries ledgerDb
  ∧ stockOf (deductFromDailyInventory ledgerNow 1 (-3) ledgerDb).2 1 = 15.
Proof. rewrite (deduct_nonpositive ledgerNow 1 (-3) ledgerDb); [by split | done]. Defined.
End Deduction.

Section LedgerInvariant.

Lemma freshEntryId_above (l : list DailyInventoryEntry) e :
  e ∈ l → entry_id e < freshEntryId l.
Proof.
  unfold freshEntryId. induction l as [|x l IH]; simpl; [by intros ?%elem_of_nil|].
  intros [->|Hin]%elem_of_cons; [lia|]. apply IH in Hin. lia.
Qed.

Lemma ledgerWellFormed_snoc l e :
  ledgerWellFormed l → entry_id e = freshEntryId l →
  0 ≤ entry_remainingQuantity e ≤ entry_quantity e →
  ledgerWellFormed (l ++ [e]).
Proof.
  intros [Hnd Hb] Hid He. split.
  - rewrite fmap_app. apply NoDup_app. split; [done|]. split; [|apply NoDup_singleton].
    intros i (x & -> & Hx)%list_elem_of_fmap Hi. apply list_elem_of_singleton in Hi.
    apply freshEntryId_above in Hx. simpl in Hi. lia.
  - apply Forall_app. split; [done|]. by constructor.
Qed.

Lemma deduct_wellFormed now id quantity db :
  ledgerWellFormed (dailyEntries db) →
  ledgerWellFormed (dailyEntries (deductFromDailyInventory now id quantity db).2).
Proof.
  intros [Hnd Hb].
  destruct (deduct_outcome now id quantity db Hnd) as (stored & HF & Hids & _ & ->).
  assert (ledgerWellFormed stored) as Hwf.
  { split; [by rewrite Hids|]. clear Hids Hnd.
    induction HF as [|x x' l l' Hx _ IH]; [done|].
    apply Forall_cons in Hb as [Hbx Hb]. constructor; [|by apply IH].
    destruct Hx as [->|(_ & r & Hr & ->)]; [done|]. simpl. lia. }
  by destruct (decide _).
Qed.

Lemma deductIngredients_wellFormed now m q ingredients : ∀ db,
  ledgerWellFormed (dailyEntries db) →
  ledgerWellFormed (dailyEntries (deductIngredients now m ingredients q db).2).
Proof.
  induction ingredients as [|i rest IH]; intros db Hwf; simpl; [done|].
  destruct (inventoryItems db !! ing_ingredient i) as [item|]; [|by apply IH].
  destruct (item_currentStock item <? ing_quantity i * q); [done|].
  pose proof (deduct_wellFormed now (ing_ingredient i) (ing_quantity i * q) db Hwf) as Hwf1.
  destruct (deductFromDailyInventory now (ing_ingredient i) (ing_quantity i * q) db)
    as [[[]|e] db1]; simpl in *; [by apply IH | done].
Qed.

Lemma processOrderItems_wellFormed now items : ∀ db,
  ledgerWellFormed (dailyEntries db) →
  ledgerWellFormed (dailyEntries (fold_left (processOrderItem now) items db)).
Proof.
  induction items as [|oi rest IH]; intros db Hwf; simpl; [done|]. apply IH.
  unfold processOrderItem. destruct (oi_menuItem oi) as [m|]; [|done].
  destruct (menuItems db !! m) as [menuItem|]; [|done].
  pose proof (deductIngredients_wellFormed now m (oi_quantity oi)
                (menu_ingredients menuItem) db Hwf) as Hwf1.
  by destruct (deductIngredients now m (menu_ingredients menuItem) (oi_quantity oi) db)
    as [[[]|e] db1].
Qed.

Lemma createOrder_wellFormed now req db :
  ledgerWellFormed (dailyEntries db) →
  ledgerWellFormed (dailyEntries (createOrder now req db).2).
Proof.
  intros Hwf. unfold createOrder.
  destruct (co_user req) as [user|]; [|done].
  destruct (isEmptyString (user_restaurant user)); [done|].
  destruct (isEmptyString (co_customerName req) || _); [done|].
  destruct (validateItems db now (co_items req) [] 0) as [[validated total]|]; [|done].
  simpl. by apply processOrderItems_wellFormed.
Qed.

(** The restoration of a cancellation writes no daily entry. *)
Lemma restoreOrderItems_ledger now lines : ∀ db,
  dailyEntries (fold_left (restoreOrderItem now) lines db) = dailyEntries db.
Proof.
  assert (∀ q ingredients db,
            dailyEntries (fold_left (restoreIngredient now q) ingredients db)
            = dailyEntries db) as Hing.
  { intros q ingredients. induction ingredients as [|i rest IH]; intros db; simpl; [done|].
    rewrite IH. unfold restoreIngredient.
    destruct (inventoryItems db !! ing_ingredient i); [|done].
    by destruct (ing_quantity i * q <=? 0). }
  induction lines as [|line rest IH]; intros db; simpl; [done|]. rewrite IH.
  unfold restoreOrderItem. destruct (menuItems db !! line_menuItem line); [|done].
  apply Hing.
Qed.

Lemma updateOrderStatus_ledger now id req db :
  dailyEntries (updateOrderStatus now id req db).2 = dailyEntries db.
Proof.
  unfold updateOrderStatus.
  destruct (isEmptyString (sr_status req)); [done|].
  destruct (negb (includes validStatuses (sr_status req))); [done|].
  destruct (orders db !! id) as [existingOrder|]; [|done]. simpl.
  destruct (_ && _); [|done]. apply restoreOrderItems_ledger.
Qed.

Lemma restoreLinesUnguarded_ledger lines : ∀ db,
  dailyEntries (restoreLinesUnguarded lines db).2 = dailyEntries db.
Proof.
  assert (∀ q ingredients db,
            dailyEntries (restoreIngredientsUnguarded ingredients q db).2
            = dailyEntries db) as Hing.
  { intros q ingredients. induction ingredients as [|i rest IH]; intros db; simpl; [done|].
    destruct (inventoryItems db !! ing_ingredient i); [|done]. by rewrite IH. }
  induction lines as [|line rest IH]; intros db; simpl; [done|].
  destruct (menuItems db !! line_menuItem line) as [menuItem|]; [|apply IH].
  pose proof (Hing (line_quantity line) (menu_ingredients menuItem) db) as H1.
  destruct (restoreIngredientsUnguarded (menu_ingredients menuItem) (line_quantity line) db)
    as [[[]|e] db1]; simpl in *; [|done]. by rewrite IH.
Qed.

Lemma replaceItems_wellFormed now items : ∀ validated subtotal db,
  ledgerWellFormed (dailyEntries db) →
  ledgerWellFormed (dailyEntries (replaceItems now items validated subtotal db).2).
Proof.
  assert (∀ q ingredients db,
            ledgerWellFormed (dailyEntries db) →
            ledgerWellFormed
              (dailyEntries (deductIngredientsStrict now ingredients q db).2)) as Hing.
  { intros q ingredients. induction ingredients as [|i rest IH]; intros db Hwf; simpl;
      [done|].
    destruct (inventoryItems db !! ing_ingredient i); [|done].
    pose proof (deduct_wellFormed now (ing_ingredient i) (ing_quantity i * q) db Hwf) as H1.
    destruct (deductFromDailyInventory now (ing_ingredient i) (ing_quantity i * q) db)
      as [[[]|e] db1]; simpl in *; [by apply IH | done]. }
  induction items as [|oi rest IH]; intros validated subtotal db Hwf; simpl; [done|].
  destruct (oi_menuItem oi ≫= _) as [[m menuItem]|]; [|done].
  destruct (negb _); [done|].
  pose proof (Hing (oi_quantity oi) (menu_ingredients menuItem) db Hwf) as H1.
  destruct (deductIngredientsStrict now (menu_ingredients menuItem) (oi_quantity oi) db)
    as [[[]|e] db1]; simpl in *; [by apply IH | done].
Qed.

Lemma updateOrder_wellFormed now id req db :
  ledgerWellFormed (dailyEntries db) →
  ledgerWellFormed (dailyEntries (updateOrder now id req db).2).
Proof.
  intros Hwf. unfold updateOrder.
  destruct (orders db !! id) as [existingOrder|]; [|done].
  destruct (negb (String.eqb _ _)); [done|].
  destruct (_ || _); [done|].
  destruct (negb (Nat.eqb _ 0)); [|done].
  pose proof (restoreLinesUnguarded_ledger (order_items existingOrder) db) as H1.
  destruct (restoreLinesUnguarded (order_items existingOrder) db) as [[[]|e] db1];
    simpl in *; [|by rewrite H1].
  rewrite <- H1 in Hwf.
  pose proof (replaceItems_wellFormed now (uo_items req) [] 0 db1 Hwf) as H2.
  by destruct (replaceItems now (uo_items req) [] 0 db1) as [[[validated total]|e] db2].
Qed.

Lemma addItemToToday_wellFormed now req db :
  ledgerWellFormed (dailyEntries db) →
  ledgerWellFormed (dailyEntries (addItemToToday now req db).2).
Proof.
  intros Hwf. unfold addItemToToday.
  destruct (isDayEnded db (getTodayDate now)); [done|].
  destruct (add_inventoryItemId req) as [id|]; [|done].
  destruct (add_quantity req =? 0); [done|].
  destruct (Z.leb_spec (add_quantity req) 0); [done|].
  destruct (inventoryItems db !! id); [|done].
  destruct (from_option _ false (add_cost req)); [done|]. simpl.
  apply ledgerWellFormed_snoc; [done | done | simpl; lia].
Qed.

Lemma carryForwardLoop_wellFormed now today l : ∀ carried db,
  Forall (λ e, 0 < entry_remainingQuantity e) l →
  ledgerWellFormed (dailyEntries db) →
  ledgerWellFormed (dailyEntries (carryForwardLoop now today l carried db).2).
Proof.
  induction l as [|entry rest IH]; intros carried db Hpos Hwf; simpl; [done|].
  apply Forall_cons in Hpos as [He Hrest].
  destruct (isExpiredAt now (entry_expiryDate entry)); [by apply IH|].
  destruct (inventoryItems db !! entry_inventoryItem entry); [|done].
  apply IH; [done|]. simpl. apply ledgerWellFormed_snoc; [done | done | simpl; lia].
Qed.

Lemma startNewDay_wellFormed now db :
  ledgerWellFormed (dailyEntries db) →
  ledgerWellFormed (dailyEntries (startNewDay now db).2).
Proof.
  intros Hwf. unfold startNewDay.
  destruct (isDayEnded db (getTodayDate now)); [done|].
  destruct (negb _); [done|].
  match goal with |- context [carryForwardLoop now ?t ?l ?c db] =>
    pose proof (carryForwardLoop_wellFormed now t l c db) as H1;
    destruct (carryForwardLoop now t l c db) as [[cf|e] db1]
  end; simpl in *; apply H1; try done;
    apply Forall_forall; intros e' [He' _]%list_elem_of_filter;
    unfold isLeftover in He'; lia.
Qed.

(** X4. Every operation keeps the ledger well formed: if the daily
    entries have distinct ids and each holds between nothing and what was
    received, this is so in every database that intake, deduction, order
    creation, edit and cancellation, day closing and opening, and the expiry
    jobs can reach. *)
Theorem ledger_wellFormed_reachable db0 db :
  ledgerWellFormed (dailyEntries db0) →
  reachable db0 db →
  ledgerWellFormed (dailyEntries db).
Proof.
  intros Hwf. induction 1 as [|db now op _ IH]; [done|].
  destruct op; simpl.
  - by apply addItemToToday_wellFormed.
  - by apply deduct_wellFormed.
  - unfold endDay. by destruct (isDayEnded db (getTodayDate now)).
  - by apply startNewDay_wellFormed.
  - by apply createOrder_wellFormed.
  - by rewrite updateOrderStatus_ledger.
  - by apply updateOrder_wellFormed.
  - unfold processExpiredItems. simpl.
    destruct (sweepLoop_spec now (expiredItemsOf now db) (mkSweepState [] 0 db))
      as (logs & items & _ & _ & _ & _ & _ & Hd & _). simpl in Hd. by rewrite Hd.
  - done.
Qed.

Lemma kitchenDb_wellFormed : ledgerWellFormed (dailyEntries kitchenDb).
Proof.
  split; [refine (bool_decide_unpack _ _); by vm_compute|].
  repeat constructor; simpl; lia.
Qed.

Lemma ledger_wellFormed_reachable_witness :
  ledgerWellFormed
    (dailyEntries
       (run (kitchenNow + 2) (OpUpdateOrderStatus 101 cancelReq)
          (run (kitchenNow + 1) (OpCreateOrder twoSalads)
             (run kitchenNow (OpAddItemToToday tomatoIntake) kitchenDb)))).
Proof.
  apply (ledger_wellFormed_reachable kitchenDb); [exact kitchenDb_wellFormed|].
  repeat apply reachable_step. apply reachable_start.
Defined.
End LedgerInvariant.

Section DayClose.

Lemma deduct_dayStatuses now id quantity f db :
  deductFromDailyInventory now id quantity (with_dayStatuses f db)
  = ((deductFromDailyInventory now id quantity db).1,
     with_dayStatuses f (deductFromDailyInventory now id quantity db).2).
Proof.
  unfold deductFromDailyInventory. simpl.
  destruct (deductLoop now _ quantity (dailyEntries db)) as [need stored].
  by destruct (0 <? need).
Qed.

Lemma endDay_Ok_inv now db d db1 :
  endDay now db = (Ok d, db1) →
  isDayEnded db (getTodayDate now) = false
  ∧ db1 = with_dayStatuses <[getTodayDate now := mkDayStatus true (Some now)]> db.
Proof.
  unfold endDay. destruct (isDayEnded db (getTodayDate now)); [done|].
  by intros [= _ <-].
Qed.

Lemma isDayEnded_insert db date date' status :
  isDayEnded (with_dayStatuses <[date := status]> db) date'
  = if decide (date = date') then day_isEnded status else isDayEnded db date'.
Proof.
  unfold isDayEnded. simpl. rewrite lookup_insert. by destruct (decide (date = date')).
Qed.

(** X5. Once [endDay] has succeeded, for the rest of that day an intake
    is refused, a second [endDay] is refused and [startNewDay] is refused,
    each without writing; [endDay] itself wrote no daily entry and no
    inventory item. Deductions are not gated by the day status: they return
    what they would have returned, with the same ledger, had the day not been
    ended. *)
Theorem endDay_closes_day now now' db d db1 :
  endDay now db = (Ok d, db1) →
  getTodayDate now' = getTodayDate now →
  dailyEntries db1 = dailyEntries db
  ∧ inventoryItems db1 = inventoryItems db
  ∧ (∀ req, addItemToToday now' req db1 = (Err DayHasBeenEnded, db1))
  ∧ endDay now' db1 = (Err DayAlreadyEnded, db1)
  ∧ startNewDay now' db1 = (Err TodayAlreadyEnded, db1)
  ∧ (∀ id quantity,
       (deductFromDailyInventory now' id quantity db1).1
       = (deductFromDailyInventory now' id quantity db).1
       ∧ dailyEntries (deductFromDailyInventory now' id quantity db1).2
         = dailyEntries (deductFromDailyInventory now' id quantity db).2).
Proof.
  intros [Hopen ->]%endDay_Ok_inv Hday.
  assert (isDayEnded
            (with_dayStatuses <[getTodayDate now := mkDayStatus true (Some now)]> db)
            (getTodayDate now') = true) as Hended.
  { by rewrite isDayEnded_insert, Hday, decide_True. }
  split; [done|]. split; [done|]. split; [|split; [|split]].
  - intros req. unfold addItemToToday. by rewrite Hended.
  - unfold endDay. by rewrite Hended.
  - unfold startNewDay. by rewrite Hended.
  - intros id quantity. by rewrite deduct_dayStatuses.
Qed.

Lemma endDay_closes_day_witness :
  ∃ d db1,
    endDay kitchenNow kitchenDb = (Ok d, db1)
    ∧ addItemToToday (kitchenNow + 5) tomatoIntake db1 = (Err DayHasBeenEnded, db1)
    ∧ endDay (kitchenNow + 5) db1 = (Err DayAlreadyEnded, db1)
    ∧ (deductFromDailyInventory (kitchenNow + 5) 1 3 db1).1 = Ok tt.
Proof.
  destruct (endDay kitchenNow kitchenDb) as [[d|e] db1] eqn:Hend;
    [|by vm_compute in Hend].
  destruct (endDay_closes_day kitchenNow (kitchenNow + 5) kitchenDb d db1 Hend)
    as (_ & _ & Hadd & Hend2 & _ & Hded); [reflexivity|].
  exists d, db1. split; [done|]. split; [apply Hadd|]. split; [exact Hend2|].
  destruct (Hded 1 3) as [-> _]. reflexivity.
Defined.


End DayClose.

Section IntakeRoundTrip.

Lemma stockAt_incStockAndQuantity db d id k :
  stockAt (findByIdAndUpdate id (incStockAndQuantity d) db) k
  = if decide (id = k) then Z.add d <$> stockAt db k else stockAt db k.
Proof.
  unfold stockAt, findByIdAndUpdate. simpl. rewrite lookup_alter.
  case_decide; [subst|done].
  destruct (inventoryItems db !! k); simpl; [|done]. f_equal. lia.
Qed.

Lemma addItemToToday_Ok_inv now req db entry db1 :
  addItemToToday now req db = (Ok entry, db1) →
  isDayEnded db (getTodayDate now) = false
  ∧ 0 < add_quantity req
  ∧ is_Some (inventoryItems db !! entry_inventoryItem entry)
  ∧ add_inventoryItemId req = Some (entry_inventoryItem entry)
  ∧ entry = mkEntry (freshEntryId (dailyEntries db)) (getTodayDate now)
              (entry_inventoryItem entry) (add_quantity req) (add_cost req)
              (add_expiryDate req) (add_quantity req) now
  ∧ db1 = findByIdAndUpdate (entry_inventoryItem entry)
            (incStockAndQuantity (add_quantity req))
            (with_dailyEntries (λ l, l ++ [entry]) db).
Proof.
  unfold addItemToToday.
  destruct (isDayEnded db (getTodayDate now)); [done|].
  destruct (add_inventoryItemId req) as [id|]; [|done].
  destruct (add_quantity req =? 0); [done|].
  destruct (Z.leb_spec (add_quantity req) 0); [done|].
  destruct (inventoryItems db !! id) eqn:Hid; [|done].
  destruct (from_option _ false (add_cost req)); [done|].
  intros [= <- <-]. simpl. rewrite Hid. by repeat split.
Qed.

(** X7. An accepted intake adds one entry to the ledger, which holds all
    of the quantity received, and raises the item's [currentStock] by that
    quantity. Deducting the same quantity later that day, before the batch
    expires, always succeeds, whatever else the ledger holds: the new batch
    covers the demand; the deduction takes the quantity off the item's
    [currentStock] and changes no other item. *)
Theorem intake_then_deduct now now' req db entry db1 :
  let id := entry_inventoryItem entry in
  let today := getTodayDate now in
  ledgerWellFormed (dailyEntries db) →
  addItemToToday now req db = (Ok entry, db1) →
  getTodayDate now' = today →
  isExpiredAt now' (add_expiryDate req) = false →
  dailyEntries db1 = dailyEntries db ++ [entry]
  ∧ entry_remainingQuantity entry = add_quantity req
  ∧ (∀ k, stockAt db1 k
          = if decide (id = k) then Z.add (add_quantity req) <$> stockAt db k
            else stockAt db k)
  ∧ ∃ db2,
      deductFromDailyInventory now' id (add_quantity req) db1 = (Ok tt, db2)
      ∧ (∀ k, stockAt db2 k
              = if decide (id = k) then Z.add (- add_quantity req) <$> stockAt db1 k
                else stockAt db1 k)
      ∧ entry_id <$> dailyEntries db2 = entry_id <$> dailyEntries db1.
Proof.
  simpl. intros Hwf Hadd Hday Hfresh.
  pose proof (addItemToToday_wellFormed now req db Hwf) as Hwf1.
  rewrite Hadd in Hwf1. simpl in Hwf1.
  destruct (addItemToToday_Ok_inv _ _ _ _ _ Hadd) as (_ & Hq & _ & _ & Hentry & Hdb1).
  set (id := entry_inventoryItem entry) in *.
  assert (dailyEntries db1 = dailyEntries db ++ [entry]) as Hd1 by (by rewrite Hdb1).
  assert (isUsable now' (getTodayDate now') id entry = true) as Hu.
  { rewrite Hday, Hentry. unfold isUsable, isCandidate. simpl.
    rewrite Hfresh, !Z.eqb_refl. simpl. by destruct (Z.ltb_spec 0 (add_quantity req)); [|lia]. }
  split; [done|]. split; [by rewrite Hentry|]. split.
  { intros k. rewrite Hdb1.
    apply (stockAt_incStockAndQuantity (with_dailyEntries (λ l, l ++ [entry]) db)). }
  destruct Hwf1 as [Hnd1 _].
  assert (entry ∈ dailyEntries db1) as Hin.
  { rewrite Hd1. apply elem_of_app. right. apply elem_of_cons. by left. }
  pose proof (usableTotal_elem now' (getTodayDate now') id (dailyEntries db1) entry Hin Hu)
    as Hle.
  destruct (deduct_outcome now' id (add_quantity req) db1 Hnd1)
    as (stored & _ & Hids & _ & ->).
  rewrite decide_True.
  2:{ replace (entry_remainingQuantity entry) with (add_quantity req) in Hle; [lia|].
      by rewrite Hentry. }
  eexists. split; [reflexivity|]. split; [|exact Hids].
  intros k. apply (stockAt_incStock (with_dailyEntries (λ _, stored) db1)).
Qed.

Lemma intake_then_deduct_witness :
  ∃ entry db1 db2,
    addItemToToday kitchenNow tomatoIntake kitchenDb = (Ok entry, db1)
    ∧ stockAt db1 1 = Some 11
    ∧ deductFromDailyInventory (kitchenNow + 60000) 1 6 db1 = (Ok tt, db2)
    ∧ stockAt db2 1 = Some 5.
Proof.
  destruct (addItemToToday kitchenNow tomatoIntake kitchenDb) as [[entry|e] db1] eqn:Hadd;
    [|by vm_compute in Hadd].
  destruct (intake_then_deduct kitchenNow (kitchenNow + 60000) tomatoIntake kitchenDb
              entry db1 kitchenDb_wellFormed Hadd)
    as (_ & _ & Hs1 & db2 & Hded & Hs2 & _); [reflexivity | reflexivity |].
  assert (entry_inventoryItem entry = 1) as Hid.
  { vm_compute in Hadd. by injection Hadd as <- _. }
  rewrite Hid in *. exists entry, db1, db2.
  split; [done|]. split; [by rewrite Hs1|]. split; [exact Hded|].
  by rewrite Hs2, Hs1.
Defined.
End IntakeRoundTrip.

Section ExpiryJobs.
Variable now : Date.

Lemma isExpiredWithStock_writeOff item : isExpiredWithStock now (writeOff item) = false.
Proof. unfold isExpiredWithStock. simpl. by rewrite andb_false_r. Qed.

Lemma expiredItemsOf_after_sweep db :
  expiredItemsOf now (processExpiredItems now db).2 = [].
Proof.
  unfold expiredItemsOf. apply map_to_list_empty_iff, map_empty. intros k.
  destruct (filter _ _ !! k) as [item|] eqn:Hk; [exfalso|done].
  apply map_lookup_filter_Some in Hk as [Hk Hsel]. simpl in Hsel.
  rewrite processExpiredItems_inventory in Hk.
  destruct (inventoryItems db !! k) as [old|]; [|done]. simpl in Hk.
  injection Hk as <-. destruct (isExpiredWithStock now old) eqn:Hold.
  - by rewrite isExpiredWithStock_writeOff in Hsel.
  - congruence.
Qed.

(** X8. The expiry sweep is idempotent: a second sweep at the same time
    finds nothing to process, reports a count and a waste cost of zero, and
    leaves the database as the first sweep left it, so no item is written
    off, and no waste recorded, twice. *)
Theorem processExpiredItems_idempotent (db : Db) :
  let db1 := (processExpiredItems now db).2 in
  processExpiredItems now db1 = (mkExpirySummary true 0 0 [], db1).
Proof.
  cbv zeta. unfold processExpiredItems at 1. by rewrite expiredItemsOf_after_sweep.
Qed.

Lemma checkExpiredItems_markExpired db k :
  inventoryItems (checkExpiredItems now db) !! k = markExpired now <$> inventoryItems db !! k.
Proof. apply checkExpiredItems_inventory. Qed.

Lemma markExpired_idemp item : markExpired now (markExpired now item) = markExpired now item.
Proof.
  unfold markExpired. destruct (isExpiredNotDiscontinued now item) eqn:Hc; [|by rewrite Hc].
  unfold isExpiredNotDiscontinued in *. simpl.
  apply andb_true_iff in Hc as [-> _]. done.
Qed.

(** X9. Status marking is idempotent and touches the status only: it
    changes no [currentStock], [quantity], cost or expiry date, sets a status
    to nothing but [expired], and leaves alone every item that is
    discontinued or has no expiry date in the past. *)
Theorem checkExpiredItems_effect (db : Db) :
  checkExpiredItems now (checkExpiredItems now db) = checkExpiredItems now db
  ∧ ∀ k item,
      inventoryItems db !! k = Some item →
      ∃ item',
        inventoryItems (checkExpiredItems now db) !! k = Some item'
        ∧ item_currentStock item' = item_currentStock item
        ∧ item_quantity item' = item_quantity item
        ∧ item_cost item' = item_cost item
        ∧ item_expiryDate item' = item_expiryDate item
        ∧ (item_status item' = item_status item ∨ item_status item' = "expired")
        ∧ (item_status item = "discontinued"
           ∨ isExpiredAt now (item_expiryDate item) = false → item' = item).
Proof.
  split.
  - unfold checkExpiredItems, with_inventoryItems. cbn [inventoryItems dailyEntries
      dayStatuses menuItems orders wasteLogs inventoryLogs sales console]. f_equal.
    apply map_eq. intros k. rewrite !lookup_fmap.
    destruct (inventoryItems db !! k) as [item|]; [|done]. cbn [fmap option_fmap option_map].
    f_equal. apply markExpired_idemp.
  - intros k item Hk. exists (markExpired now item).
    rewrite checkExpiredItems_markExpired, Hk. split; [done|].
    unfold markExpired, isExpiredNotDiscontinued.
    destruct (isExpiredAt now (item_expiryDate item)) eqn:Hexp; simpl.
    + destruct (String.eqb_spec (item_status item) "discontinued") as [Hd|Hd]; simpl.
      * repeat split; tauto.
      * repeat split; [tauto|]. intros [?|?]; done.
    + repeat split; tauto.
Qed.

Lemma isExpiredWithStock_markExpired item :
  isExpiredWithStock now (markExpired now item) = isExpiredWithStock now item.
Proof.
  unfold markExpired, isExpiredNotDiscontinued, isExpiredWithStock.
  destruct (isExpiredAt now (item_expiryDate item)) eqn:Hexp; simpl; [|by rewrite Hexp].
  destruct (String.eqb (item_status item) "discontinued") eqn:Hd; simpl.
  - by rewrite Hexp, Hd.
  - by rewrite Hexp.
Qed.

Lemma expiredItemsOf_after_mark db :
  expiredItemsOf now (checkExpiredItems now db)
  = prod_map id (markExpired now) <$> expiredItemsOf now db.
Proof.
  unfold expiredItemsOf, checkExpiredItems. simpl.
  rewrite map_filter_fmap, map_to_list_fmap. do 2 f_equal.
  apply map_filter_ext. intros k item _. simpl.
  by rewrite <- (isExpiredWithStock_markExpired item).
Qed.

Lemma sumWasteCost_markExpired l :
  sumWasteCost (prod_map id (markExpired now) <$> l) = sumWasteCost l.
Proof.
  induction l as [|[k item] l IH]; [done|]. rewrite fmap_cons.
  change (sumWasteCost (?x :: ?l)) with (wasteCostOf x.2 + sumWasteCost l).
  rewrite IH. f_equal. simpl.
  unfold markExpired. by destruct (isExpiredNotDiscontinued now item).
Qed.

Lemma sweep_summary db :
  es_processedCount (processExpiredItems now db).1 = length (expiredItemsOf now db)
  ∧ es_totalWasteCost (processExpiredItems now db).1 = sumWasteCost (expiredItemsOf now db).
Proof.
  destruct (sweepLoop_spec now (expiredItemsOf now db) (mkSweepState [] 0 db))
    as (logs & items & _ & Hp & HF & Ht & _).
  unfold processExpiredItems. simpl in *. rewrite Hp, Ht.
  apply Forall3_length_lr in HF. split; [done | lia].
Qed.

(** X10. The two expiry jobs commute on the inventory: marking statuses
    and then sweeping leaves every inventory item as sweeping and then
    marking does, and the sweep processes as many items, at the same total
    waste cost, whether or not the statuses were marked first. *)
Theorem expiry_jobs_commute (db : Db) :
  inventoryItems (processExpiredItems now (checkExpiredItems now db)).2
  = inventoryItems (checkExpiredItems now (processExpiredItems now db).2)
  ∧ es_processedCount (processExpiredItems now (checkExpiredItems now db)).1
    = es_processedCount (processExpiredItems now db).1
  ∧ es_totalWasteCost (processExpiredItems now (checkExpiredItems now db)).1
    = es_totalWasteCost (processExpiredItems now db).1.
Proof.
  split; [|split].
  - apply map_eq. intros k.
    rewrite processExpiredItems_inventory, !checkExpiredItems_markExpired,
      processExpiredItems_inventory.
    destruct (inventoryItems db !! k) as [item|]; simpl; [|done]. f_equal.
    rewrite isExpiredWithStock_markExpired.
    destruct (isExpiredWithStock now item) eqn:Hsel; [|done].
    unfold isExpiredWithStock in Hsel.
    apply andb_true_iff in Hsel as [[Hexp _]%andb_true_iff _].
    unfold markExpired, isExpiredNotDiscontinued. simpl. rewrite Hexp. simpl.
    by destruct (negb (String.eqb (item_status item) "discontinued")).
  - destruct (sweep_summary (checkExpiredItems now db)) as [-> _].
    destruct (sweep_summary db) as [-> _].
    by rewrite expiredItemsOf_after_mark, length_fmap.
  - destruct (sweep_summary (checkExpiredItems now db)) as [_ ->].
    destruct (sweep_summary db) as [_ ->].
    by rewrite expiredItemsOf_after_mark, sumWasteCost_markExpired.
Qed.
End ExpiryJobs.

Section CheckerMore.
Variables (inventory : gmap Z InventoryItem) (now : Date).

(** The list of missing ingredients after the loop, from any state. *)
Lemma checkLoop_missing quantity ingredients : ∀ st,
  let st' := fold_left (checkIngredient inventory now quantity) ingredients st in
  miss_ingredient <$> cs_missingIngredients st'
  = (miss_ingredient <$> cs_missingIngredients st)
    ++ (ing_ingredient
          <$> filter (λ i, isMissing inventory now quantity i = true) ingredients)
  ∧ miss_required <$> cs_missingIngredients st'
    = (miss_required <$> cs_missingIngredients st)
      ++ ((λ i, ing_quantity i * quantity)
            <$> filter (λ i, isMissing inventory now quantity i = true) ingredients).
Proof.
  induction ingredients as [|i rest IH]; intros st; simpl.
  { by rewrite !app_nil_r. }
  destruct (IH (checkIngredient inventory now quantity st i)) as [IH1 IH2].
  simpl in *. rewrite IH1, IH2. clear IH IH1 IH2.
  destruct (isMissing inventory now quantity i) eqn:Hm.
  - rewrite filter_cons_True by done.
    assert (miss_ingredient <$> cs_missingIngredients
              (checkIngredient inventory now quantity st i)
            = (miss_ingredient <$> cs_missingIngredients st) ++ [ing_ingredient i]
            ∧ miss_required <$> cs_missingIngredients
                (checkIngredient inventory now quantity st i)
              = (miss_required <$> cs_missingIngredients st)
                ++ [ing_quantity i * quantity]) as [-> ->].
    { unfold isMissing in Hm. unfold checkIngredient.
      destruct (inventory !! ing_ingredient i) as [item|]; simpl.
      - destruct (isExpiredAt now (item_expiryDate item)
                  || String.eqb (item_status item) "expired"); simpl in *.
        + by rewrite !fmap_app.
        + rewrite Hm. simpl. by rewrite !fmap_app.
      - by rewrite !fmap_app. }
    by rewrite <- !app_assoc.
  - rewrite filter_cons_False by (by rewrite Hm).
    by rewrite (checkIngredient_present inventory now quantity st i Hm).
Qed.

Lemma isAvailable_iff quantity ingredients :
  isAvailable (checkIngredientAvailability inventory now ingredients quantity) = true
  ↔ forallb (λ i, negb (isMissing inventory now quantity i)) ingredients = true.
Proof.
  pose proof (checkLoop_spec inventory now quantity ingredients (mkCheckState [] false false))
    as [Hmiss _].
  pose proof (checkLoop_outOfStock inventory now quantity ingredients
                (mkCheckState [] false false)) as Hoos.
  simpl in *. unfold checkIngredientAvailability.
  set (st := fold_left (checkIngredient inventory now quantity) ingredients
               (mkCheckState [] false false)) in *.
  destruct (cs_missingIngredients st) as [|m ms] eqn:Hms.
  - destruct (cs_hasOutOfStock st); [by exfalso; apply Hoos|]. simpl.
    destruct (cs_hasLowStock st); simpl; tauto.
  - simpl. rewrite orb_true_r. simpl. split; [done|].
    intros Hall. by destruct Hmiss as [_ Hm]; specialize (Hm (conj eq_refl Hall)).
Qed.

Lemma checkIngredientAvailability_missing_ids (ingredients : list Ingredient)
    (quantity : Z) :
  let r := checkIngredientAvailability inventory now ingredients quantity in
  let missing := filter (λ i, isMissing inventory now quantity i = true) ingredients in
  miss_ingredient <$> missingIngredients r = ing_ingredient <$> missing
  ∧ miss_required <$> missingIngredients r = (λ i, ing_quantity i * quantity) <$> missing.
Proof.
  pose proof (checkLoop_missing quantity ingredients (mkCheckState [] false false))
    as [Hids Hreq].
  simpl in *. unfold checkIngredientAvailability.
  set (st := fold_left (checkIngredient inventory now quantity) ingredients
               (mkCheckState [] false false)) in *.
  assert (∀ (a b : bool) c, missingIngredients
            (if a then mkStockCheck false "out_of_stock" (cs_missingIngredients st)
             else if b then mkStockCheck true "low_stock" (cs_missingIngredients st)
             else mkStockCheck true c (cs_missingIngredients st))
          = cs_missingIngredients st) as Hm by (by intros [] [] c).
  by rewrite Hm.
Qed.

(** X11. The checker reports the missing ingredients, and only them, in
    the order of the recipe: the ids listed in [missingIngredients] are those
    of the ingredients that are unknown, expired or short, each with
    [perUnitQuantity * multiplier] as the required quantity; the recipe is
    available exactly when that list is empty. *)
Theorem checkIngredientAvailability_missing (ingredients : list Ingredient) (quantity : Z) :
  let r := checkIngredientAvailability inventory now ingredients quantity in
  let missing := filter (λ i, isMissing inventory now quantity i = true) ingredients in
  miss_ingredient <$> missingIngredients r = ing_ingredient <$> missing
  ∧ miss_required <$> missingIngredients r = (λ i, ing_quantity i * quantity) <$> missing
  ∧ (isAvailable r = true ↔ missingIngredients r = []).
Proof.
  pose proof (checkLoop_missing quantity ingredients (mkCheckState [] false false))
    as [Hids Hreq].
  pose proof (checkLoop_outOfStock inventory now quantity ingredients
                (mkCheckState [] false false)) as Hoos.
  simpl in *. unfold checkIngredientAvailability.
  set (st := fold_left (checkIngredient inventory now quantity) ingredients
               (mkCheckState [] false false)) in *.
  assert (∀ (a b : bool) c, missingIngredients
            (if a then mkStockCheck false "out_of_stock" (cs_missingIngredients st)
             else if b then mkStockCheck true "low_stock" (cs_missingIngredients st)
             else mkStockCheck true c (cs_missingIngredients st))
          = cs_missingIngredients st) as Hm by (by intros [] [] c).
  rewrite Hm. split; [done|]. split; [done|].
  destruct (cs_missingIngredients st) as [|m ms] eqn:Hms.
  - destruct (cs_hasOutOfStock st); [by exfalso; apply Hoos|]. simpl.
    by destruct (cs_hasLowStock st).
  - simpl. rewrite orb_true_r. simpl. by split.
Qed.

(** X12. Availability is monotone in the number of dishes: when no
    ingredient quantity is negative, a recipe that is available for
    [quantity] dishes is available for every smaller non-negative number of
    dishes. *)
Theorem checkIngredientAvailability_monotone (ingredients : list Ingredient)
    (quantity quantity' : Z) :
  Forall (λ i, 0 ≤ ing_quantity i) ingredients →
  0 ≤ quantity' ≤ quantity →
  isAvailable (checkIngredientAvailability inventory now ingredients quantity) = true →
  isAvailable (checkIngredientAvailability inventory now ingredients quantity') = true.
Proof.
  intros Hnn Hq. rewrite !isAvailable_iff, !forallb_forall.
  intros Hall i Hi. specialize (Hall i Hi).
  apply list_elem_of_In in Hi. rewrite Forall_forall in Hnn. specialize (Hnn i Hi).
  unfold isMissing in *. destruct (inventory !! ing_ingredient i) as [item|]; [|done].
  apply negb_true_iff, orb_false_iff in Hall as [-> Hshort]. simpl.
  apply negb_true_iff. apply Z.ltb_ge in Hshort. apply Z.ltb_ge. nia.
Qed.
End CheckerMore.

Lemma checkIngredientAvailability_monotone_witness :
  isAvailable (checkIngredientAvailability (inventoryItems kitchenDb) kitchenNow
                 [mkIngredient 1 2 "kg"] 1) = true.
Proof.
  apply (checkIngredientAvailability_monotone _ _ _ 2 1).
  - by repeat constructor.
  - lia.
  - reflexivity.
Defined.

Section OrderCreationMore.

Lemma freshOrderId_above (os : gmap Z Order) k :
  is_Some (os !! k) → k < freshOrderId os.
Proof.
  unfold freshOrderId. revert k.
  apply (map_fold_weak_ind (λ r m, ∀ k, is_Some (m !! k) → k < 1 + r)).
  - intros k [? H]. by rewrite lookup_empty in H.
  - intros i x m r _ IH k. rewrite lookup_insert.
    destruct (decide (i = k)) as [->|]; [lia|]. intros Hk%IH. lia.
Qed.

Lemma freshOrderId_fresh (os : gmap Z Order) : os !! freshOrderId os = None.
Proof.
  destruct (os !! freshOrderId os) eqn:H; [|done].
  pose proof (freshOrderId_above os (freshOrderId os)) as Hlt.
  rewrite H in Hlt. specialize (Hlt (mk_is_Some _ _ eq_refl)). lia.
Qed.

Lemma validateItems_totals db now items : ∀ validatedItems subtotal validated total,
  validateItems db now items validatedItems subtotal = Ok (validated, total) →
  total = subtotal + requestTotal items
  ∧ ∃ lines, validated = validatedItems ++ lines
             ∧ Forall2 (λ oi line, line_unitPrice line = oi_unitPrice oi
                                   ∧ line_totalPrice line
                                     = line_quantity line * line_unitPrice line
                                   ∧ 0 < line_unitPrice line) items lines.
Proof.
  induction items as [|oi rest IH]; intros acc sub validated total; simpl.
  { intros [= <- <-]. split; [lia|]. exists []. by rewrite app_nil_r. }
  destruct (oi_menuItem oi) as [m|]; [|done].
  destruct (oi_quantity oi <? 1); [done|].
  destruct (Z.leb_spec (oi_unitPrice oi) 0); [done|].
  destruct (menuItems db !! m) as [menuItem|]; [|done].
  destruct (Nat.eqb _ 0); [done|].
  destruct (negb _); [done|].
  intros (-> & lines & -> & HF)%IH. split; [lia|]. eexists (_ :: lines).
  rewrite <- app_assoc. split; [reflexivity|]. constructor; [|exact HF]. by repeat split.
Qed.

(** X13. [createOrder] writes only when it succeeds. Every error leaves
    the database as it was. On success the order is stored under an id that
    was free, with the default status; its lines are the request's lines, each
    with a quantity of at least 1, a positive unit price and
    [totalPrice = quantity * unitPrice]; and [subtotal] and [totalAmount] are
    both the sum of [quantity * unitPrice] over the request. *)
Theorem createOrder_outcome now req db :
  match createOrder now req db with
  | (Err _, db') => db' = db
  | (Ok (id, order), db') =>
      orders db !! id = None
      ∧ orders db' = <[id := order]> (orders db)
      ∧ order_status order = defaultOrderStatus
      ∧ Forall2 storedFor (co_items req) (order_items order)
      ∧ Forall (λ line, line_totalPrice line = line_quantity line * line_unitPrice line
                        ∧ 0 < line_unitPrice line) (order_items order)
      ∧ order_subtotal order = requestTotal (co_items req)
      ∧ order_totalAmount order = requestTotal (co_items req)
  end.
Proof.
  destruct (createOrder now req db) as [[[id order]|e] db'] eqn:Hrun.
  - destruct (createOrder_Ok_inv _ _ _ _ _ _ Hrun) as (total & Hval & Hst & ->).
    destruct (validateItems_lines _ _ _ _ _ _ _ Hval) as (lines & Hl & HF).
    destruct (validateItems_totals _ _ _ _ _ _ _ Hval) as (Ht & lines' & Hl' & HF').
    simpl in Hl, Hl'. subst lines lines'.
    destruct (processOrderItems_quiet now (co_items req) (with_orders <[id := order]> db))
      as (_ & _ & Ho & _). simpl in Ho.
    unfold createOrder in Hrun.
    destruct (co_user req) as [user|]; [|done].
    destruct (isEmptyString (user_restaurant user)); [done|].
    destruct (isEmptyString (co_customerName req) || _); [done|].
    rewrite Hval in Hrun. injection Hrun as Hid Hord _.
    split; [rewrite <- Hid; apply freshOrderId_fresh|]. split; [exact Ho|].
    split; [exact Hst|]. split; [exact HF|]. split.
    { clear -HF'. induction HF' as [|oi line items lines (_ & Hp & Hu) _ IH]; [done|].
      by constructor. }
    rewrite <- Hord. simpl. split; lia.
  - unfold createOrder in Hrun.
    destruct (co_user req) as [user|]; [|by injection Hrun].
    destruct (isEmptyString (user_restaurant user)); [by injection Hrun|].
    destruct (isEmptyString (co_customerName req) || _); [by injection Hrun|].
    destruct (validateItems db now (co_items req) [] 0) as [[validated total]|];
      [done | by injection Hrun].
Qed.
End OrderCreationMore.

Section StockInvariant.

Lemma stockNonNegative_stockAt db :
  stockNonNegative db ↔ ∀ k s, stockAt db k = Some s → 0 ≤ s.
Proof.
  unfold stockNonNegative, stockAt. split.
  - intros H k s Hk. destruct (inventoryItems db !! k) as [item|] eqn:Hi; [|done].
    injection Hk as <-. by eapply H.
  - intros H k item Hk. apply (H k). by rewrite Hk.
Qed.

Lemma stockNonNegative_same db db' :
  (∀ k, stockAt db' k = stockAt db k) → stockNonNegative db → stockNonNegative db'.
Proof.
  rewrite !stockNonNegative_stockAt. intros Heq H k s. rewrite Heq. apply H.
Qed.

Lemma stockNonNegative_inc db id d :
  (∀ s, stockAt db id = Some s → 0 ≤ s + d) →
  stockNonNegative db →
  stockNonNegative (findByIdAndUpdate id (incStock d) db).
Proof.
  rewrite !stockNonNegative_stockAt. intros Hd H k s. rewrite stockAt_incStock.
  destruct (decide (id = k)) as [<-|]; [|apply H].
  destruct (stockAt db id) as [s0|] eqn:Hs; [|done]. intros [= <-].
  specialize (Hd s0 eq_refl). lia.
Qed.

Lemma deduct_stockNonNegative now id q db item :
  inventoryItems db !! id = Some item →
  q ≤ item_currentStock item →
  stockNonNegative db →
  stockNonNegative (deductFromDailyInventory now id q db).2.
Proof.
  intros Hitem Hq. rewrite !stockNonNegative_stockAt. intros H k s.
  destruct (deduct_effect now id q db) as (_ & _ & _ & ->).
  destruct (deductFromDailyInventory now id q db).1; [|apply H].
  destruct (decide (id = k)) as [<-|]; [|apply H].
  unfold stockAt. rewrite Hitem. simpl. intros [= <-].
  specialize (H id (item_currentStock item)). unfold stockAt in H. rewrite Hitem in H.
  specialize (H eq_refl). lia.
Qed.

Lemma deductIngredients_stockNonNegative now m q ingredients : ∀ db,
  stockNonNegative db →
  stockNonNegative (deductIngredients now m ingredients q db).2.
Proof.
  induction ingredients as [|i rest IH]; intros db Hdb; simpl; [done|].
  destruct (inventoryItems db !! ing_ingredient i) as [item|] eqn:Hitem.
  2:{ by apply IH. }
  destruct (Z.ltb_spec (item_currentStock item) (ing_quantity i * q)); [done|].
  pose proof (deduct_stockNonNegative now (ing_ingredient i) (ing_quantity i * q) db item
                Hitem ltac:(lia) Hdb) as Hd.
  destruct (deductFromDailyInventory now (ing_ingredient i) (ing_quantity i * q) db)
    as [[[]|e] db1]; simpl in *; [|done].
  by apply IH.
Qed.

Lemma processOrderItems_stockNonNegative now items : ∀ db,
  stockNonNegative db →
  stockNonNegative (fold_left (processOrderItem now) items db).
Proof.
  induction items as [|oi rest IH]; intros db Hdb; simpl; [done|].
  apply IH. unfold processOrderItem.
  destruct (oi_menuItem oi) as [m|]; [|done].
  destruct (menuItems db !! m) as [menuItem|]; [|done].
  pose proof (deductIngredients_stockNonNegative now m (oi_quantity oi)
                (menu_ingredients menuItem) db Hdb) as Hd.
  by destruct (deductIngredients now m (menu_ingredients menuItem) (oi_quantity oi) db)
    as [[[]|e] db1].
Qed.

Lemma restoreOrderItems_stockNonNegative now lines : ∀ db,
  stockNonNegative db →
  stockNonNegative (fold_left (restoreOrderItem now) lines db).
Proof.
  induction lines as [|line rest IH]; intros db Hdb; simpl; [done|].
  apply IH. unfold restoreOrderItem.
  destruct (menuItems db !! line_menuItem line) as [menuItem|]; [|done].
  generalize (menu_ingredients menuItem). clear -Hdb. intros ingredients.
  revert db Hdb. induction ingredients as [|i rest IH]; intros db Hdb; simpl; [done|].
  apply IH. unfold restoreIngredient.
  destruct (inventoryItems db !! ing_ingredient i); [|done].
  destruct (Z.leb_spec (ing_quantity i * line_quantity line) 0); [done|].
  apply (stockNonNegative_inc db); [|done].
  intros s Hs. pose proof (proj1 (stockNonNegative_stockAt db) Hdb _ _ Hs). lia.
Qed.

Lemma carryForwardLoop_inventory now today l : ∀ carried db,
  inventoryItems (carryForwardLoop now today l carried db).2 = inventoryItems db.
Proof.
  induction l as [|entry rest IH]; intros carried db; simpl; [done|].
  destruct (isExpiredAt now (entry_expiryDate entry)); [apply IH|].
  destruct (inventoryItems db !! entry_inventoryItem entry); [|done].
  by rewrite IH.
Qed.

(** X14. Stock never goes negative through the guarded operations. From
    a database in which no item has a negative [currentStock], the daily
    intake, the end and the start of a day, the creation of an order with its
    deductions, a status update with its restoration, the expiry sweep and
    the status marking all lead to a database with the same property. The
    bare ledger deduction and the edit of an order are not covered. *)
Theorem stockNonNegative_preserved now op db :
  guardsStock op = true →
  stockNonNegative db →
  stockNonNegative (run now op db).
Proof.
  intros Hop Hdb.
  destruct op as [req|id q| | |req|id req|id req| |]; try discriminate Hop; cbn [run].
  - unfold addItemToToday.
    destruct (isDayEnded db (getTodayDate now)); [done|].
    destruct (add_inventoryItemId req) as [id|]; [|done].
    destruct (add_quantity req =? 0); [done|].
    destruct (Z.leb_spec (add_quantity req) 0); [done|].
    destruct (inventoryItems db !! id); [|done].
    destruct (from_option _ false (add_cost req)); [done|]. simpl.
    apply stockNonNegative_stockAt. intros k s. rewrite stockAt_incStockAndQuantity.
    pose proof (proj1 (stockNonNegative_stockAt db) Hdb) as Hdb'. clear Hdb. rename Hdb' into Hdb.
    destruct (decide (id = k)) as [<-|]; [|apply Hdb].
    change (stockAt (with_dailyEntries _ db) id) with (stockAt db id).
    destruct (stockAt db id) as [s0|] eqn:Hs; [|done]. intros [= <-].
    specialize (Hdb _ _ Hs). lia.
  - unfold endDay. by destruct (isDayEnded db (getTodayDate now)).
  - unfold startNewDay.
    destruct (isDayEnded db (getTodayDate now)); [done|].
    destruct (negb _); [done|].
    match goal with |- context [carryForwardLoop ?a ?b ?c ?d ?e] =>
      pose proof (carryForwardLoop_inventory a b c d e) as Hinv;
      destruct (carryForwardLoop a b c d e) as [[cf|e'] db']
    end; simpl in *; intros k item; rewrite Hinv; apply Hdb.
  - unfold createOrder.
    destruct (co_user req) as [user|]; [|done].
    destruct (isEmptyString (user_restaurant user)); [done|].
    destruct (isEmptyString (co_customerName req) || _); [done|].
    destruct (validateItems db now (co_items req) [] 0) as [[validated total]|]; [|done].
    simpl. by apply processOrderItems_stockNonNegative.
  - unfold updateOrderStatus.
    destruct (isEmptyString (sr_status req)); [done|].
    destruct (negb _); [done|].
    destruct (orders db !! id) as [existingOrder|]; [|done]. simpl.
    destruct (_ && _); [|done].
    intros k item. apply (restoreOrderItems_stockNonNegative now _ db Hdb k item).
  - intros k item. rewrite processExpiredItems_inventory.
    destruct (inventoryItems db !! k) as [item0|] eqn:Hk; [|done]. intros [= <-].
    destruct (isExpiredWithStock now item0); [done|]. by eapply Hdb.
  - intros k item. rewrite checkExpiredItems_inventory.
    destruct (inventoryItems db !! k) as [item0|] eqn:Hk; [|done]. intros [= <-].
    destruct (isExpiredNotDiscontinued now item0); simpl; by eapply Hdb.
Qed.
End StockInvariant.

Lemma stockNonNegative_preserved_witness :
  stockNonNegative (run kitchenNow (OpCreateOrder oneSalad) kitchenDb).
Proof.
  apply stockNonNegative_preserved; [reflexivity|].
  intros k item Hk. simpl in Hk. apply lookup_singleton_Some in Hk as [_ <-]. simpl. lia.
Defined.

Section OrderStatusMore.

Lemma updateOrderStatus_cases now id req db :
  (∃ e, updateOrderStatus now id req db = (Err e, db))
  ∨ ∃ existing,
      orders db !! id = Some existing
      ∧ includes validStatuses (sr_status req) = true
      ∧ updateOrderStatus now id req db
        = (Ok (applyStatusUpdate now req existing),
           with_orders <[id := applyStatusUpdate now req existing]>
             (if String.eqb (sr_status req) "cancelled"
                 && negb (String.eqb (order_status existing) "cancelled")
              then fold_left (restoreOrderItem now) (order_items existing) db
              else db)).
Proof.
  unfold updateOrderStatus.
  destruct (isEmptyString (sr_status req)); [left; by eexists|].
  destruct (includes validStatuses (sr_status req)) eqn:Hv; simpl; [|left; by eexists].
  destruct (orders db !! id) as [existing|]; [|left; by eexists].
  right. by exists existing.
Qed.

Lemma includes_elem_of l s : includes l s = true → s ∈ l.
Proof.
  unfold includes. intros (x & Hin & Heq)%existsb_exists.
  apply String.eqb_eq in Heq as ->. by apply list_elem_of_In.
Qed.

(** X15. What a status update writes. A rejected update (empty or
    unknown status, unknown order) writes nothing. An accepted one replaces
    the order by a copy with the requested status, one of the six valid
    ones, and the same lines and amounts; a move to [delivered] stamps the
    delivery time. The daily ledger is never written, not even by a
    cancellation; the inventory is written only when the target is
    [cancelled] and the order was not cancelled already. *)
Theorem updateOrderStatus_outcome now id req db :
  match updateOrderStatus now id req db with
  | (Err _, db') => db' = db
  | (Ok order', db') =>
      ∃ existing,
        orders db !! id = Some existing
        ∧ orders db' = <[id := order']> (orders db)
        ∧ order_status order' = sr_status req
        ∧ sr_status req ∈ validStatuses
        ∧ order_items order' = order_items existing
        ∧ order_subtotal order' = order_subtotal existing
        ∧ order_totalAmount order' = order_totalAmount existing
        ∧ (sr_status req = "delivered" → order_actualDeliveryTime order' = Some now)
        ∧ dailyEntries db' = dailyEntries db
        ∧ menuItems db' = menuItems db
        ∧ (sr_status req ≠ "cancelled" ∨ order_status existing = "cancelled" →
           inventoryItems db' = inventoryItems db)
  end.
Proof.
  pose proof (updateOrderStatus_ledger now id req db) as Hledger.
  destruct (updateOrderStatus_cases now id req db) as [[e He]|(existing & Hid & Hv & He)];
    rewrite He in *; [done|].
  exists existing. simpl in Hledger.
  destruct (restoreOrderItems_effect now (order_items existing) db) as (Hm & Ho & _).
  simpl in Hm, Ho.
  repeat split; try done.
  - simpl. by destruct (_ && _); [rewrite Ho|].
  - by apply includes_elem_of.
  - intros Hd. simpl. by rewrite Hd.
  - simpl. by destruct (_ && _).
  - intros [Hne| ->]; simpl.
    + destruct (String.eqb_spec (sr_status req) "cancelled"); [done|]. done.
    + by rewrite andb_false_r.
Qed.

Lemma applyStatusUpdate_items now req o :
  order_items (applyStatusUpdate now req o) = order_items o.
Proof. done. Qed.

(** X16. Cancelling twice in a row restores once, but a cancelled order
    can be reopened and cancelled again, and then it is restored twice: after
    cancel, reopen, cancel the stock of every item is its stock before plus
    twice the amounts of the order's lines. *)
Theorem cancel_reopen_cancel now1 now2 now3 id db existing :
  orders db !! id = Some existing →
  order_status existing ≠ "cancelled" →
  let db1 := (updateOrderStatus now1 id cancelReq db).2 in
  let db2 := (updateOrderStatus now2 id reopenReq db1).2 in
  let db3 := (updateOrderStatus now3 id cancelReq db2).2 in
  (∀ k, stockAt (updateOrderStatus now2 id cancelReq db1).2 k = stockAt db1 k)
  ∧ (∀ k, stockAt db2 k = stockAt db1 k)
  ∧ (∀ k, stockAt db3 k
          = Z.add (2 * restoredByOrder (menuItems db) k (order_items existing))
              <$> stockAt db k).
Proof.
  intros Hid Hst.
  assert (∀ s, s ≠ "cancelled" → String.eqb s "cancelled" = false) as Hneq.
  { intros s Hs. by destruct (String.eqb_spec s "cancelled"). }
  (* first cancellation *)
  destruct (updateOrderStatus_cases now1 id cancelReq db)
    as [[e He]|(ex1 & Hid1 & _ & He1)].
  { unfold updateOrderStatus in He. rewrite Hid in He. done. }
  rewrite Hid in Hid1. injection Hid1 as <-.
  rewrite He1. cbn [snd]. simpl String.eqb. rewrite (Hneq _ Hst). simpl andb. cbv iota.
  set (o1 := applyStatusUpdate now1 cancelReq existing).
  set (db1 := with_orders <[id := o1]> (fold_left (restoreOrderItem now1)
                (order_items existing) db)).
  destruct (restoreOrderItems_effect now1 (order_items existing) db) as (Hm1 & Ho1 & Hs1).
  simpl in Hm1, Ho1, Hs1.
  assert (orders db1 !! id = Some o1) as Hid_1 by (simpl; apply lookup_insert_eq).
  assert (∀ k, stockAt db1 k
               = Z.add (restoredByOrder (menuItems db) k (order_items existing))
                   <$> stockAt db k) as Hstock1 by (intros k; apply Hs1).
  (* a second cancellation in a row *)
  split.
  { intros k. destruct (updateOrderStatus_cases now2 id cancelReq db1)
      as [[e He]|(ex & Hex & _ & He)]; rewrite He; [done|].
    rewrite Hid_1 in Hex. injection Hex as <-. done. }
  (* reopening *)
  destruct (updateOrderStatus_cases now2 id reopenReq db1)
    as [[e He]|(ex2 & Hid2 & _ & He2)].
  { unfold updateOrderStatus in He. rewrite Hid_1 in He. done. }
  rewrite Hid_1 in Hid2. injection Hid2 as <-.
  rewrite He2. cbn [snd]. simpl String.eqb. simpl andb. cbv iota.
  split; [done|].
  set (o2 := applyStatusUpdate now2 reopenReq o1).
  set (db2 := with_orders <[id := o2]> db1).
  assert (orders db2 !! id = Some o2) as Hid_2 by (simpl; apply lookup_insert_eq).
  (* second cancellation *)
  destruct (updateOrderStatus_cases now3 id cancelReq db2)
    as [[e He]|(ex3 & Hid3 & _ & He3)].
  { unfold updateOrderStatus in He. rewrite Hid_2 in He. done. }
  rewrite Hid_2 in Hid3. injection Hid3 as <-.
  rewrite He3. cbn [snd]. simpl String.eqb. simpl andb. cbv iota.
  destruct (restoreOrderItems_effect now3 (order_items o2) db2) as (_ & _ & Hs3).
  simpl in Hs3. intros k.
  change (stockAt (with_orders ?f ?d) k) with (stockAt d k).
  rewrite Hs3. change (stockAt db2 k) with (stockAt db1 k). rewrite Hstock1.
  change (menuItems db2) with (menuItems (fold_left (restoreOrderItem now1)
            (order_items existing) db)).
  rewrite Hm1. change (order_items o2) with (order_items existing).
  destruct (stockAt db k); simpl; [f_equal; lia | done].
Qed.
End OrderStatusMore.

Lemma cancel_reopen_cancel_witness :
  let db1 := (createOrder kitchenNow oneSalad kitchenDb).2 in
  let db2 := (updateOrderStatus kitchenNow 101 cancelReq db1).2 in
  let db3 := (updateOrderStatus kitchenNow 101 reopenReq db2).2 in
  let db4 := (updateOrderStatus kitchenNow 101 cancelReq db3).2 in
  stockAt db1 1 = Some 2 ∧ stockAt db4 1 = Some 8.
Proof.
  assert (∃ o, orders (createOrder kitchenNow oneSalad kitchenDb).2 !! 101 = Some o
               ∧ order_status o ≠ "cancelled"
               ∧ order_items o = [mkOrderLine 10 1 50 50]) as (o & Ho & Hst & Hitems).
  { eexists. split; [by vm_compute|]. split; [by vm_compute | reflexivity]. }
  destruct (cancel_reopen_cancel kitchenNow kitchenNow kitchenNow 101 _ o Ho Hst)
    as (_ & _ & H3).
  simpl. split; [by vm_compute|]. rewrite H3, Hitems. by vm_compute.
Defined.

Section OrderDeletion.

Lemma processOrderItems_ledger_orders now items db :
  orders (fold_left (processOrderItem now) items db) = orders db.
Proof. by destruct (processOrderItems_quiet now items db) as (_ & _ & Ho & _). Qed.

(** X17. Deleting an order compensates nothing. [deleteOrder] fails
    only for an unknown id and then writes nothing; otherwise it removes the
    order and leaves the inventory and the daily ledger as they are. Deleting
    an order right after its creation gives back the collection of orders
    from before the creation, with the stock the creation took still taken;
    the order being gone, no later status update or edit of it succeeds. *)
Theorem createOrder_then_deleteOrder now req db id order db1 :
  createOrder now req db = (Ok (id, order), db1) →
  ∃ db2,
    deleteOrder id db1 = (Ok tt, db2)
    ∧ orders db2 = orders db
    ∧ inventoryItems db2 = inventoryItems db1
    ∧ dailyEntries db2 = dailyEntries db1
    ∧ deleteOrder id db2 = (Err OrderNotFound, db2)
    ∧ (∀ now' sreq, ∃ e, updateOrderStatus now' id sreq db2 = (Err e, db2))
    ∧ (∀ now' ureq, updateOrder now' id ureq db2 = (Err OrderNotFound, db2)).
Proof.
  intros Hrun.
  destruct (createOrder_Ok_inv _ _ _ _ _ _ Hrun) as (total & _ & _ & ->).
  assert (id = freshOrderId (orders db)) as ->.
  { unfold createOrder in Hrun.
    destruct (co_user req) as [user|]; [|done].
    destruct (isEmptyString (user_restaurant user)); [done|].
    destruct (isEmptyString (co_customerName req) || _); [done|].
    destruct (validateItems db now (co_items req) [] 0) as [[validated t]|]; [|done].
    by injection Hrun as <- _ _. }
  set (id := freshOrderId (orders db)).
  set (db1 := fold_left (processOrderItem now) (co_items req)
                (with_orders <[id := order]> db)).
  assert (orders db1 = <[id := order]> (orders db)) as Ho1
    by apply processOrderItems_ledger_orders.
  assert (orders (with_orders (delete id) db1) = orders db) as Ho2.
  { destruct db1. simpl in *. rewrite Ho1. apply delete_insert_id, freshOrderId_fresh. }
  assert (orders (with_orders (delete id) db1) !! id = None) as Hnone.
  { rewrite Ho2. apply freshOrderId_fresh. }
  exists (with_orders (delete id) db1).
  split. { unfold deleteOrder. by rewrite Ho1, lookup_insert_eq. }
  split; [exact Ho2|]. split; [by destruct db1|]. split; [by destruct db1|].
  split. { unfold deleteOrder. by rewrite Hnone. }
  split.
  - intros now' sreq. unfold updateOrderStatus. rewrite Hnone.
    destruct (isEmptyString (sr_status sreq)); [by eexists|].
    destruct (negb _); by eexists.
  - intros now' ureq. unfold updateOrder. by rewrite Hnone.
Qed.
End OrderDeletion.

Lemma createOrder_then_deleteOrder_witness :
  ∃ db2,
    deleteOrder 101 (createOrder kitchenNow oneSalad kitchenDb).2 = (Ok tt, db2)
    ∧ orders db2 = orders kitchenDb
    ∧ stockOf kitchenDb 1 = 5 ∧ stockOf db2 1 = 2.
Proof.
  destruct (createOrder kitchenNow oneSalad kitchenDb) as [[[id order]|e] db1] eqn:Hrun;
    [|by vm_compute in Hrun].
  destruct (createOrder_then_deleteOrder _ _ _ _ _ _ Hrun)
    as (db2 & Hdel & Ho & Hinv & _).
  assert (id = 101) as -> by (by vm_compute in Hrun; injection Hrun as <- _ _).
  exists db2. split; [exact Hdel|]. split; [exact Ho|]. split; [reflexivity|].
  unfold stockOf. rewrite Hinv.
  assert (db1 = (createOrder kitchenNow oneSalad kitchenDb).2) as -> by (by rewrite Hrun).
  by vm_compute.
Defined.

Section OrderStatistics.

Lemma sumOrders_insert w (os : gmap Z Order) id o :
  os !! id = None → sumOrders w (<[id := o]> os) = w o + sumOrders w os.
Proof.
  intros Hnone. unfold sumOrders.
  rewrite (map_fold_insert_L (λ _ o n, w o + n)); [done| |done].
  intros. lia.
Qed.

Lemma sumOrders_update w (os : gmap Z Order) id old new :
  os !! id = Some old →
  sumOrders w (<[id := new]> os) = sumOrders w os - w old + w new.
Proof.
  intros Hold.
  rewrite <- (insert_delete_eq os id new).
  rewrite sumOrders_insert by apply lookup_delete_eq.
  rewrite <- (insert_delete_id os id old Hold) at 2.
  rewrite sumOrders_insert by apply lookup_delete_eq. lia.
Qed.

Lemma sumOrders_delete w (os : gmap Z Order) id old :
  os !! id = Some old → sumOrders w (delete id os) = sumOrders w os - w old.
Proof.
  intros Hold. rewrite <- (insert_delete_id os id old Hold) at 2.
  rewrite sumOrders_insert by apply lookup_delete_eq. lia.
Qed.

(** X18. The statistics follow the writes. After a successful status
    update of an order, the number of orders is what it was; the count of
    each status moves by one from the order's old status to its new one; and
    the revenue, the sum of [totalAmount] over delivered orders, gains the
    order's amount when the order becomes delivered and loses it when a
    delivered order is moved to another status. *)
Theorem getOrderStats_after_status_update now id req db order' db' :
  updateOrderStatus now id req db = (Ok order', db') →
  ∃ existing,
    orders db !! id = Some existing
    ∧ let s := getOrderStats db in
      let s' := getOrderStats db' in
      let moved status :=
        Z.b2z (hasStatus status order') - Z.b2z (hasStatus status existing) in
      totalOrders s' = totalOrders s
      ∧ pendingOrders s' = pendingOrders s + moved "pending"
      ∧ preparingOrders s' = preparingOrders s + moved "preparing"
      ∧ completedOrders s' = completedOrders s + moved "delivered"
      ∧ cancelledOrders s' = cancelledOrders s + moved "cancelled"
      ∧ totalRevenue s'
        = totalRevenue s
          + order_totalAmount existing
            * (Z.b2z (hasStatus "delivered" order')
               - Z.b2z (hasStatus "delivered" existing)).
Proof.
  intros Hrun.
  destruct (updateOrderStatus_cases now id req db) as [[e He]|(existing & Hid & _ & He)];
    rewrite He in Hrun; [done|].
  injection Hrun as <- <-. exists existing. split; [done|].
  destruct (restoreOrderItems_effect now (order_items existing) db) as (_ & Ho & _).
  simpl in Ho.
  assert (orders (with_orders <[id := applyStatusUpdate now req existing]>
            (if String.eqb (sr_status req) "cancelled"
                && negb (String.eqb (order_status existing) "cancelled")
             then fold_left (restoreOrderItem now) (order_items existing) db
             else db))
          = <[id := applyStatusUpdate now req existing]> (orders db)) as Hos.
  { simpl. by destruct (_ && _); [rewrite Ho|]. }
  unfold getOrderStats, countDocuments. cbn [totalOrders pendingOrders preparingOrders
    completedOrders cancelledOrders totalRevenue]. rewrite Hos.
  rewrite !(sumOrders_update _ _ _ _ _ Hid).
  repeat split; try lia.
  unfold revenueOf.
  change (order_totalAmount (applyStatusUpdate now req existing))
    with (order_totalAmount existing).
  destruct (hasStatus "delivered" (applyStatusUpdate now req existing)),
           (hasStatus "delivered" existing); simpl; lia.
Qed.

(** X19. A created order counts as one more order and one more pending
    order, and adds nothing to the revenue or to the other counts; deleting
    an order takes it out of the number of orders and, when it was
    delivered, takes its amount out of the revenue. *)
Theorem getOrderStats_after_create_and_delete now req db id order db1 :
  createOrder now req db = (Ok (id, order), db1) →
  let s := getOrderStats db in
  let s1 := getOrderStats db1 in
  (totalOrders s1 = totalOrders s + 1
   ∧ pendingOrders s1 = pendingOrders s + 1
   ∧ preparingOrders s1 = preparingOrders s
   ∧ completedOrders s1 = completedOrders s
   ∧ cancelledOrders s1 = cancelledOrders s
   ∧ totalRevenue s1 = totalRevenue s)
  ∧ ∀ id' old, orders db1 !! id' = Some old →
      let s2 := getOrderStats (deleteOrder id' db1).2 in
      totalOrders s2 = totalOrders s1 - 1
      ∧ totalRevenue s2 = totalRevenue s1 - revenueOf old.
Proof.
  intros Hrun.
  destruct (createOrder_Ok_inv _ _ _ _ _ _ Hrun) as (total & _ & Hst & ->).
  assert (id = freshOrderId (orders db)) as ->.
  { unfold createOrder in Hrun.
    destruct (co_user req) as [user|]; [|done].
    destruct (isEmptyString (user_restaurant user)); [done|].
    destruct (isEmptyString (co_customerName req) || _); [done|].
    destruct (validateItems db now (co_items req) [] 0) as [[validated t]|]; [|done].
    by injection Hrun as <- _ _. }
  simpl. split.
  - unfold getOrderStats, countDocuments. cbn [totalOrders pendingOrders preparingOrders
      completedOrders cancelledOrders totalRevenue].
    rewrite processOrderItems_ledger_orders. simpl.
    rewrite !sumOrders_insert by apply freshOrderId_fresh.
    unfold revenueOf, hasStatus. rewrite Hst. simpl. repeat split; lia.
  - intros id' old Hold. unfold deleteOrder. rewrite Hold.
    unfold getOrderStats, countDocuments. cbn [totalOrders totalRevenue snd].
    match goal with |- context [orders (with_orders (delete id') ?d)] =>
      change (orders (with_orders (delete id') d)) with (delete id' (orders d))
    end.
    rewrite !(sumOrders_delete _ _ _ _ Hold). simpl. split; lia.
Qed.
End OrderStatistics.

Lemma getOrderStats_after_status_update_witness :
  totalRevenue (getOrderStats kitchenDb) = 50
  ∧ totalRevenue
      (getOrderStats (updateOrderStatus kitchenNow 100 reopenReq kitchenDb).2) = 0.
Proof.
  split; [by vm_compute|].
  destruct (updateOrderStatus kitchenNow 100 reopenReq kitchenDb) as [[o|e] db'] eqn:Hrun;
    [|by vm_compute in Hrun].
  cbn [snd].
  destruct (getOrderStats_after_status_update _ _ _ _ _ _ Hrun)
    as (existing & Hid & _ & _ & _ & _ & _ & ->).
  assert (existing = mkOrder "r1" "Ann" "dine-in" [mkOrderLine 10 1 50 50] 50 None None 50 ""
                       "delivered" None (Some (20 * msPerDay + 500))) as ->.
  { by vm_compute in Hid; injection Hid as <-. }
  assert (o = applyStatusUpdate kitchenNow reopenReq
                (mkOrder "r1" "Ann" "dine-in" [mkOrderLine 10 1 50 50] 50 None None 50 ""
                   "delivered" None (Some (20 * msPerDay + 500)))) as ->.
  { by vm_compute in Hrun; injection Hrun as <- _. }
  by vm_compute.
Defined.

Lemma getOrderStats_after_create_and_delete_witness :
  totalOrders (getOrderStats kitchenDb) = 1
  ∧ totalOrders (getOrderStats (createOrder kitchenNow oneSalad kitchenDb).2) = 2.
Proof.
  split; [by vm_compute|].
  destruct (createOrder kitchenNow oneSalad kitchenDb) as [[[id order]|e] db1] eqn:Hrun;
    [|by vm_compute in Hrun].
  cbn [snd].
  destruct (getOrderStats_after_create_and_delete _ _ _ _ _ _ Hrun) as [(-> & _) _].
  by vm_compute.
Defined.

Section BulkIntake.

Lemma incStockAndQuantity_zero item : incStockAndQuantity 0 item = item.
Proof. destruct item. unfold incStockAndQuantity. simpl. f_equal; lia. Qed.

Lemma incStockAndQuantity_add a b item :
  incStockAndQuantity a (incStockAndQuantity b item) = incStockAndQuantity (b + a) item.
Proof. unfold incStockAndQuantity. simpl. f_equal; lia. Qed.

Lemma applyIntakeEntry_effect now st e :
  let st' := applyIntakeEntry now st e in
  (∀ k, inventoryItems st'.2 !! k
        = incStockAndQuantity (intakeOf k e) <$> inventoryItems st.2 !! k)
  ∧ dailyEntries st'.2 = dailyEntries st.2
  ∧ (∃ added logs,
       st'.1 = st.1 ++ added ∧ inventoryLogs st'.2 = inventoryLogs st.2 ++ logs
       ∧ length added = (if isApplied (inventoryItems st.2) e then 1 else 0)%nat
       ∧ length logs = length added
       ∧ Forall (λ l, 0 < log_change l ∧ log_date l = now) logs).
Proof.
  assert (∀ k, inventoryItems st.2 !! k = incStockAndQuantity 0 <$> inventoryItems st.2 !! k)
    as Hsame.
  { intros k. destruct (inventoryItems st.2 !! k); simpl; [|done].
    by rewrite incStockAndQuantity_zero. }
  assert (∃ added logs : list _,
            st.1 = st.1 ++ added ∧ inventoryLogs st.2 = inventoryLogs st.2 ++ logs
            ∧ length added = 0%nat ∧ length logs = length added
            ∧ Forall (λ l, 0 < log_change l ∧ log_date l = now) logs) as Hskip.
  { exists [], []. by rewrite !app_nil_r. }
  unfold applyIntakeEntry, intakeOf, isApplied.
  destruct (intake_inventoryItemId e) as [id|]; [|done].
  destruct (intake_quantity e) as [q|]; [|done].
  destruct (Z.leb_spec q 0) as [Hq|Hq]; cbn [negb andb].
  { split; [|done]. intros k. by rewrite andb_false_r. }
  destruct (inventoryItems st.2 !! id) as [item|] eqn:Hitem.
  2:{ rewrite bool_decide_eq_false_2 by (by intros [? [=]]). split; [|done].
      intros k. destruct (Z.eqb_spec id k) as [<-|]; simpl; [by rewrite Hitem | apply Hsame]. }
  rewrite bool_decide_eq_true_2 by (by eexists).
  cbn [fst snd]. split.
  { intros k. unfold findByIdAndUpdate. simpl. rewrite lookup_alter.
    destruct (decide (id = k)) as [<-|Hne].
    - by rewrite Z.eqb_refl.
    - destruct (Z.eqb_spec id k); [done|]. simpl. apply Hsame. }
  split; [done|].
  eexists [_], [_]. split; [done|]. split; [done|]. split; [done|]. split; [done|].
  constructor; [simpl; split; [lia | done] | done].
Qed.

Lemma intakeLoop_effect now entries : ∀ st,
  let st' := fold_left (applyIntakeEntry now) entries st in
  (∀ k, inventoryItems st'.2 !! k
        = incStockAndQuantity (intakeFor k entries) <$> inventoryItems st.2 !! k)
  ∧ dailyEntries st'.2 = dailyEntries st.2
  ∧ (∃ added logs,
       st'.1 = st.1 ++ added ∧ inventoryLogs st'.2 = inventoryLogs st.2 ++ logs
       ∧ length added = length (filter (λ e, isApplied (inventoryItems st.2) e = true)
                                  entries)
       ∧ length logs = length added
       ∧ Forall (λ l, 0 < log_change l ∧ log_date l = now) logs).
Proof.
  induction entries as [|e rest IH]; intros st; simpl.
  { split.
    { intros k. destruct (inventoryItems st.2 !! k) as [item|]; simpl; [|done].
      by rewrite incStockAndQuantity_zero. }
    split; [done|]. exists [], []. by rewrite !app_nil_r. }
  destruct (IH (applyIntakeEntry now st e))
    as (Hinv & Hd & added & logs & Hres & Hlogs & Hlen & Hll & Hpos).
  destruct (applyIntakeEntry_effect now st e)
    as (Hinv1 & Hd1 & added1 & logs1 & Hres1 & Hlogs1 & Hlen1 & Hll1 & Hpos1).
  simpl in *.
  assert (filter (λ e0, isApplied (inventoryItems (applyIntakeEntry now st e).2) e0 = true)
            rest
          = filter (λ e0, isApplied (inventoryItems st.2) e0 = true) rest) as Hsame.
  { apply list_filter_iff. intros x. unfold isApplied.
    destruct (intake_inventoryItemId x) as [i|], (intake_quantity x) as [q|]; try done.
    destruct (negb (q <=? 0)); simpl; [|done].
    rewrite !bool_decide_eq_true, Hinv1.
    destruct (inventoryItems st.2 !! i); simpl; split; intros [? ?]; by eexists. }
  split.
  { intros k. rewrite Hinv, Hinv1.
    destruct (inventoryItems st.2 !! k); simpl; [|done].
    by rewrite incStockAndQuantity_add. }
  split; [by rewrite Hd|].
  exists (added1 ++ added), (logs1 ++ logs).
  rewrite Hres, Hres1, Hlogs, Hlogs1, <- !app_assoc.
  split; [done|]. split; [done|]. split.
  { rewrite length_app, Hlen, Hlen1, Hsame.
    destruct (isApplied (inventoryItems st.2) e) eqn:Ha.
    - by rewrite filter_cons_True.
    - rewrite filter_cons_False; [done|]. by rewrite Ha. }
  split; [rewrite !length_app; lia|]. by apply Forall_app.
Qed.

Lemma deduct_inventory_independent now id q db db' :
  dailyEntries db' = dailyEntries db →
  (deductFromDailyInventory now id q db').1 = (deductFromDailyInventory now id q db).1
  ∧ dailyEntries (deductFromDailyInventory now id q db').2
    = dailyEntries (deductFromDailyInventory now id q db).2.
Proof.
  intros Hd. unfold deductFromDailyInventory. rewrite Hd.
  destruct (deductLoop now _ q (dailyEntries db)) as [need stored].
  by destruct (0 <? need).
Qed.

(** X20. A bulk intake raises the stock but never feeds the daily
    ledger. For a non-empty list of entries [applyDailyIntake] succeeds; every
    item gains, on [currentStock] and on [quantity], the sum of the positive
    quantities of the entries that name it; [updatedCount] is the number of
    entries applied (id and quantity present, quantity above zero, item
    known), and one inventory log with a positive change is written for each
    of them. The ledger is left as it is, so a deduction afterwards succeeds
    or fails exactly as it would have before the intake. An empty list is
    rejected and nothing is written. *)
Theorem applyDailyIntake_effect now entries db :
  entries ≠ [] →
  ∃ count results db',
    applyDailyIntake now entries db = (Some (count, results), db')
    ∧ applyDailyIntake now [] db = (None, db)
    ∧ (∀ k, inventoryItems db' !! k
            = incStockAndQuantity (intakeFor k entries) <$> inventoryItems db !! k)
    ∧ count = Z.of_nat (length results)
    ∧ length results
      = length (filter (λ e, isApplied (inventoryItems db) e = true) entries)
    ∧ (∃ logs, inventoryLogs db' = inventoryLogs db ++ logs
               ∧ length logs = length results
               ∧ Forall (λ l, 0 < log_change l ∧ log_date l = now) logs)
    ∧ dailyEntries db' = dailyEntries db
    ∧ ∀ now' id q,
        (deductFromDailyInventory now' id q db').1
        = (deductFromDailyInventory now' id q db).1.
Proof.
  intros Hne. unfold applyDailyIntake.
  destruct entries as [|e rest]; [done|]. clear Hne.
  change (Nat.eqb (length (e :: rest)) 0) with false. cbv iota.
  destruct (intakeLoop_effect now (e :: rest) ([], db))
    as (Hinv & Hd & added & logs & Hres & Hlogs & Hlen & Hll & Hpos).
  cbn [fst snd] in *. rewrite app_nil_l in Hres.
  eexists _, _, _. split; [reflexivity|]. split; [done|].
  split; [exact Hinv|]. split; [done|].
  split; [by rewrite Hres|].
  split; [exists logs; by rewrite Hres|].
  split; [exact Hd|].
  intros now' id q. by apply deduct_inventory_independent.
Qed.
End BulkIntake.

Lemma applyDailyIntake_effect_witness :
  ∃ db', applyDailyIntake kitchenNow
           [mkIntakeEntry (Some 1) (Some 4) ""; mkIntakeEntry (Some 1) (Some (-2)) "";
            mkIntakeEntry (Some 9) (Some 3) ""; mkIntakeEntry None (Some 3) ""]
           kitchenDb
         = (Some (1, [mkIntakeResult 1 "tomato" 9]), db')
         ∧ stockOf db' 1 = 9
         ∧ dailyEntries db' = dailyEntries kitchenDb.
Proof.
  destruct (applyDailyIntake_effect kitchenNow
              [mkIntakeEntry (Some 1) (Some 4) ""; mkIntakeEntry (Some 1) (Some (-2)) "";
               mkIntakeEntry (Some 9) (Some 3) ""; mkIntakeEntry None (Some 3) ""]
              kitchenDb ltac:(done))
    as (count & results & db' & Hrun & _ & Hinv & _ & _ & _ & Hd & _).
  exists db'. split.
  - rewrite Hrun. vm_compute in Hrun. by injection Hrun as <- <- _.
  - split; [|exact Hd]. unfold stockOf. rewrite Hinv. by vm_compute.
Defined.

Section ItemDeletion.

Lemma createOrder_Err_inv now req db e db' :
  createOrder now req db = (Err e, db') → db' = db.
Proof.
  unfold createOrder.
  destruct (co_user req) as [user|]; [|by intros [= _ <-]].
  destruct (isEmptyString (user_restaurant user)); [by intros [= _ <-]|].
  destruct (isEmptyString (co_customerName req) || _); [by intros [= _ <-]|].
  destruct (validateItems db now (co_items req) [] 0) as [[validated total]|];
    [done | by intros [= _ <-]].
Qed.

Lemma createOrder_unavailable now req db :
  (∃ orderItem, orderItem ∈ co_items req ∧ lineUnavailable db now orderItem) →
  ∃ e, createOrder now req db = (Err e, db).
Proof.
  intros Hbad. destruct (validateItems_unavailable db now (co_items req) [] 0 Hbad) as [e He].
  unfold createOrder. rewrite He.
  destruct (co_user req) as [user|]; [|by eexists].
  destruct (isEmptyString (user_restaurant user)); [by eexists|].
  destruct (isEmptyString (co_customerName req) || _); by eexists.
Qed.

(** X21. Deleting an inventory item leaves whatever refers to it
    dangling. [deleteInventoryItem] fails only for an unknown id, writing
    nothing; otherwise the item is removed and the recipes, the orders and
    the daily ledger are left as they are. From then on a recipe that uses
    the item is unavailable for every number of dishes, with a missing
    ingredient reported, and an order request with a line for such a dish is
    rejected without a write. *)
Theorem deleteInventoryItem_dangling id db db1 :
  deleteInventoryItem id db = (Ok tt, db1) →
  inventoryItems db1 = delete id (inventoryItems db)
  ∧ menuItems db1 = menuItems db
  ∧ orders db1 = orders db
  ∧ dailyEntries db1 = dailyEntries db
  ∧ deleteInventoryItem id db1 = (Err InventoryItemNotFound, db1)
  ∧ ∀ now m menuItem,
      menuItems db !! m = Some menuItem →
      id ∈ ing_ingredient <$> menu_ingredients menuItem →
      (∀ quantity,
         let r := checkIngredientAvailability (inventoryItems db1) now
                    (menu_ingredients menuItem) quantity in
         isAvailable r = false ∧ stockStatus r = "out_of_stock"
         ∧ missingIngredients r ≠ [])
      ∧ ∀ req orderItem,
          orderItem ∈ co_items req → oi_menuItem orderItem = Some m →
          ∃ e, createOrder now req db1 = (Err e, db1).
Proof.
  unfold deleteInventoryItem.
  destruct (inventoryItems db !! id) as [item|] eqn:Hitem; [|done].
  intros [= <-]. simpl. rewrite lookup_delete_eq.
  do 5 (split; [done|]).
  intros now m menuItem Hmenu Hin.
  apply list_elem_of_fmap in Hin as (i & -> & Hi).
  assert (∀ quantity,
            isAvailable (checkIngredientAvailability (delete (ing_ingredient i)
                           (inventoryItems db)) now (menu_ingredients menuItem) quantity)
            = false) as Hno.
  { intros quantity. destruct (isAvailable _) eqn:Hav; [|done].
    apply isAvailable_iff in Hav. rewrite forallb_forall in Hav.
    specialize (Hav i (proj1 (list_elem_of_In _ _) Hi)).
    unfold isMissing in Hav. by rewrite lookup_delete_eq in Hav. }
  split.
  - intros quantity. split; [apply Hno|].
    destruct (checkIngredientAvailability_missing_ids
                (delete (ing_ingredient i) (inventoryItems db)) now
                (menu_ingredients menuItem) quantity) as [Hids _].
    simpl in Hids.
    assert (ing_ingredient i
            ∈ miss_ingredient <$> missingIngredients
                (checkIngredientAvailability (delete (ing_ingredient i) (inventoryItems db))
                   now (menu_ingredients menuItem) quantity)) as Hin.
    { rewrite Hids. apply list_elem_of_fmap_2, list_elem_of_filter. split; [|done].
      unfold isMissing. by rewrite lookup_delete_eq. }
    assert (missingIngredients
              (checkIngredientAvailability (delete (ing_ingredient i) (inventoryItems db))
                 now (menu_ingredients menuItem) quantity) ≠ []) as Hne.
    { intros Hnil. rewrite Hnil in Hin. by apply elem_of_nil in Hin. }
    split; [|exact Hne].
    destruct (checkIngredientAvailability_flags
                (delete (ing_ingredient i) (inventoryItems db)) now quantity
                (menu_ingredients menuItem)) as (_ & Hout & _).
    by apply Hout.
  - intros req orderItem Hin Hm.
    apply (createOrder_unavailable now req
             (with_inventoryItems (delete (ing_ingredient i)) db)).
    exists orderItem. split; [done|]. exists m, menuItem. split; [done|]. split; [done|].
    apply Hno.
Qed.
End ItemDeletion.

Lemma deleteInventoryItem_dangling_witness :
  ∃ db1, deleteInventoryItem 1 kitchenDb = (Ok tt, db1)
         ∧ ∃ e, createOrder kitchenNow oneSalad db1 = (Err e, db1).
Proof.
  destruct (deleteInventoryItem 1 kitchenDb) as [[[]|e] db1] eqn:Hrun;
    [|by vm_compute in Hrun].
  exists db1. split; [done|].
  destruct (deleteInventoryItem_dangling 1 kitchenDb db1 Hrun) as (_ & _ & _ & _ & _ & H).
  destruct (H kitchenNow 10 (mkMenuItem "salad" [mkIngredient 1 3 "kg"])) as [_ Hreq].
  - by vm_compute.
  - simpl. apply elem_of_cons. by left.
  - apply (Hreq oneSalad (mkOrderItemReq (Some 10) 1 50)); [|done].
    unfold oneSalad. simpl. apply elem_of_cons. by left.
Defined.

Section StockOnly.

#[local] Abbreviation catalogue db := (forgetStock <$> inventoryItems db) (only parsing).

Lemma catalogue_incStock id d db :
  catalogue (findByIdAndUpdate id (incStock d) db) = catalogue db.
Proof.
  apply map_eq. intros k. unfold findByIdAndUpdate. simpl.
  rewrite !lookup_fmap, lookup_alter.
  destruct (decide (id = k)) as [<-|]; [|done].
  by destruct (inventoryItems db !! id).
Qed.

Lemma catalogue_deduct now id q db :
  catalogue (deductFromDailyInventory now id q db).2 = catalogue db.
Proof.
  unfold deductFromDailyInventory.
  destruct (deductLoop now _ q (dailyEntries db)) as [need stored].
  destruct (0 <? need); [done|]. cbn [snd]. by rewrite catalogue_incStock.
Qed.

Lemma catalogue_deductIngredients now m q ingredients : ∀ db,
  catalogue (deductIngredients now m ingredients q db).2 = catalogue db.
Proof.
  induction ingredients as [|i rest IH]; intros db; simpl; [done|].
  destruct (inventoryItems db !! ing_ingredient i) as [item|]; [|by rewrite IH].
  destruct (item_currentStock item <? ing_quantity i * q); [done|].
  pose proof (catalogue_deduct now (ing_ingredient i) (ing_quantity i * q) db) as Hd.
  destruct (deductFromDailyInventory now (ing_ingredient i) (ing_quantity i * q) db)
    as [[[]|e] db1]; simpl in *; [|done].
  by rewrite IH.
Qed.

Lemma catalogue_processOrderItems now items : ∀ db,
  catalogue (fold_left (processOrderItem now) items db) = catalogue db.
Proof.
  induction items as [|oi rest IH]; intros db; simpl; [done|].
  rewrite IH. unfold processOrderItem.
  destruct (oi_menuItem oi) as [m|]; [|done].
  destruct (menuItems db !! m) as [menuItem|]; [|done].
  pose proof (catalogue_deductIngredients now m (oi_quantity oi)
                (menu_ingredients menuItem) db) as Hd.
  by destruct (deductIngredients now m (menu_ingredients menuItem) (oi_quantity oi) db)
    as [[[]|e] db1].
Qed.

Lemma catalogue_restoreOrderItems now lines : ∀ db,
  catalogue (fold_left (restoreOrderItem now) lines db) = catalogue db.
Proof.
  induction lines as [|line rest IH]; intros db; simpl; [done|].
  rewrite IH. unfold restoreOrderItem.
  destruct (menuItems db !! line_menuItem line) as [menuItem|]; [|done].
  generalize (menu_ingredients menuItem). intros ingredients. clear.
  revert db. induction ingredients as [|i rest IH]; intros db; simpl; [done|].
  rewrite IH. unfold restoreIngredient.
  destruct (inventoryItems db !! ing_ingredient i); [|done].
  destruct (ing_quantity i * line_quantity line <=? 0); [done|].
  apply (catalogue_incStock _ _ db).
Qed.

Lemma catalogue_restoreLinesUnguarded lines : ∀ db,
  catalogue (restoreLinesUnguarded lines db).2 = catalogue db.
Proof.
  assert (∀ q ingredients db,
            catalogue (restoreIngredientsUnguarded ingredients q db).2 = catalogue db)
    as Hing.
  { intros q ingredients. induction ingredients as [|i rest IH]; intros db; simpl; [done|].
    destruct (inventoryItems db !! ing_ingredient i); [|done].
    by rewrite IH, catalogue_incStock. }
  induction lines as [|line rest IH]; intros db; simpl; [done|].
  destruct (menuItems db !! line_menuItem line) as [menuItem|]; [|apply IH].
  pose proof (Hing (line_quantity line) (menu_ingredients menuItem) db) as H1.
  destruct (restoreIngredientsUnguarded (menu_ingredients menuItem) (line_quantity line) db)
    as [[[]|e] db1]; simpl in *; [|done]. by rewrite IH.
Qed.

Lemma catalogue_replaceItems now items : ∀ validated subtotal db,
  catalogue (replaceItems now items validated subtotal db).2 = catalogue db.
Proof.
  assert (∀ q ingredients db,
            catalogue (deductIngredientsStrict now ingredients q db).2 = catalogue db)
    as Hing.
  { intros q ingredients. induction ingredients as [|i rest IH]; intros db; simpl; [done|].
    destruct (inventoryItems db !! ing_ingredient i); [|done].
    pose proof (catalogue_deduct now (ing_ingredient i) (ing_quantity i * q) db) as Hd.
    destruct (deductFromDailyInventory now (ing_ingredient i) (ing_quantity i * q) db)
      as [[[]|e] db1]; simpl in *; [|done]. by rewrite IH. }
  induction items as [|oi rest IH]; intros validated subtotal db; simpl; [done|].
  destruct (oi_menuItem oi ≫= _) as [[m menuItem]|]; [|done].
  destruct (negb _); [done|].
  pose proof (Hing (oi_quantity oi) (menu_ingredients menuItem) db) as H1.
  destruct (deductIngredientsStrict now (menu_ingredients menuItem) (oi_quantity oi) db)
    as [[[]|e] db1]; simpl in *; [|done]. by rewrite IH.
Qed.

Lemma countItems_catalogue P (inv : gmap Z InventoryItem) :
  (∀ item, P (forgetStock item) = P item) →
  countItems P (forgetStock <$> inv) = countItems P inv.
Proof.
  intros HP. unfold countItems. rewrite map_fold_fmap, !map_fold_foldr.
  induction (map_to_list inv) as [|[k item] l IH]; simpl; [done|].
  by rewrite IH, HP.
Qed.

(** X22. Selling changes [currentStock] and nothing else of an item. A
    ledger deduction, the creation of an order, a status update and the edit
    of an order add no item, remove none, and leave the name, unit,
    [quantity], cost, threshold, expiry date and status of every item as
    they were, whether they succeed or fail. The counts of
    [getInventoryStats], which are taken on [quantity], the threshold and the
    expiry date, are therefore the same before and after. *)
Theorem orders_change_only_currentStock now op db :
  isOrderOperation op = true →
  forgetStock <$> inventoryItems (run now op db) = forgetStock <$> inventoryItems db
  ∧ ∀ now', getInventoryStats now' (run now op db) = getInventoryStats now' db.
Proof.
  intros Hop.
  assert (catalogue (run now op db) = catalogue db) as Hcat.
  { destruct op as [req|id q| | |req|id req|id req| |]; try discriminate Hop; cbn [run].
    - apply catalogue_deduct.
    - unfold createOrder.
      destruct (co_user req) as [user|]; [|done].
      destruct (isEmptyString (user_restaurant user)); [done|].
      destruct (isEmptyString (co_customerName req) || _); [done|].
      destruct (validateItems db now (co_items req) [] 0) as [[validated total]|]; [|done].
      cbn [snd]. by rewrite catalogue_processOrderItems.
    - unfold updateOrderStatus.
      destruct (isEmptyString (sr_status req)); [done|].
      destruct (negb _); [done|].
      destruct (orders db !! id) as [existingOrder|]; [|done]. cbn [snd].
      destruct (_ && _); [|done].
      apply (catalogue_restoreOrderItems now (order_items existingOrder) db).
    - unfold updateOrder.
      destruct (orders db !! id) as [existingOrder|]; [|done].
      destruct (negb (String.eqb _ _)); [done|].
      destruct (_ || _); [done|].
      destruct (negb (Nat.eqb _ 0)); [|done].
      pose proof (catalogue_restoreLinesUnguarded (order_items existingOrder) db) as H1.
      destruct (restoreLinesUnguarded (order_items existingOrder) db) as [[[]|e] db1];
        simpl in *; [|done].
      pose proof (catalogue_replaceItems now (uo_items req) [] 0 db1) as H2.
      destruct (replaceItems now (uo_items req) [] 0 db1) as [[[validated total]|e] db2];
        simpl in *; by rewrite H2. }
  split; [exact Hcat|]. intros now'. unfold getInventoryStats.
  rewrite <- (countItems_catalogue (λ _, true) (inventoryItems (run now op db))) by done.
  rewrite <- (countItems_catalogue isLowOnQuantity (inventoryItems (run now op db))) by done.
  rewrite <- (countItems_catalogue (λ item, isExpiredAt now' (item_expiryDate item))
                (inventoryItems (run now op db))) by done.
  rewrite <- (countItems_catalogue (λ item, item_quantity item =? 0)
                (inventoryItems (run now op db))) by done.
  rewrite Hcat.
  by rewrite !countItems_catalogue.
Qed.
End StockOnly.

Lemma orders_change_only_currentStock_witness :
  stockOf (run kitchenNow (OpCreateOrder oneSalad) kitchenDb) 1 = 2
  ∧ getInventoryStats kitchenNow (run kitchenNow (OpCreateOrder oneSalad) kitchenDb)
    = getInventoryStats kitchenNow kitchenDb.
Proof.
  split; [by vm_compute|].
  by apply (orders_change_only_currentStock kitchenNow (OpCreateOrder oneSalad) kitchenDb).
Defined.

Section Pagination.
Context {A : Type}.

Lemma ceilDiv_spec a b : 0 < b → (ceilDiv a b - 1) * b < a ≤ ceilDiv a b * b.
Proof.
  intros Hb. unfold ceilDiv.
  pose proof (Z.div_mod (- a) b ltac:(lia)) as Hdm.
  pose proof (Z.mod_pos_bound (- a) b Hb) as Hr. nia.
Qed.

Lemma lt_ceilDiv p a b : 0 < b → p < ceilDiv a b ↔ p * b < a.
Proof. intros Hb. pose proof (ceilDiv_spec a b Hb). split; intros; nia. Qed.

(** X23. The pages of a listing cut the result into consecutive slices.
    For a page number and a limit of at least 1: the document at position [i]
    of the result is on page [i / limit + 1], at position [i mod limit]; a
    page holds [min limit (total - skip)] documents, none when that is
    negative; it is empty exactly when its number is above [totalPages];
    [hasNextPage] holds exactly when the next page is not empty; and the
    next and previous page numbers are given exactly when those pages exist. *)
Theorem paginatedResponse_slices (found : list A) (pageNum limitNum : Z) :
  1 ≤ pageNum → 1 ≤ limitNum →
  let r := paginatedResponse found pageNum limitNum in
  let total := Z.of_nat (length found) in
  (∀ i : nat,
     docs (paginatedResponse found (Z.of_nat i / limitNum + 1) limitNum)
       !! Z.to_nat (Z.of_nat i mod limitNum)
     = found !! i)
  ∧ Z.of_nat (length (docs r))
    = Z.min limitNum (Z.max 0 (total - (pageNum - 1) * limitNum))
  ∧ (docs r = [] ↔ totalPages r < pageNum)
  ∧ (hasNextPage r = true ↔ docs (paginatedResponse found (pageNum + 1) limitNum) ≠ [])
  ∧ nextPage r = (if hasNextPage r then Some (pageNum + 1) else None)
  ∧ (hasPrevPage r = true ↔ 1 ≤ pageNum - 1)
  ∧ prevPage r = (if hasPrevPage r then Some (pageNum - 1) else None).
Proof.
  intros Hp Hl. cbn zeta.
  assert (∀ p, 1 ≤ p →
            Z.of_nat (length (docs (paginatedResponse found p limitNum)))
            = Z.min limitNum (Z.max 0 (Z.of_nat (length found) - (p - 1) * limitNum)))
    as Hlen.
  { intros p Hp'. unfold paginatedResponse. cbn [docs].
    rewrite length_take, length_drop. nia. }
  assert (∀ p, 1 ≤ p →
            docs (paginatedResponse found p limitNum) = []
            ↔ Z.of_nat (length found) ≤ (p - 1) * limitNum) as Hempty.
  { intros p Hp'. specialize (Hlen p Hp').
    destruct (docs (paginatedResponse found p limitNum)) as [|x l]; simpl in *.
    - split; [lia | done].
    - split; [done | lia]. }
  split.
  { intros i. unfold paginatedResponse. cbn [docs].
    pose proof (Z.div_mod (Z.of_nat i) limitNum ltac:(lia)) as Hdm.
    pose proof (Z.mod_pos_bound (Z.of_nat i) limitNum ltac:(lia)) as Hr.
    assert (0 ≤ Z.of_nat i / limitNum) as Hq by (apply Z.div_pos; lia).
    rewrite lookup_take_lt by lia. rewrite lookup_drop. f_equal. nia. }
  split; [by apply Hlen|].
  split.
  { rewrite (Hempty pageNum Hp). unfold paginatedResponse. cbn [totalPages].
    pose proof (lt_ceilDiv (pageNum - 1) (Z.of_nat (length found)) limitNum ltac:(lia)).
    lia. }
  split.
  { rewrite (Hempty (pageNum + 1)) by lia. unfold paginatedResponse. cbn [hasNextPage].
    rewrite Z.ltb_lt, (lt_ceilDiv pageNum) by lia. lia. }
  split; [done|]. split; [|done].
  unfold paginatedResponse. cbn [hasPrevPage]. rewrite Z.ltb_lt. lia.
Qed.
End Pagination.

Lemma paginatedResponse_slices_witness :
  docs (paginatedResponse [10; 11; 12; 13; 14] 2 2) = [12; 13]
  ∧ docs (paginatedResponse [10; 11; 12; 13; 14] 3 2) = [14]
  ∧ totalPages (paginatedResponse [10; 11; 12; 13; 14] 2 2) = 3
  ∧ hasNextPage (paginatedResponse [10; 11; 12; 13; 14] 2 2) = true.
Proof.
  split; [reflexivity|]. split; [reflexivity|]. split; [reflexivity|].
  apply (paginatedResponse_slices [10; 11; 12; 13; 14] 2 2); [lia | lia |].
  by vm_compute.
Defined.

Section OrderForm.

Lemma cartStep_ids_map (f : CartItem → CartItem) (items : list CartItem) :
  (∀ item, cart_menuItem (f item) = cart_menuItem item) →
  (λ item, card_id (cart_menuItem item)) <$> (f <$> items)
  = (λ item, card_id (cart_menuItem item)) <$> items.
Proof.
  intros Hf. rewrite <- list_fmap_compose. apply list_fmap_ext. intros i x _. simpl.
  by rewrite Hf.
Qed.

Lemma cartStep_wellFormed (items : list CartItem) a :
  cartWellFormed items → cartWellFormed (cartStep items a).
Proof.
  intros [Hnd Hall]. destruct a as [menuItem|id|id q]; simpl.
  - unfold addItemToOrder.
    destruct (List.find _ items) as [found|] eqn:Hfind.
    + split.
      * rewrite cartStep_ids_map; [done|]. intros item. by destruct (_ =? _).
      * apply Forall_fmap. eapply Forall_impl; [exact Hall|].
        intros item (Hq & Hu & Ht). simpl. destruct (_ =? _); simpl; [|done].
        repeat split; [lia | done].
    + split.
      * rewrite fmap_app. apply NoDup_app. split; [done|]. split; [|apply NoDup_singleton].
        intros x Hx. simpl. intros [->|[]%elem_of_nil]%elem_of_cons.
        apply list_elem_of_fmap in Hx as (item & Hid & Hin).
        apply list_elem_of_In in Hin.
        pose proof (find_none _ _ Hfind item Hin) as Hno. simpl in Hno.
        rewrite <- Hid in Hno. by rewrite Z.eqb_refl in Hno.
      * apply Forall_app. split; [done|]. constructor; [|done]. simpl.
        repeat split; lia.
  - unfold removeItemFromOrder. split.
    + eapply sublist_NoDup; [exact Hnd | apply fmap_sublist, sublist_filter].
    + apply Forall_forall. intros x [_ Hx]%list_elem_of_filter.
        by apply (proj1 (Forall_forall _ _) Hall).
  - unfold updateOrderItemQuantity. destruct (Z.leb_spec q 0) as [Hq|Hq].
    + unfold removeItemFromOrder. split.
      * eapply sublist_NoDup; [exact Hnd | apply fmap_sublist, sublist_filter].
      * apply Forall_forall. intros x [_ Hx]%list_elem_of_filter.
        by apply (proj1 (Forall_forall _ _) Hall).
    + split.
      * rewrite cartStep_ids_map; [done|]. intros item. by destruct (_ =? _).
      * apply Forall_fmap. eapply Forall_impl; [exact Hall|].
        intros item (Hq' & Hu & Ht). simpl. destruct (_ =? _); simpl; [|done].
        repeat split; [lia | done].
Qed.

Lemma calculateOrderTotal_requestTotal (items : list CartItem) :
  Forall (λ item, cart_totalPrice item = cart_quantity item * cart_unitPrice item) items →
  calculateOrderTotal items = requestTotal (orderPayloadItems items).
Proof.
  intros Hall. unfold calculateOrderTotal.
  assert (∀ acc, fold_left (λ total item, total + cart_totalPrice item) items acc
                 = acc + requestTotal (orderPayloadItems items)) as H.
  { induction Hall as [|item rest Hi _ IH]; intros acc; simpl; [lia|].
    rewrite IH, Hi. lia. }
  by rewrite H.
Qed.

(** X24. The total shown by the order form is the total the server
    stores. Whatever sequence of additions, removals and quantity changes
    built the form from an empty one, its lines name distinct dishes, each
    with a quantity of at least 1 and [totalPrice = quantity * unitPrice];
    and when [createOrder] accepts the payload made of these lines, the
    order it stores has as many lines and has [calculateOrderTotal] as its
    [subtotal] and [totalAmount]. *)
Theorem order_form_total (actions : list CartAction) :
  let items := fold_left cartStep actions [] in
  cartWellFormed items
  ∧ ∀ now req db id order db',
      co_items req = orderPayloadItems items →
      createOrder now req db = (Ok (id, order), db') →
      length (order_items order) = length items
      ∧ order_subtotal order = calculateOrderTotal items
      ∧ order_totalAmount order = calculateOrderTotal items.
Proof.
  cbn zeta.
  assert (cartWellFormed (fold_left cartStep actions [])) as Hwf.
  { assert (∀ items, cartWellFormed items → cartWellFormed (fold_left cartStep actions items))
      as H.
    { induction actions as [|a rest IH]; intros items Hi; simpl; [done|].
      by apply IH, cartStep_wellFormed. }
    apply H. split; [constructor | constructor]. }
  split; [exact Hwf|].
  intros now req db id order db' Hitems Hrun.
  rewrite calculateOrderTotal_requestTotal, <- Hitems.
  2:{ destruct Hwf as [_ Hall]. eapply Forall_impl; [exact Hall|]. by intros item (_ & _ & ?). }
  destruct (createOrder_Ok_inv _ _ _ _ _ _ Hrun) as (total & Hval & _ & _).
  destruct (validateItems_lines _ _ _ _ _ _ _ Hval) as (lines & Hl & HF).
  destruct (validateItems_totals _ _ _ _ _ _ _ Hval) as (Ht & _).
  split.
  { simpl in Hl. rewrite Hl, <- (Forall2_length _ _ _ HF), Hitems.
    unfold orderPayloadItems. by rewrite length_fmap. }
  unfold createOrder in Hrun.
  destruct (co_user req) as [user|]; [|done].
  destruct (isEmptyString (user_restaurant user)); [done|].
  destruct (isEmptyString (co_customerName req) || _); [done|].
  rewrite Hval in Hrun. injection Hrun as _ Hord _. rewrite <- Hord. simpl. lia.
Qed.

(** X25. Without stock information from the server, the form's own
    check of a dish agrees with the server's availability check for one
    dish on the same inventory at the same time: [canPrepareItem] holds
    exactly when [checkIngredientAvailability] with multiplier 1 reports the
    recipe available. *)
Theorem canPrepareItem_agrees (inventory : gmap Z InventoryItem) (now : Date)
    (ingredients : list Ingredient) :
  canPrepareItem inventory now None ingredients
  = isAvailable (checkIngredientAvailability inventory now ingredients 1)
  ∧ canPrepareItem inventory now
      (Some (checkIngredientAvailability inventory now ingredients 1)) ingredients
    = canPrepareItem inventory now None ingredients.
Proof.
  assert (canPrepareItem inventory now None ingredients
          = isAvailable (checkIngredientAvailability inventory now ingredients 1)) as H.
  { apply eq_true_iff_eq. rewrite isAvailable_iff. unfold canPrepareItem.
    assert (forallb (λ ingredient,
                       match inventory !! ing_ingredient ingredient with
                       | None => false
                       | Some ingItem =>
                           if isExpiredAt now (item_expiryDate ingItem) then false
                           else if String.eqb (item_status ingItem) "expired" then false
                           else ing_quantity ingredient <=? item_currentStock ingItem
                       end) ingredients
            = forallb (λ i, negb (isMissing inventory now 1 i)) ingredients) as ->.
    { induction ingredients as [|i rest IH]; simpl; [done|]. rewrite IH. f_equal.
      unfold isMissing. destruct (inventory !! ing_ingredient i) as [item|]; [|done].
      destruct (isExpiredAt now (item_expiryDate item)); [done|].
      destruct (String.eqb (item_status item) "expired"); [done|]. simpl.
      rewrite Z.mul_1_r.
      destruct (Z.leb_spec (ing_quantity i) (item_currentStock item)),
               (Z.ltb_spec (item_currentStock item) (ing_quantity i)); simpl; lia. }
    by destruct ingredients. }
  split; [exact H|]. by rewrite H.
Qed.
End OrderForm.

Lemma order_form_total_witness :
  let items := fold_left cartStep
                 [CartAdd (mkMenuCard 10 50); CartAdd (mkMenuCard 11 30);
                  CartAdd (mkMenuCard 10 50); CartSetQuantity 11 0;
                  CartSetQuantity 10 1] [] in
  calculateOrderTotal items = 50
  ∧ ∃ id order db',
      createOrder kitchenNow oneSalad kitchenDb = (Ok (id, order), db')
      ∧ order_totalAmount order = calculateOrderTotal items.
Proof.
  cbn zeta. split; [reflexivity|].
  destruct (createOrder kitchenNow oneSalad kitchenDb) as [[[id order]|e] db'] eqn:Hrun;
    [|by vm_compute in Hrun].
  exists id, order, db'. split; [done|].
  destruct (order_form_total
              [CartAdd (mkMenuCard 10 50); CartAdd (mkMenuCard 11 30);
               CartAdd (mkMenuCard 10 50); CartSetQuantity 11 0; CartSetQuantity 10 1])
    as [_ H].
  by destruct (H kitchenNow oneSalad kitchenDb id order db' eq_refl Hrun) as (_ & _ & ->).
Defined.
